(** * SafePath Stories: the safety critic and the slide normaliser

    A shallow embedding of [backend/app/safety_critic.py] and of the slide
    normaliser of [backend/app/story_generation.py], with the properties the
    specification states about them.

    Python values are embedded as a small JSON-like universe ([PyVal]);
    Python [str] is a list of 8-bit characters read as the code points
    U+0000..U+00FF, with [str.lower], [str.strip] and the regular-expression
    classes written out for that range.  Dictionaries are association lists
    in insertion order.  Exceptions are an explicit [result] type. *)

From Stdlib Require Import List Ascii String ZArith Lia Bool Arith PeanoNat.
From Stdlib Require Import Numbers.DecimalString Sorting.Sorted.
Import ListNotations.

Set Warnings "-register-all".

(* ===================================================================== *)
(** ** Text *)
(* ===================================================================== *)

Module Text.

(** A Python [str]. *)
Definition pystr := list ascii.

(** A literal of the source. *)
Definition py (s : string) : pystr := list_ascii_of_string s.

Definition ord (c : ascii) : nat := nat_of_ascii c.
Definition chr (n : nat) : ascii := ascii_of_nat n.

Definition backslash : ascii := chr 92.

Definition in_range (lo hi n : nat) : bool := (lo <=? n) && (n <=? hi).

(** [str.isspace] on one character: TAB..CR, FS..US, space, NEL, NBSP. *)
Definition is_space (c : ascii) : bool :=
  let n := ord c in
  in_range 9 13 n || in_range 28 32 n || (n =? 133) || (n =? 160).

(** [str.lower] on one character: A..Z and the Latin-1 capitals. *)
Definition lower_char (c : ascii) : ascii :=
  let n := ord c in
  if in_range 65 90 n || (in_range 192 222 n && negb (n =? 215))
  then chr (n + 32) else c.

(** [str.lower]. *)
Definition lower (s : pystr) : pystr := map lower_char s.

(** The class [\w] of [re] on [str] patterns: alphanumerics and underscore. *)
Definition is_word (c : ascii) : bool :=
  let n := ord c in
  in_range 48 57 n || in_range 65 90 n || in_range 97 122 n || (n =? 95)
  || (n =? 170) || (n =? 178) || (n =? 179) || (n =? 181) || (n =? 185)
  || (n =? 186) || in_range 188 190 n || in_range 192 214 n
  || in_range 216 246 n || in_range 248 255 n.

Fixpoint lstrip (s : pystr) : pystr :=
  match s with
  | c :: s' => if is_space c then lstrip s' else s
  | [] => []
  end.

Definition rstrip (s : pystr) : pystr := rev (lstrip (rev s)).

(** [str.strip()]. *)
Definition strip (s : pystr) : pystr := rstrip (lstrip s).

Fixpoint pystr_eqb (a b : pystr) : bool :=
  match a, b with
  | [], [] => true
  | x :: a', y :: b' => Ascii.eqb x y && pystr_eqb a' b'
  | _, _ => false
  end.

(** [u] is a prefix of [s]. *)
Fixpoint starts_with (u s : pystr) : bool :=
  match u, s with
  | [], _ => true
  | x :: u', y :: s' => Ascii.eqb x y && starts_with u' s'
  | _ :: _, [] => false
  end.

(** [u in s] for strings. *)
Fixpoint contains (u s : pystr) : bool :=
  starts_with u s ||
  match s with
  | [] => false
  | _ :: s' => contains u s'
  end.

(** [s[:n]] for an integer [n] of either sign. *)
Definition slice_to (n : Z) (s : pystr) : pystr :=
  if (0 <=? n)%Z then firstn (Z.to_nat n) s
  else firstn (List.length s - Z.to_nat (- n)) s.

(** [len(s)] as a Python integer. *)
Definition len (s : pystr) : Z := Z.of_nat (List.length s).

(** Decimal rendering of an integer, as [str(int)] and the f-string fields. *)
Definition str_of_Z (z : Z) : pystr := py (NilZero.string_of_int (Z.to_int z)).
Definition str_of_nat (n : nat) : pystr := str_of_Z (Z.of_nat n).

End Text.

Export Text.

(* ===================================================================== *)
(** ** Regular expressions *)
(* ===================================================================== *)

(** The fragment of Python's [re] the source uses: a pattern is a sequence
    of literal characters and word-boundary assertions.  In pattern syntax a
    backslash followed by a backslash is a literal backslash, a backslash
    followed by [b] is the assertion [\b], and a backslash followed by a
    punctuation character is that character.  Replacement templates hold no
    backslash, so they are inserted as they are. *)
Module Re.

Inductive item : Type :=
| Lit (c : ascii)
| WordBoundary.

Definition regex := list item.

Definition is_alnum_ascii (c : ascii) : bool :=
  let n := ord c in in_range 48 57 n || in_range 65 90 n || in_range 97 122 n.

(** The characters [re.escape] protects. *)
Definition is_special (c : ascii) : bool :=
  contains [c] (py "()[]{}?*+-|^$\.&~# ") || in_range 9 13 (ord c).

(** [re.escape]. *)
Definition escape (s : pystr) : pystr :=
  flat_map (fun c => if is_special c then [backslash; c] else [c]) s.

(** Metacharacters, which are outside the fragment when not escaped. *)
Definition is_meta (c : ascii) : bool := contains [c] (py ".^$*+?{}[]|()").

(** The pattern is inside the fragment. *)
Fixpoint supported (p : pystr) : bool :=
  match p with
  | [] => true
  | c :: rest =>
      if Ascii.eqb c backslash then
        match rest with
        | [] => false
        | d :: rest' =>
            (Ascii.eqb d (chr 98) || negb (is_alnum_ascii d)) && supported rest'
        end
      else negb (is_meta c) && supported rest
  end.

(** [re.compile] on the fragment. *)
Fixpoint compile (p : pystr) : regex :=
  match p with
  | [] => []
  | c :: rest =>
      if Ascii.eqb c backslash then
        match rest with
        | [] => [Lit c]
        | d :: rest' =>
            (if Ascii.eqb d (chr 98) then WordBoundary else Lit d) :: compile rest'
        end
      else Lit c :: compile rest
  end.

(** Character comparison, under [re.IGNORECASE] when [ci] is set. *)
Definition char_eq (ci : bool) (a b : ascii) : bool :=
  if ci then Ascii.eqb (lower_char a) (lower_char b) else Ascii.eqb a b.

Definition word_before (prev : option ascii) : bool :=
  match prev with Some c => is_word c | None => false end.

Definition word_after (s : pystr) : bool :=
  match s with c :: _ => is_word c | [] => false end.

(** The match of [r] that starts at the head of [s], [prev] being the
    character before it: the number of characters it consumes. *)
Fixpoint match_here (ci : bool) (r : regex) (prev : option ascii) (s : pystr)
  : option nat :=
  match r with
  | [] => Some 0
  | WordBoundary :: r' =>
      if xorb (word_before prev) (word_after s)
      then match_here ci r' prev s else None
  | Lit c :: r' =>
      match s with
      | x :: s' =>
          if char_eq ci c x
          then option_map S (match_here ci r' (Some x) s') else None
      | [] => None
      end
  end.

Fixpoint search_from (ci : bool) (r : regex) (prev : option ascii) (s : pystr)
  : bool :=
  match match_here ci r prev s with
  | Some _ => true
  | None =>
      match s with
      | [] => false
      | x :: s' => search_from ci r (Some x) s'
      end
  end.

(** [pattern.search(s)] as a truth value. *)
Definition search (ci : bool) (r : regex) (s : pystr) : bool :=
  search_from ci r None s.

(** Leftmost, non-overlapping replacement; [skip] counts the characters of
    [s] that still belong to the match found last. *)
Fixpoint sub_from (ci : bool) (r : regex) (repl : pystr)
  (prev : option ascii) (skip : nat) (s : pystr) : pystr :=
  match s with
  | [] =>
      match skip, match_here ci r prev [] with
      | 0, Some _ => repl
      | _, _ => []
      end
  | x :: s' =>
      match skip with
      | S k => sub_from ci r repl (Some x) k s'
      | 0 =>
          match match_here ci r prev s with
          | Some (S n) => repl ++ sub_from ci r repl (Some x) n s'
          | Some 0 => repl ++ x :: sub_from ci r repl (Some x) 0 s'
          | None => x :: sub_from ci r repl (Some x) 0 s'
          end
      end
  end.

(** [pattern.sub(repl, s)]. *)
Definition sub (ci : bool) (r : regex) (repl s : pystr) : pystr :=
  sub_from ci r repl None 0 s.

End Re.

(* ===================================================================== *)
(** ** Python values *)
(* ===================================================================== *)

Module Py.

(** The values slides are made of, as [json.loads] yields them; floats are
    not represented.  A dictionary lists its items in insertion order. *)
Inductive PyVal : Type :=
| PyNone
| PyBool (b : bool)
| PyInt (z : Z)
| PyStr (s : pystr)
| PyList (l : list PyVal)
| PyDict (d : list (string * PyVal)).

Definition dict := list (string * PyVal).

(** One item of a dictionary display. *)
Notation "k ~> v" := (@pair string PyVal k%string v) (at level 55).

(** [d.get(k)], [None] standing for a missing key. *)
Fixpoint dict_get (k : string) (d : dict) : option PyVal :=
  match d with
  | [] => None
  | (k', v) :: d' => if String.eqb k k' then Some v else dict_get k d'
  end.

(** [d.get(k, default)]. *)
Definition get_or (k : string) (default : PyVal) (d : dict) : PyVal :=
  match dict_get k d with Some v => v | None => default end.

(** [d.get(k)] as a value. *)
Definition get (k : string) (d : dict) : PyVal := get_or k PyNone d.

(** [d[k] = v]: an existing key keeps its place, a new one goes last. *)
Fixpoint dict_set (k : string) (v : PyVal) (d : dict) : dict :=
  match d with
  | [] => [(k, v)]
  | (k', v') :: d' =>
      if String.eqb k k' then (k, v) :: d' else (k', v') :: dict_set k v d'
  end.

(** [bool(v)]. *)
Definition truthy (v : PyVal) : bool :=
  match v with
  | PyNone => false
  | PyBool b => b
  | PyInt z => negb (z =? 0)%Z
  | PyStr s => match s with [] => false | _ => true end
  | PyList l => match l with [] => false | _ => true end
  | PyDict d => match d with [] => false | _ => true end
  end.

(** [a or b]. *)
Definition py_or (a b : PyVal) : PyVal := if truthy a then a else b.

Definition hex_digit (n : nat) : ascii :=
  if n <? 10 then chr (48 + n) else chr (87 + n).

(** [str.isprintable] on one character. *)
Definition is_printable (c : ascii) : bool :=
  let n := ord c in
  in_range 32 126 n || (in_range 161 255 n && negb (n =? 173)).

Definition repr_char (quote : ascii) (c : ascii) : pystr :=
  let n := ord c in
  if Ascii.eqb c quote || Ascii.eqb c backslash then [backslash; c]
  else if n =? 9 then py "\t"
  else if n =? 10 then py "\n"
  else if n =? 13 then py "\r"
  else if is_printable c then [c]
  else py "\x" ++ [hex_digit (n / 16); hex_digit (n mod 16)].

(** [repr] of a string: single quotes unless the text holds one and no
    double quote. *)
Definition repr_str (s : pystr) : pystr :=
  let single := chr 39 in
  let double := chr 34 in
  let quote :=
    if contains [single] s && negb (contains [double] s)
    then double else single in
  quote :: flat_map (repr_char quote) s ++ [quote].

Fixpoint join (sep : pystr) (parts : list pystr) : pystr :=
  match parts with
  | [] => []
  | [p] => p
  | p :: rest => p ++ sep ++ join sep rest
  end.

(** [repr(v)]. *)
Fixpoint py_repr (v : PyVal) : pystr :=
  match v with
  | PyNone => py "None"
  | PyBool true => py "True"
  | PyBool false => py "False"
  | PyInt z => str_of_Z z
  | PyStr s => repr_str s
  | PyList l => py "[" ++ join (py ", ") (map py_repr l) ++ py "]"
  | PyDict d =>
      py "{" ++
      join (py ", ")
        (map (fun kv => repr_str (py (fst kv)) ++ py ": " ++ py_repr (snd kv)) d)
      ++ py "}"
  end.

(** [str(v)]. *)
Definition py_str (v : PyVal) : pystr :=
  match v with
  | PyStr s => s
  | _ => py_repr v
  end.

(** Exceptions the modelled code raises. *)
Inductive exn : Type :=
| SafetyCriticError (msg : pystr)
| StoryGenerationError (msg : pystr)
| AttributeError
| TypeError
| ValueError.

Inductive result (A : Type) : Type :=
| Ok (a : A)
| Raise (e : exn).

Arguments Ok {A} a.
Arguments Raise {A} e.

Definition bind {A B : Type} (m : result A) (k : A -> result B) : result B :=
  match m with
  | Ok a => k a
  | Raise e => Raise e
  end.

(** A comprehension [[f(x) for x in l]] whose element expression can
    raise: the first exception ends it. *)
Fixpoint map_result {A B : Type} (f : A -> result B) (l : list A)
  : result (list B) :=
  match l with
  | [] => Ok []
  | x :: l' =>
      bind (f x) (fun y => bind (map_result f l') (fun ys => Ok (y :: ys)))
  end.

(** [enumerate(l)], counting from [start]. *)
Fixpoint enumerate_from {A : Type} (start : nat) (l : list A) : list (nat * A) :=
  match l with
  | [] => []
  | x :: l' => (start, x) :: enumerate_from (S start) l'
  end.

Definition enumerate {A : Type} (l : list A) : list (nat * A) :=
  enumerate_from 0 l.

(** [l.insert(i, x)] for [0 <= i]. *)
Definition list_insert {A : Type} (i : nat) (x : A) (l : list A) : list A :=
  firstn i l ++ x :: skipn i l.

End Py.

Export Py.

Notation "x <- m ;; k" := (bind m (fun x => k))
  (at level 61, m at next level, right associativity).

(* ===================================================================== *)
(** ** Configuration and request *)
(* ===================================================================== *)

(** The fields of [Settings] (config.py) the modelled code reads. *)
Record Settings : Type := {
  safety_critic_enabled : bool;
  safety_critic_strict : bool;
  safety_critic_max_text_length : Z;
  safety_critic_max_scary_terms_per_slide : Z;
  safety_critic_enable_llm_review : bool
}.

(** The defaults of config.py. *)
Definition default_settings : Settings := {|
  safety_critic_enabled := true;
  safety_critic_strict := false;
  safety_critic_max_text_length := 320;
  safety_critic_max_scary_terms_per_slide := 2;
  safety_critic_enable_llm_review := false
|}.

(** [StoryCreateRequest] (schemas.py). *)
Record StoryCreateRequest : Type := {
  title : pystr;
  topic : pystr;
  ageGroup : pystr;
  language : pystr;
  characterCount : Z;
  regionContext : option pystr;
  description : pystr;
  moralLesson : option pystr
}.

(** What the outside world answers to the one review request: the outcome
    of [urlopen(...).read().decode()], and [json.loads] ([None] standing for
    [JSONDecodeError], the exception of [json.loads] the code handles; its
    other exceptions, such as [RecursionError], are outside the model).
    The world also holds the interpreter's limit on the
    digits of a string that [int] converts ([sys.get_int_max_str_digits()],
    4300 unless configured; 0 switches the check off). *)
Inductive http_outcome : Type :=
| HttpURLError
| HttpTimeoutError
| HttpBody (raw : pystr).

Record World : Type := {
  urlopen_read : http_outcome;
  json_loads : pystr -> option PyVal;
  int_max_str_digits : nat
}.

(* ===================================================================== *)
(** ** safety_critic.py *)
(* ===================================================================== *)

Module SafetyCritic.

Record SafetyCriticResult : Type := {
  slides : list dict;
  issues : list pystr;
  llm_review : option PyVal
}.

Definition UNSAFE_REPLACEMENTS : list (pystr * pystr) :=
  [ (py "kill", py "hurt");
    (py "killing", py "hurting");
    (py "dead", py "unsafe");
    (py "blood", py "danger");
    (py "weapon", py "dangerous object");
    (py "gun", py "dangerous object");
    (py "knife", py "sharp object");
    (py "abduct", py "take away");
    (py "kidnap", py "take away");
    (py "nude", py "inappropriate");
    (py "sex", py "inappropriate") ].

Definition SCARY_TERMS : list pystr :=
  [ py "kidnap"; py "abduct"; py "blood"; py "dead"; py "die"; py "weapon";
    py "gun"; py "knife"; py "attack"; py "violence" ].

Definition TRUSTED_ADULT_TERMS : list pystr :=
  [ py "trusted adult"; py "teacher"; py "parent"; py "mother"; py "father";
    py "guardian"; py "caregiver"; py "police"; py "counselor" ].

(** The pattern text [rf"\\b{re.escape(term)}\\b"]: the raw string holds
    two backslashes and a [b] on each side of the escaped term. *)
Definition word_pattern (term : pystr) : pystr :=
  py "\\b" ++ Re.escape term ++ py "\\b".

Definition sanitize_step (acc : pystr * list pystr) (entry : pystr * pystr)
  : pystr * list pystr :=
  let '(updated, changes) := acc in
  let '(bad, replacement) := entry in
  let pattern := Re.compile (word_pattern bad) in
  if Re.search true pattern updated
  then (Re.sub true pattern replacement updated,
        changes ++ [py "replaced unsafe term '" ++ bad ++ py "'"])
  else (updated, changes).

Definition _sanitize_text (text : pystr) : pystr * list pystr :=
  let '(updated, changes) :=
    fold_left sanitize_step UNSAFE_REPLACEMENTS (text, []) in
  (strip updated, changes).

Definition _count_scary_terms (text : pystr) : Z :=
  let value := lower text in
  Z.of_nat
    (List.length
       (filter (fun term => Re.search false (Re.compile (word_pattern term)) value)
          SCARY_TERMS)).

Definition mentions_term (text : pystr) : bool :=
  existsb (fun term => contains term text) TRUSTED_ADULT_TERMS.

Definition choice_mentions_term (choice : PyVal) : bool :=
  match choice with
  | PyDict c => mentions_term (lower (py_str (get_or "text" (PyStr []) c)))
  | _ => false
  end.

Definition slide_mentions_term (slide : dict) : bool :=
  mentions_term (lower (py_str (get_or "text" (PyStr []) slide))) ||
  match get "choices" slide with
  | PyList choices => existsb choice_mentions_term choices
  | _ => false
  end.

Definition _has_trusted_adult_reference (slides : list dict) : bool :=
  existsb slide_mentions_term slides.

Definition default_id (index : nat) : pystr :=
  if index =? 0 then py "a" else py "b".

Definition DEFAULT_CHOICE_TEXT : pystr := py "Choose the safer option.".

(** The body of the loop over [enumerate(first_two)]. *)
Definition coerce_choice (index : nat) (choice : PyVal) : PyVal :=
  match choice with
  | PyDict c =>
      let c1 :=
        dict_set "id"
          (PyStr (py_str (py_or (get "id" c) (PyStr (default_id index))))) c in
      let c2 :=
        dict_set "text"
          (PyStr (strip (py_str (py_or (get "text" c1) (PyStr DEFAULT_CHOICE_TEXT)))))
          c1 in
      PyDict
        (dict_set "correct"
           (PyBool (truthy (get_or "correct" (PyBool (index =? 0)) c2))) c2)
  | _ =>
      PyDict [ "id" ~> PyStr (default_id index);
               "text" ~> PyStr DEFAULT_CHOICE_TEXT;
               "correct" ~> PyBool (index =? 0) ]
  end.

Definition set_correct (b : bool) (choice : PyVal) : PyVal :=
  match choice with
  | PyDict c => PyDict (dict_set "correct" (PyBool b) c)
  | _ => choice
  end.

Definition correct_flag (choice : PyVal) : bool :=
  match choice with
  | PyDict c => truthy (get "correct" c)
  | _ => false
  end.

(** [choices[:2]] normalised; both entries hold a boolean [correct] after
    [coerce_choice], so [==] on them is the comparison of two booleans. *)
Definition coerce_first_two (choices : list PyVal) : list PyVal :=
  let first_two :=
    map (fun ic => coerce_choice (fst ic) (snd ic)) (enumerate (firstn 2 choices)) in
  match first_two with
  | [c0; c1] =>
      if Bool.eqb (correct_flag c0) (correct_flag c1)
      then [set_correct true c0; set_correct false c1]
      else first_two
  | _ => first_two
  end.

(** The [for] loop of [_coerce_two_choice_branch]: [None] when it ends
    without reaching [return]. *)
Fixpoint coerce_loop (slides : list dict) : option (list dict) :=
  match slides with
  | [] => None
  | slide :: rest =>
      match get "choices" slide with
      | PyList choices =>
          if List.length choices <? 2
          then option_map (cons slide) (coerce_loop rest)
          else Some (dict_set "choices" (PyList (coerce_first_two choices)) slide :: rest)
      | _ => option_map (cons slide) (coerce_loop rest)
      end
  end.

Definition DEFAULT_BRANCH_SLIDE : dict :=
  [ "position" ~> PyInt 2;
    "text" ~> PyStr (py "A risky moment appears. What is the safest choice?");
    "choices" ~>
      PyList
        [ PyDict [ "id" ~> PyStr (py "a");
                   "text" ~> PyStr (py "Move away and tell a trusted adult.");
                   "correct" ~> PyBool true ];
          PyDict [ "id" ~> PyStr (py "b");
                   "text" ~> PyStr (py "Go alone and keep it secret.");
                   "correct" ~> PyBool false ] ] ].

Definition _coerce_two_choice_branch (slides : list dict) : list dict :=
  match coerce_loop slides with
  | Some slides' => slides'
  | None => list_insert (Nat.min 1 (List.length slides)) DEFAULT_BRANCH_SLIDE slides
  end.

Definition UNAVAILABLE_VERDICT : PyVal :=
  PyDict [ "approved" ~> PyBool false;
           "risk_flags" ~> PyList [PyStr (py "llm_review_unavailable")];
           "notes" ~> PyStr (py "LLM review unavailable") ].

Definition INVALID_VERDICT : PyVal :=
  PyDict [ "approved" ~> PyBool false;
           "risk_flags" ~> PyList [PyStr (py "llm_review_invalid")];
           "notes" ~> PyStr (py "Invalid LLM review payload") ].

(** [_run_optional_llm_review]; the request it sends is fixed by its
    arguments and only the world's answer is modelled.  [body.get] on a value
    that is no dictionary raises [AttributeError] and [json.loads] on a value
    that is no string raises [TypeError]; the [except] clause names neither. *)
Definition _run_optional_llm_review (w : World) (st : Settings)
  (payload : StoryCreateRequest) (slides : list dict) : result (option PyVal) :=
  if negb (safety_critic_enable_llm_review st) then Ok None
  else
    match urlopen_read w with
    | HttpURLError | HttpTimeoutError => Ok (Some UNAVAILABLE_VERDICT)
    | HttpBody raw =>
        match json_loads w raw with
        | None => Ok (Some UNAVAILABLE_VERDICT)
        | Some (PyDict body) =>
            match get_or "response" (PyStr (py "{}")) body with
            | PyStr response_text =>
                match json_loads w response_text with
                | None => Ok (Some UNAVAILABLE_VERDICT)
                | Some (PyDict parsed) => Ok (Some (PyDict parsed))
                | Some _ => Ok (Some INVALID_VERDICT)
                end
            | _ => Raise TypeError
            end
        | Some _ => Raise AttributeError
        end
    end.

Definition CALM_TEXT : pystr :=
  py "The child stays calm and chooses a safe action.".

Definition REFRAMED_TEXT : pystr :=
  py "A confusing moment happens, but the child remembers safe rules and seeks help.".

Definition GUIDANCE_SENTENCE : pystr :=
  py " Then the child tells a trusted adult like a parent or teacher.".

(** [f"slide_{index + 1}"]. *)
Definition slide_label (index : nat) : pystr :=
  py "slide_" ++ str_of_nat (index + 1).

Definition clean_choice (index choice_idx : nat) (choice : PyVal)
  : list PyVal * list pystr :=
  match choice with
  | PyDict c =>
      let '(choice_text, choice_changes) :=
        _sanitize_text (py_str (get_or "text" (PyStr []) c)) in
      ( [ PyDict
            [ "id" ~> PyStr (py_str (py_or (get "id" c) (PyStr (default_id choice_idx))));
              "text" ~> py_or (PyStr choice_text) (PyStr DEFAULT_CHOICE_TEXT);
              "correct" ~> PyBool (truthy (get_or "correct" (PyBool (choice_idx =? 0)) c)) ] ],
        map (fun item =>
               slide_label index ++ py "_choice_" ++ str_of_nat (choice_idx + 1)
               ++ py ": " ++ item)
            choice_changes )
  | _ => ([], [])
  end.

(** The loop over [enumerate(raw_choices[:2])]. *)
Fixpoint clean_choices (index : nat) (l : list (nat * PyVal))
  : list PyVal * list pystr :=
  match l with
  | [] => ([], [])
  | (choice_idx, choice) :: l' =>
      let '(c1, i1) := clean_choice index choice_idx choice in
      let '(c2, i2) := clean_choices index l' in
      (c1 ++ c2, i1 ++ i2)
  end.

(** One turn of the loop over [enumerate(slides)]: the normalised slide and
    the issues the turn appends. *)
Definition fix_slide (st : Settings) (index : nat) (slide : dict)
  : result (dict * list pystr) :=
  let text := strip (py_str (get_or "text" (PyStr []) slide)) in
  filled <-
    match text with
    | [] =>
        if safety_critic_strict st
        then Raise (SafetyCriticError
                      (py "Slide " ++ str_of_nat (index + 1) ++ py " has empty text"))
        else Ok (CALM_TEXT, [slide_label index ++ py ": filled missing text"])
    | _ => Ok (text, [])
    end ;;
  let '(text, issues0) := filled in
  let '(sanitized_text, changes) := _sanitize_text text in
  let issues1 :=
    issues0 ++ map (fun item => slide_label index ++ py ": " ++ item) changes in
  let scary_count := _count_scary_terms sanitized_text in
  let '(sanitized_text, issues2) :=
    if (safety_critic_max_scary_terms_per_slide st <? scary_count)%Z
    then (REFRAMED_TEXT,
          issues1 ++ [slide_label index ++ py ": tone too intense, softened"])
    else (sanitized_text, issues1) in
  let '(sanitized_text, issues3) :=
    if (safety_critic_max_text_length st <? len sanitized_text)%Z
    then (rstrip (slice_to (safety_critic_max_text_length st) sanitized_text)
            ++ py "...",
          issues2 ++ [slide_label index ++ py ": trimmed long text"])
    else (sanitized_text, issues2) in
  let normalized :=
    [ "position" ~> PyInt (Z.of_nat (index + 1));
      "text" ~> PyStr sanitized_text;
      "choices" ~> get "choices" slide ] in
  match get "choices" normalized with
  | PyList raw_choices =>
      let '(cleaned_choices, choice_issues) :=
        clean_choices index (enumerate (firstn 2 raw_choices)) in
      Ok (dict_set "choices"
            (match cleaned_choices with
             | [] => PyNone
             | _ => PyList cleaned_choices
             end) normalized,
          issues3 ++ choice_issues)
  | _ => Ok (normalized, issues3)
  end.

Fixpoint fix_slides (st : Settings) (l : list (nat * dict))
  : result (list dict * list pystr) :=
  match l with
  | [] => Ok ([], [])
  | (index, slide) :: l' =>
      r1 <- fix_slide st index slide ;;
      r2 <- fix_slides st l' ;;
      Ok (fst r1 :: fst r2, snd r1 ++ snd r2)
  end.

(** [for idx, slide in enumerate(fixed_slides): slide["position"] = idx + 1]. *)
Definition resequence (slides : list dict) : list dict :=
  map (fun p => dict_set "position" (PyInt (Z.of_nat (fst p + 1))) (snd p))
      (enumerate slides).

(** [fixed_slides[-1]["text"] = f"{fixed_slides[-1]['text']} Then ..."]. *)
Definition append_guidance (slides : list dict) : list dict :=
  match rev slides with
  | [] => []
  | final :: before =>
      rev before ++
      [dict_set "text" (PyStr (py_str (get "text" final) ++ GUIDANCE_SENTENCE)) final]
  end.

(** Lines 192 to 243 of [apply_safety_critic]: the slides and the issues
    as they stand before the trusted-adult check. *)
Definition sanitize_and_coerce (st : Settings) (input : list dict)
  : result (list dict * list pystr) :=
  r <- fix_slides st (enumerate input) ;;
  Ok (resequence (_coerce_two_choice_branch (fst r)), snd r).

(** Lines 245 to 247: the trusted-adult check. *)
Definition ensure_trusted_adult (state : list dict * list pystr)
  : list dict * list pystr :=
  let '(fixed_slides, issues) := state in
  if negb (_has_trusted_adult_reference fixed_slides)
  then (append_guidance fixed_slides, issues ++ [py "added trusted adult guidance"])
  else (fixed_slides, issues).

(** [apply_safety_critic] up to the review call, the critic being enabled
    and the input not empty. *)
Definition critic_pass (st : Settings) (input : list dict)
  : result (list dict * list pystr) :=
  r <- sanitize_and_coerce st input ;;
  Ok (ensure_trusted_adult r).

Definition apply_safety_critic (w : World) (st : Settings)
  (payload : StoryCreateRequest) (input : list dict) : result SafetyCriticResult :=
  if negb (safety_critic_enabled st)
  then Ok {| slides := input; issues := []; llm_review := None |}
  else
    match input with
    | [] => Raise (SafetyCriticError (py "No slides available for safety validation"))
    | _ =>
        r <- critic_pass st input ;;
        review <- _run_optional_llm_review w st payload (fst r) ;;
        Ok {| slides := fst r; issues := snd r; llm_review := review |}
    end.

End SafetyCritic.

(* ===================================================================== *)
(** ** story_generation.py: the slide normaliser *)
(* ===================================================================== *)

Module StoryGeneration.

(** [not text.strip()]. *)
Definition is_blank (s : pystr) : bool :=
  match strip s with [] => true | _ => false end.

(** The last code point, U+10FFFF. *)
Definition MAX_CODE_POINT : Z := 1114111.

(** [chr(ord("a") + idx)]: [chr] raises [ValueError] beyond the last code
    point.  The 8-bit characters of the model represent the result for
    [idx < 159], the code points up to U+00FF. *)
Definition default_choice_id (idx : nat) : result pystr :=
  if (MAX_CODE_POINT <? Z.of_nat (ord (chr 97) + idx))%Z then Raise ValueError
  else Ok [chr (ord (chr 97) + idx)].

(** One turn of the loop of [_normalize_choices]: what it appends. *)
Definition normalize_choice (idx : nat) (choice : PyVal) : result (list PyVal) :=
  match choice with
  | PyDict c =>
      match get "text" c, get "correct" c with
      | PyStr text, PyBool correct =>
          if is_blank text then Ok []
          else
            choice_id <-
              match get "id" c with
              | PyStr raw_id =>
                  if is_blank raw_id then default_choice_id idx
                  else Ok (strip raw_id)
              | _ => default_choice_id idx
              end ;;
            Ok [ PyDict [ "id" ~> PyStr choice_id;
                          "text" ~> PyStr (strip text);
                          "correct" ~> PyBool correct ] ]
      | _, _ => Ok []
      end
  | _ => Ok []
  end.

(** The loop over [enumerate(raw_choices)]. *)
Fixpoint normalize_choices_loop (l : list (nat * PyVal)) : result (list PyVal) :=
  match l with
  | [] => Ok []
  | (idx, choice) :: l' =>
      kept <- normalize_choice idx choice ;;
      rest <- normalize_choices_loop l' ;;
      Ok (kept ++ rest)
  end.

Definition _normalize_choices (raw_choices : PyVal) : result PyVal :=
  match raw_choices with
  | PyList l =>
      normalized <- normalize_choices_loop (enumerate l) ;;
      Ok (match normalized with
          | [] => PyNone
          | _ => PyList normalized
          end)
  | _ => Ok PyNone
  end.

(** [choice["correct"]] as a truth value. *)
Definition choice_correct (choice : PyVal) : bool :=
  match choice with
  | PyDict c => truthy (get "correct" c)
  | _ => false
  end.

(** [if choices and not any(...): choices[0]["correct"] = True]. *)
Definition force_one_correct (choices : PyVal) : PyVal :=
  match choices with
  | PyList (PyDict c0 :: rest) =>
      if existsb choice_correct (PyDict c0 :: rest) then choices
      else PyList (PyDict (dict_set "correct" (PyBool true) c0) :: rest)
  | _ => choices
  end.

(** One turn of the loop over [enumerate(raw_slides[:8])]: what it appends. *)
Definition normalize_slide (idx : nat) (raw_slide : PyVal) : result (list dict) :=
  match raw_slide with
  | PyDict d =>
      match get "text" d with
      | PyStr text =>
          if is_blank text then Ok []
          else
            choices <- _normalize_choices (get "choices" d) ;;
            Ok [ [ "position" ~> PyInt (Z.of_nat (idx + 1));
                   "text" ~> PyStr (strip text);
                   "choices" ~> force_one_correct choices ] ]
      | _ => Ok []
      end
  | _ => Ok []
  end.

(** The loop over [enumerate(raw_slides[:8])]. *)
Fixpoint normalize_slides_loop (l : list (nat * PyVal)) : result (list dict) :=
  match l with
  | [] => Ok []
  | (idx, raw_slide) :: l' =>
      kept <- normalize_slide idx raw_slide ;;
      rest <- normalize_slides_loop l' ;;
      Ok (kept ++ rest)
  end.

(** [payload.moralLesson or "Say no and tell a trusted adult."]. *)
Definition guidance_text (payload : StoryCreateRequest) : pystr :=
  match moralLesson payload with
  | Some (c :: s) => c :: s
  | _ => py "Say no and tell a trusted adult."
  end.

Definition default_branch_slide (payload : StoryCreateRequest) : dict :=
  [ "position" ~> PyInt 2;
    "text" ~>
      PyStr (py "A risky moment appears about " ++ lower (topic payload)
             ++ py ". What is the safest choice?");
    "choices" ~>
      PyList
        [ PyDict [ "id" ~> PyStr (py "a");
                   "text" ~> PyStr (guidance_text payload);
                   "correct" ~> PyBool true ];
          PyDict [ "id" ~> PyStr (py "b");
                   "text" ~> PyStr (py "Ignore warning signs and go alone.");
                   "correct" ~> PyBool false ] ] ].

Definition resequence (slides : list dict) : list dict :=
  map (fun p => dict_set "position" (PyInt (Z.of_nat (fst p + 1))) (snd p))
      (enumerate slides).

Definition TOO_FEW : pystr := py "Model returned too few valid slides".
Definition NO_LIST : pystr := py "Model did not return valid slides list".

Definition _validate_and_normalize_slides (raw_payload : dict)
  (payload : StoryCreateRequest) : result (list dict) :=
  match get "slides" raw_payload with
  | PyList (first :: others) =>
      let raw_slides := first :: others in
      slides <- normalize_slides_loop (enumerate (firstn 8 raw_slides)) ;;
      if List.length slides <? 3 then Raise (StoryGenerationError TOO_FEW)
      else if existsb (fun slide => truthy (get "choices" slide)) slides
      then Ok slides
      else
        Ok (resequence
              (firstn 8
                 (list_insert (Nat.min 1 (List.length slides))
                    (default_branch_slide payload) slides)))
  | _ => Raise (StoryGenerationError NO_LIST)
  end.

End StoryGeneration.

(* ===================================================================== *)
(** ** Literal patterns *)
(* ===================================================================== *)

(** A pattern of the fragment without word-boundary assertions is a plain
    string to be found, up to letter case under [re.IGNORECASE].  These are
    the notions the proofs about such patterns are phrased in. *)
Module Literal.

(** [u] is at the head of [s]. *)
Fixpoint starts (ci : bool) (u s : pystr) : bool :=
  match u, s with
  | [], _ => true
  | c :: u', x :: s' => Re.char_eq ci c x && starts ci u' s'
  | _ :: _, [] => false
  end.

(** [u] is somewhere in [s]. *)
Fixpoint occurs (ci : bool) (u s : pystr) : bool :=
  starts ci u s ||
  match s with
  | [] => false
  | _ :: s' => occurs ci u s'
  end.

(** [u] and [r] do not differ where both have a character. *)
Fixpoint agree (ci : bool) (u r : pystr) : bool :=
  match u, r with
  | c :: u', x :: r' => Re.char_eq ci c x && agree ci u' r'
  | _, _ => true
  end.

Fixpoint tails (s : pystr) : list pystr :=
  match s with
  | [] => []
  | _ :: s' => s :: tails s'
  end.

(** No occurrence of [u] can begin before a piece of text [r] and reach
    into it. *)
Definition closed_left (ci : bool) (u r : pystr) : bool :=
  forallb (fun t => negb (agree ci t r)) (tails u).

(** No occurrence of [u] can begin inside [r]. *)
Definition closed_right (ci : bool) (u r : pystr) : bool :=
  forallb (fun t => negb (agree ci u t)) (tails r).

(** [r] can be put into a text without making an occurrence of [u]. *)
Definition inert (ci : bool) (u r : pystr) : bool :=
  closed_left ci u r && closed_right ci u r.

(** The string a word pattern of the source looks for. *)
Definition needle (term : pystr) : pystr :=
  backslash :: chr 98 :: term ++ [backslash; chr 98].

(** Replacement of the leftmost non-overlapping occurrences. *)
Definition replace (ci : bool) (u r s : pystr) : pystr :=
  Re.sub ci (map Re.Lit u) r s.

Definition has_text (s : pystr) : bool :=
  existsb (fun c => negb (is_space c)) s.

End Literal.

(* ===================================================================== *)
(** ** Notions of the specification *)
(* ===================================================================== *)

Module Spec.
Import SafetyCritic.

(** No string the substitution pass looks for is in the text. *)
Definition unsafe_free (t : pystr) : bool :=
  forallb (fun e => negb (Literal.occurs true (Literal.needle (fst e)) t))
          UNSAFE_REPLACEMENTS.

(** The pattern built for [term] compiles to the plain string
    [needle term]. *)
Definition literal_pattern (term : pystr) : Prop :=
  Re.compile (word_pattern term) = map Re.Lit (Literal.needle term).

(** One entry of the substitution table applied to a text. *)
Definition step_text (t : pystr) (e : pystr * pystr) : pystr :=
  Literal.replace true (Literal.needle (fst e)) (snd e) t.

(** A text that can follow any text without completing one of the strings
    the critic looks for. *)
Definition tail_inert (tail : pystr) : Prop :=
  forallb (fun e => Literal.inert true (Literal.needle (fst e)) tail)
          UNSAFE_REPLACEMENTS = true /\
  forallb (fun term => Literal.inert false (Literal.needle term) (lower tail))
          SCARY_TERMS = true.

(** The text a slide keeps after the scary-term check. *)
Definition softened (st : Settings) (t : pystr) : pystr :=
  if (safety_critic_max_scary_terms_per_slide st <? _count_scary_terms t)%Z
  then REFRAMED_TEXT else t.

(** The text a slide keeps after the length cap. *)
Definition capped (st : Settings) (t : pystr) : pystr :=
  if (safety_critic_max_text_length st <? len t)%Z
  then rstrip (slice_to (safety_critic_max_text_length st) t) ++ py "..."
  else t.

(** The text of a processed slide, from its non-blank input text. *)
Definition final_text (st : Settings) (t : pystr) : pystr :=
  capped st (softened st (fst (_sanitize_text t))).

(** A slide text as the critic leaves it: not empty, stripped, without a
    string the substitution pass looks for, and within the scary-term
    threshold when that is not negative. *)
Definition text_ok (st : Settings) (t : pystr) : Prop :=
  t <> [] /\ strip t = t /\ unsafe_free t = true /\
  ((0 <= safety_critic_max_scary_terms_per_slide st)%Z ->
   (_count_scary_terms t <= safety_critic_max_scary_terms_per_slide st)%Z).

(** A choice as the critic leaves it. *)
Definition choice_ok (c : PyVal) : Prop :=
  exists i t b,
    c = PyDict [ "id" ~> PyStr i; "text" ~> PyStr t; "correct" ~> PyBool b ] /\
    i <> [] /\ t <> [] /\ strip t = t /\ unsafe_free t = true.

(** A [choices] field as the critic leaves it: a list holds one or two
    cleaned choices; any other value is the input's own. *)
Definition choices_ok (c : PyVal) : Prop :=
  forall l, c = PyList l ->
            l <> [] /\ List.length l <= 2 /\ Forall choice_ok l.

(** A slide as the critic leaves it. *)
Definition slide_ok (st : Settings) (d : dict) : Prop :=
  exists n t c,
    d = [ "position" ~> PyInt n; "text" ~> PyStr t; "choices" ~> c ] /\
    text_ok st t /\ choices_ok c.

(** The positions are 1, 2, ... in order, counting from [start + 1]. *)
Definition sequential_from (start : nat) (l : list dict) : Prop :=
  map (get "position") l =
  map (fun i => PyInt (Z.of_nat (i + 1))) (seq start (List.length l)).

Definition sequential (l : list dict) : Prop := sequential_from 0 l.

Definition is_true (v : PyVal) : bool :=
  match v with PyBool true => true | _ => false end.

Definition has_correct (c : PyVal) : bool :=
  match c with PyDict d => is_true (get "correct" d) | _ => false end.

(** The slide has a two-entry choice list with exactly one entry whose
    [correct] is true. *)
Definition one_correct_pair (d : dict) : bool :=
  match get "choices" d with
  | PyList l => (List.length l =? 2) && (List.length (filter has_correct l) =? 1)
  | _ => false
  end.

(** The number of entries of the slide's choice list, none when the field
    is no list. *)
Definition raw_choice_count (d : dict) : nat :=
  match get "choices" d with PyList l => List.length l | _ => 0 end.

(** The number of choices the critic's cleaning loop keeps for the slide. *)
Definition cleaned_choice_count (d : dict) : nat :=
  match get "choices" d with
  | PyList l => List.length (fst (clean_choices 0 (enumerate (firstn 2 l))))
  | _ => 0
  end.

(** [term] is a substring of [text] up to letter case; the terms of the
    source are in lower case. *)
Definition contains_ci (term text : pystr) : Prop :=
  exists before after, lower text = before ++ term ++ after.

(** The text of the slide, or the text of one of its choices, holds a term
    of the trusted-adult vocabulary. *)
Definition references_trusted_adult (slide : dict) : Prop :=
  exists term, In term TRUSTED_ADULT_TERMS /\
    ((exists t, dict_get "text" slide = Some (PyStr t) /\ contains_ci term t) \/
     (exists l c t,
        dict_get "choices" slide = Some (PyList l) /\ In (PyDict c) l /\
        dict_get "text" c = Some (PyStr t) /\ contains_ci term t)).

(** The text of a slide of the critic's result. *)
Definition slide_text (d : dict) : pystr := py_str (get "text" d).

(** [term] stands in [text] as a whole word, in any letter case: the
    pattern [\bterm\b] under [re.IGNORECASE]. *)
Definition whole_word (term text : pystr) : bool :=
  Re.search true (Re.WordBoundary :: map Re.Lit term ++ [Re.WordBoundary]) text.

(** The scary terms that stand in the text as whole words. *)
Definition scary_words (text : pystr) : list pystr :=
  filter (fun term => whole_word term text) SCARY_TERMS.

(** The [choices] field of a processed slide, from the input slide. *)
Definition fixed_choices (slide : dict) : PyVal :=
  match get "choices" slide with
  | PyList raw =>
      match fst (clean_choices 0 (enumerate (firstn 2 raw))) with
      | [] => PyNone
      | cleaned => PyList cleaned
      end
  | v => v
  end.

(** The first choice list with two entries or more, among the [choices]
    fields of the slides in order, has two entries of which exactly one is
    marked correct. *)
Fixpoint settled_choices (cs : list PyVal) : bool :=
  match cs with
  | [] => false
  | PyList l :: rest =>
      if List.length l <? 2 then settled_choices rest
      else
        match l with
        | [c0; c1] => xorb (has_correct c0) (has_correct c1)
        | _ => false
        end
  | _ :: rest => settled_choices rest
  end.

(** Some slide has a choice list with two entries or more. *)
Definition has_branch (l : list dict) : bool :=
  existsb (fun d => 2 <=? raw_choice_count d) l.

(** A raw slide the normaliser keeps: a dictionary with a text that is a
    string and not blank. *)
Definition valid_slide (v : PyVal) : bool :=
  match v with
  | PyDict d =>
      match get "text" d with
      | PyStr text => negb (StoryGeneration.is_blank text)
      | _ => false
      end
  | _ => false
  end.

(** A candidate choice the normaliser keeps: a dictionary with a text that
    is a string and not blank, and a boolean [correct]. *)
Definition valid_choice (v : PyVal) : Prop :=
  exists d text correct,
    v = PyDict d /\ get "text" d = PyStr text /\ strip text <> [] /\
    get "correct" d = PyBool correct.

(** The id of a kept candidate: its own when that is a string and not
    blank, and the letter of its place among the candidates otherwise.  The
    8-bit characters of the model represent that letter for [idx < 159];
    statements that name it are made for such places. *)
Definition choice_id (idx : nat) (d : dict) : pystr :=
  match get "id" d with
  | PyStr raw_id =>
      match strip raw_id with
      | [] => [chr (97 + idx)]
      | stripped => stripped
      end
  | _ => [chr (97 + idx)]
  end.

(** What the turn for a candidate appends when it does not raise. *)
Definition kept_choice (idx : nat) (choice : PyVal) : list PyVal :=
  match choice with
  | PyDict c =>
      match get "text" c, get "correct" c with
      | PyStr text, PyBool correct =>
          if StoryGeneration.is_blank text then []
          else [ PyDict [ "id" ~> PyStr (choice_id idx c);
                          "text" ~> PyStr (strip text);
                          "correct" ~> PyBool correct ] ]
      | _, _ => []
      end
  | _ => []
  end.

(** What [_normalize_choices] returns when it does not raise. *)
Definition kept_choices (raw_choices : PyVal) : PyVal :=
  match raw_choices with
  | PyList l =>
      match flat_map (fun ic => kept_choice (fst ic) (snd ic)) (enumerate l) with
      | [] => PyNone
      | normalized => PyList normalized
      end
  | _ => PyNone
  end.

(** What the turn for a raw slide appends when it does not raise. *)
Definition kept_slide (idx : nat) (raw_slide : PyVal) : list dict :=
  match raw_slide with
  | PyDict d =>
      match get "text" d with
      | PyStr text =>
          if StoryGeneration.is_blank text then []
          else
            [ [ "position" ~> PyInt (Z.of_nat (idx + 1));
                "text" ~> PyStr (strip text);
                "choices" ~>
                  StoryGeneration.force_one_correct
                    (kept_choices (get "choices" d)) ] ]
      | _ => []
      end
  | _ => []
  end.

(** The candidate has no id of its own: its [id] is no string or is
    blank. *)
Definition lacks_id (d : dict) : bool :=
  match get "id" d with
  | PyStr raw_id => StoryGeneration.is_blank raw_id
  | _ => true
  end.

(** The candidate at place [idx] makes [chr] raise: the normaliser keeps
    it, it has no id of its own, and [ord("a") + idx] is beyond the last
    code point. *)
Definition id_overflow (idx : nat) (choice : PyVal) : bool :=
  match choice with
  | PyDict c =>
      match get "text" c, get "correct" c with
      | PyStr text, PyBool _ =>
          negb (StoryGeneration.is_blank text) && lacks_id c
          && (StoryGeneration.MAX_CODE_POINT <? Z.of_nat (97 + idx))%Z
      | _, _ => false
      end
  | _ => false
  end.

(** Some candidate of the value makes [chr] raise. *)
Definition choices_overflow (raw_choices : PyVal) : bool :=
  match raw_choices with
  | PyList l => existsb (fun ic => id_overflow (fst ic) (snd ic)) (enumerate l)
  | _ => false
  end.

(** The raw slide is valid and some candidate of its choices makes [chr]
    raise. *)
Definition slide_overflow (raw_slide : PyVal) : bool :=
  match raw_slide with
  | PyDict d => valid_slide raw_slide && choices_overflow (get "choices" d)
  | _ => false
  end.

(** A well-formed Choice entity: a string id, a text that is not empty and
    a boolean [correct]. *)
Definition well_formed_choice (c : PyVal) : Prop :=
  exists i t b,
    c = PyDict [ "id" ~> PyStr i; "text" ~> PyStr t; "correct" ~> PyBool b ] /\
    i <> [] /\ t <> [].

(** The list of the positions of the slides. *)
Definition positions (l : list dict) : list PyVal := map (get "position") l.

(** An already-sanitized, compliant slide set: slides as the critic leaves
    them, numbered 1..N, with a settled branch and a trusted-adult reference,
    every text within the length limit, under a threshold that is not
    negative. *)
Definition compliant (st : Settings) (l : list dict) : Prop :=
  Forall (slide_ok st) l /\
  sequential l /\
  settled_choices (map (get "choices") l) = true /\
  _has_trusted_adult_reference l = true /\
  Forall (fun d => (len (slide_text d) <= safety_critic_max_text_length st)%Z) l /\
  (0 <= safety_critic_max_scary_terms_per_slide st)%Z.

End Spec.

(* ===================================================================== *)
(** ** Sample inputs *)
(* ===================================================================== *)

Module Examples.

(** A world in which the review endpoint cannot be reached. *)
Definition offline : World :=
  {| urlopen_read := HttpURLError;
     json_loads := fun _ => None;
     int_max_str_digits := 4300 |}.

Definition request : StoryCreateRequest :=
  {| title := py "Road safety";
     topic := py "Road";
     ageGroup := py "6-8";
     language := py "en";
     characterCount := 1;
     regionContext := None;
     description := py "Crossing the road";
     moralLesson := None |}.

(** A slide record that holds a text only. *)
Definition text_slide (s : string) : dict := [ "text" ~> PyStr (py s) ].

Definition choice (s : string) (correct : bool) : PyVal :=
  PyDict [ "text" ~> PyStr (py s); "correct" ~> PyBool correct ].

(** A slide record with two choices, the first one correct. *)
Definition branch_slide (s a b : string) : dict :=
  [ "text" ~> PyStr (py s);
    "choices" ~> PyList [ choice a true; choice b false ] ].

(** A slide record as a raw value of the generator's output. *)
Definition raw (d : dict) : PyVal := PyDict d.

(** Two slides that each offer a branch. *)
Definition two_branches : list dict :=
  [ branch_slide "Mia sees a stranger." "Tell a teacher." "Follow him.";
    branch_slide "Mia is lost." "Ask the police." "Hide." ].

(** A generator output of four entries, the second of which has a blank
    text. *)
Definition with_blank : dict :=
  [ "slides" ~>
      PyList
        [ raw (branch_slide "Mia sees a stranger." "Tell a teacher." "Follow him.");
          raw (text_slide "   ");
          raw (text_slide "Mia walks away.");
          raw (text_slide "Mia is safe.") ] ].

(** A generator output whose second slide offers a single choice. *)
Definition single_choice : dict :=
  [ "slides" ~>
      PyList
        [ raw (text_slide "Mia sees a stranger.");
          raw [ "text" ~> PyStr (py "What should Mia do?");
                "choices" ~> PyList [ choice "Tell a teacher." true ] ];
          raw (text_slide "Mia is safe.") ] ].

(** The least place of a candidate for which [chr(ord("a") + idx)] is
    beyond the last code point. *)
Definition first_overflow : nat := N.to_nat 1114015.

(** A generator output of one slide: its choices are 1114015 nulls and then
    one valid candidate without an id. *)
Definition overlong : dict :=
  [ "slides" ~>
      PyList
        [ raw [ "text" ~> PyStr (py "What should Mia do?");
                "choices" ~>
                  PyList (repeat PyNone first_overflow
                          ++ [ choice "Tell a teacher." true ]) ] ] ].

(** A world whose review endpoint answers with a JSON array. *)
Definition array_world : World :=
  {| urlopen_read := HttpBody (py "[]");
     json_loads := fun s => if pystr_eqb s (py "[]") then Some (PyList []) else None;
     int_max_str_digits := 4300 |}.

(** The default configuration with the review switched on. *)
Definition review_settings : Settings :=
  {| safety_critic_enabled := true;
     safety_critic_strict := false;
     safety_critic_max_text_length := 320;
     safety_critic_max_scary_terms_per_slide := 2;
     safety_critic_enable_llm_review := true |}.

Definition scenario_text : pystr :=
  py "The man had a gun and threatened the child".

Definition scary_text : pystr :=
  py "They attack with violence until people die".

(** A text of 323 characters with a space as its 320th. *)
Definition long_text : pystr := repeat (chr 97) 319 ++ py " bcd".

(** One slide with that text and a branch that names a teacher. *)
Definition long_slide : list dict :=
  [ [ "text" ~> PyStr long_text;
      "choices" ~> PyList [ choice "Tell a teacher." true; choice "Hide." false ] ] ].

(** The default configuration with a negative scary-term threshold. *)
Definition negative_threshold : Settings :=
  {| safety_critic_enabled := true;
     safety_critic_strict := false;
     safety_critic_max_text_length := 320;
     safety_critic_max_scary_terms_per_slide := -1;
     safety_critic_enable_llm_review := false |}.

End Examples.

(* ===================================================================== *)
(** ** story_generation.py: context, template and generation *)
(* ===================================================================== *)

Module Generation.

Record StoryGenerationResult : Type := {
  context : dict;
  slides : list dict
}.

Definition is_digit (c : ascii) : bool := in_range 48 57 (ord c).

(** [re.findall(r"\d+", s)]: the maximal runs of decimal digits, in order;
    [cur] is the run being read.  In the range of the model the class [\d]
    is the ten ASCII digits. *)
Fixpoint findall_digits (cur : pystr) (s : pystr) : list pystr :=
  match s with
  | [] => match cur with [] => [] | _ => [cur] end
  | c :: s' =>
      if is_digit c then findall_digits (cur ++ [c]) s'
      else
        match cur with
        | [] => findall_digits [] s'
        | _ => cur :: findall_digits [] s'
        end
  end.

(** The number a run of digits writes. *)
Definition int_value (ds : pystr) : Z :=
  fold_left (fun acc c => (acc * 10 + Z.of_nat (ord c - 48))%Z) ds 0%Z.

(** The run has more digits than [int] converts: more than the
    interpreter's limit, when there is one.  CPython checks runs of more
    than 640 digits only, and admits no limit between 1 and 639. *)
Definition exceeds_limit (w : World) (ds : pystr) : bool :=
  (0 <? int_max_str_digits w) && (int_max_str_digits w <? List.length ds)
  && (640 <? List.length ds).

(** [int(n)] on a run of digits: [ValueError] beyond the limit. *)
Definition int_of_digits (w : World) (ds : pystr) : result Z :=
  if exceeds_limit w ds then Raise ValueError else Ok (int_value ds).

Definition _parse_age_value (w : World) (age_group : pystr) : result Z :=
  numbers <- map_result (int_of_digits w) (findall_digits [] age_group) ;;
  Ok (match numbers with
      | [] => 8%Z
      | [n] => n
      | n0 :: n1 :: _ => ((n0 + n1) / 2)%Z
      end).

(** [v or default] for an optional string. *)
Definition text_or (v : option pystr) (default : pystr) : pystr :=
  match v with
  | Some (c :: s) => c :: s
  | _ => default
  end.

Definition DEFAULT_LOCATION : pystr := py "school playground".

Definition build_default_context (w : World) (payload : StoryCreateRequest)
  : result dict :=
  age <- _parse_age_value w (ageGroup payload) ;;
  Ok [ "age" ~> PyInt age;
       "location" ~> PyStr (text_or (regionContext payload) DEFAULT_LOCATION);
       "character" ~>
         PyDict [ "skin" ~> PyStr (py "brown");
                  "hair" ~> PyStr (py "short black");
                  "clothes" ~> PyStr (py "school uniform") ];
       "topic" ~> PyStr (topic payload) ].

Definition build_default_branching_slides (payload : StoryCreateRequest)
  : list dict :=
  let guidance_text :=
    text_or (moralLesson payload)
      (py "Say no, move to safety, and tell a trusted adult immediately.") in
  [ [ "position" ~> PyInt 1;
      "text" ~>
        PyStr (title payload ++ py " begins in "
               ++ text_or (regionContext payload) (py "a familiar neighborhood")
               ++ py " where children are learning how to stay safe.");
      "choices" ~> PyNone ];
    [ "position" ~> PyInt 2;
      "text" ~>
        PyStr (py "A tricky situation appears around " ++ lower (topic payload)
               ++ py ". What should the child do?");
      "choices" ~>
        PyList
          [ PyDict [ "id" ~> PyStr (py "a");
                     "text" ~> PyStr guidance_text;
                     "correct" ~> PyBool true ];
            PyDict [ "id" ~> PyStr (py "b");
                     "text" ~> PyStr (py "Keep it secret and stay quiet.");
                     "correct" ~> PyBool false ] ] ];
    [ "position" ~> PyInt 3;
      "text" ~>
        PyStr (py "The child makes a safe choice and learns: " ++ guidance_text);
      "choices" ~> PyNone ] ].

(** [isinstance(v, int)]; a Python boolean is an integer. *)
Definition is_int (v : PyVal) : bool :=
  match v with
  | PyInt _ | PyBool _ => true
  | _ => false
  end.

(** [isinstance(v, str) and v.strip()] as a truth value. *)
Definition nonblank_str (v : PyVal) : bool :=
  match v with
  | PyStr s => negb (StoryGeneration.is_blank s)
  | _ => false
  end.

(** [d.get(k) if isinstance(d.get(k), str) else default]. *)
Definition str_field (k : string) (default : pystr) (d : dict) : PyVal :=
  match get k d with
  | PyStr s => PyStr s
  | _ => PyStr default
  end.

Definition _validate_context (w : World) (context : dict)
  (payload : StoryCreateRequest) : result dict :=
  age <-
    (if is_int (get "age" context) then Ok (get "age" context)
     else parsed <- _parse_age_value w (ageGroup payload) ;; Ok (PyInt parsed)) ;;
  let location :=
    if nonblank_str (get "location" context) then get "location" context
    else PyStr (text_or (regionContext payload) DEFAULT_LOCATION) in
  let topic_value :=
    if nonblank_str (get "topic" context) then get "topic" context
    else PyStr (topic payload) in
  let character :=
    match get "character" context with
    | PyDict c => c
    | _ => []
    end in
  Ok [ "age" ~> age;
       "location" ~> location;
       "character" ~>
         PyDict [ "skin" ~> str_field "skin" (py "brown") character;
                  "hair" ~> str_field "hair" (py "short black") character;
                  "clothes" ~> str_field "clothes" (py "school uniform") character ];
       "topic" ~> topic_value ].

(** The suffix of [s] that starts at the first [c]. *)
Fixpoint from_first (c : ascii) (s : pystr) : option pystr :=
  match s with
  | [] => None
  | x :: s' => if Ascii.eqb x c then Some s else from_first c s'
  end.

(** The prefix of [s] that ends at the last [c]. *)
Definition upto_last (c : ascii) (s : pystr) : option pystr :=
  option_map (@rev ascii) (from_first c (rev s)).

(** [re.search(r"\{.*\}", text, flags=re.DOTALL)], the matched text: the
    dot matches every character and the star is greedy, so the match runs
    from the first opening brace that has a closing brace after it to the
    last closing brace of the text. *)
Definition brace_span (text : pystr) : option pystr :=
  match from_first (chr 123) text with
  | Some (b :: rest) => option_map (cons b) (upto_last (chr 125) rest)
  | _ => None
  end.

Definition _extract_first_json_object (w : World) (text : pystr) : result dict :=
  let text := strip text in
  match text with
  | [] => Raise (StoryGenerationError (py "Model returned empty response"))
  | _ =>
      match json_loads w text with
      | Some (PyDict parsed) => Ok parsed
      | _ =>
          match brace_span text with
          | None =>
              Raise (StoryGenerationError (py "No JSON object found in model response"))
          | Some matched =>
              match json_loads w matched with
              | None =>
                  Raise (StoryGenerationError (py "Invalid JSON returned by model"))
              | Some (PyDict parsed) => Ok parsed
              | Some _ =>
                  Raise (StoryGenerationError
                           (py "Model response JSON root must be an object"))
              end
          end
      end
  end.

(** [_ollama_generate_json], from the world's answer to its request.
    [response_payload.get] on a value that is no dictionary raises
    [AttributeError]. *)
Definition _ollama_generate_json (w : World) (reply : http_outcome) : result dict :=
  match reply with
  | HttpURLError | HttpTimeoutError =>
      Raise (StoryGenerationError (py "Cannot reach Ollama server"))
  | HttpBody raw =>
      match json_loads w raw with
      | None => Raise (StoryGenerationError (py "Invalid response from Ollama"))
      | Some (PyDict response_payload) =>
          match get_or "response" (PyStr []) response_payload with
          | PyStr response_text => _extract_first_json_object w response_text
          | _ => Raise (StoryGenerationError (py "Unexpected Ollama payload format"))
          end
      | Some _ => Raise AttributeError
      end
  end.

(** The settings [generate_story_with_ollama] and its caller read. *)
Record GenerationSettings : Type := {
  ollama_enabled : bool;
  ollama_fallback_to_default : bool
}.

(** The answers of the generation endpoint: to the planner request, and to
    the story request, whose prompt holds the validated context. *)
Record Ollama : Type := {
  planner_reply : http_outcome;
  story_reply : dict -> http_outcome
}.

Definition generate_story_with_ollama (w : World) (o : Ollama)
  (gs : GenerationSettings) (payload : StoryCreateRequest)
  : result StoryGenerationResult :=
  if negb (ollama_enabled gs)
  then Raise (StoryGenerationError (py "Ollama generation is disabled"))
  else
    planner_output <- _ollama_generate_json w (planner_reply o) ;;
    context <- _validate_context w planner_output payload ;;
    story_output <- _ollama_generate_json w (story_reply o context) ;;
    slides <- StoryGeneration._validate_and_normalize_slides story_output payload ;;
    Ok {| context := context; slides := slides |}.

End Generation.

(* ===================================================================== *)
(** ** image_generation.py: the file-name slug *)
(* ===================================================================== *)

Module ImageGeneration.

Definition dash : ascii := chr 45.

(** [re.sub(r"[^a-zA-Z0-9]+", "-", s)]: each maximal run of characters
    outside the class becomes one dash; [in_run] tells that the character
    before was outside it. *)
Fixpoint dash_runs (in_run : bool) (s : pystr) : pystr :=
  match s with
  | [] => []
  | c :: s' =>
      if Re.is_alnum_ascii c then c :: dash_runs false s'
      else if in_run then dash_runs true s'
      else dash :: dash_runs true s'
  end.

Fixpoint lstrip_char (c : ascii) (s : pystr) : pystr :=
  match s with
  | x :: s' => if Ascii.eqb x c then lstrip_char c s' else s
  | [] => []
  end.

(** [s.strip(c)] for a single character [c]. *)
Definition strip_char (c : ascii) (s : pystr) : pystr :=
  rev (lstrip_char c (rev (lstrip_char c s))).

Definition _slugify (value : pystr) : pystr :=
  match strip_char dash (dash_runs false (lower (strip value))) with
  | [] => py "scene"
  | safe => safe
  end.

End ImageGeneration.

(* ===================================================================== *)
(** ** main.py: the slides [create_story] stores *)
(* ===================================================================== *)

Module Main.

(** How the slide selection of [create_story] ends: with the slides to
    store, with an [HTTPException] of the given status, or with an exception
    no handler of the function catches. *)
Inductive selection : Type :=
| Stored (slides_to_store : list dict)
| HttpError (status_code : Z)
| Unhandled (e : exn).

(** The second [try] of the selection: the critic on the slides chosen. *)
Definition after_critic (w : World) (st : Settings)
  (payload : StoryCreateRequest) (slides_to_store : list dict) : selection :=
  match SafetyCritic.apply_safety_critic w st payload slides_to_store with
  | Ok critic_result => Stored (SafetyCritic.slides critic_result)
  | Raise (SafetyCriticError _) =>
      if safety_critic_strict st then HttpError 422
      else Stored (Generation.build_default_branching_slides payload)
  | Raise e => Unhandled e
  end.

(** Lines 902 to 924 of [create_story]: generation with its fallback, then
    the critic with its fallback. *)
Definition select_slides (w : World) (o : Generation.Ollama)
  (gs : Generation.GenerationSettings) (st : Settings)
  (payload : StoryCreateRequest) : selection :=
  match Generation.generate_story_with_ollama w o gs payload with
  | Ok generated => after_critic w st payload (Generation.slides generated)
  | Raise (StoryGenerationError _) =>
      if negb (Generation.ollama_fallback_to_default gs) then HttpError 502
      else after_critic w st payload (Generation.build_default_branching_slides payload)
  | Raise e => Unhandled e
  end.

End Main.

(* ===================================================================== *)
(** ** Notions for the further properties *)
(* ===================================================================== *)

Module Shapes.
Import SafetyCritic.

(** The text of the slide is blank: [not str(slide.get("text", "")).strip()]. *)
Definition blank_text (slide : dict) : bool :=
  match strip (py_str (get_or "text" (PyStr []) slide)) with
  | [] => true
  | _ => false
  end.

Definition NO_SLIDES : exn :=
  SafetyCriticError (py "No slides available for safety validation").

(** The error of strict mode for the slide at [index], counted from 0. *)
Definition empty_text_error (index : nat) : exn :=
  SafetyCriticError (py "Slide " ++ str_of_nat (index + 1) ++ py " has empty text").

(** [slide] is the first slide of [input] with a blank text, at [index]. *)
Definition first_blank (input : list dict) (index : nat) (slide : dict) : Prop :=
  exists before after,
    input = before ++ slide :: after /\
    List.length before = index /\
    forallb (fun s => negb (blank_text s)) before = true /\
    blank_text slide = true.

(** The text of the inserted default slide. *)
Definition DEFAULT_BRANCH_TEXT : pystr :=
  py "A risky moment appears. What is the safest choice?".

(** The slide has a text that is a string, not empty and stripped. *)
Definition stripped_text (d : dict) : Prop :=
  exists t, dict_get "text" d = Some (PyStr t) /\ t <> [] /\ strip t = t.

(** The positions are integers between [lo] and [hi] that strictly
    increase along the list. *)
Definition increasing_positions (lo hi : Z) (l : list dict) : Prop :=
  exists ps,
    map (get "position") l = map PyInt ps /\
    StronglySorted Z.lt ps /\
    Forall (fun p => (lo <= p <= hi)%Z) ps.

(** A choice list of the slide holds a choice marked correct. *)
Definition some_correct (d : dict) : Prop :=
  forall l, get "choices" d = PyList l ->
            existsb StoryGeneration.choice_correct l = true.

(** The slide offers choices: [slide["choices"]] is true. *)
Definition offers_choices (d : dict) : bool := truthy (get "choices" d).

(** The slides the first [try] of the slide selection hands to the critic:
    the generated ones, or the template when the generation raises
    [StoryGenerationError] and the fallback is on. *)
Definition handed_to_critic (w : World) (o : Generation.Ollama)
  (gs : Generation.GenerationSettings) (payload : StoryCreateRequest)
  (l : list dict) : Prop :=
  (exists generated,
     Generation.generate_story_with_ollama w o gs payload = Ok generated /\
     l = Generation.slides generated) \/
  ((exists msg,
      Generation.generate_story_with_ollama w o gs payload =
      Raise (StoryGenerationError msg)) /\
   Generation.ollama_fallback_to_default gs = true /\
   l = Generation.build_default_branching_slides payload).

(** The text of the slide is not blank. *)
Definition nonblank_text (slide : dict) : Prop := blank_text slide = false.

(** A character of a slug: a lower-case letter, a digit or a dash. *)
Definition slug_char (c : ascii) : bool :=
  in_range 97 122 (ord c) || in_range 48 57 (ord c)
  || Ascii.eqb c ImageGeneration.dash.

(** No two dashes stand side by side. *)
Fixpoint single_dashes (s : pystr) : bool :=
  match s with
  | [] => true
  | c :: s' =>
      match s' with
      | d :: _ =>
          negb (Ascii.eqb c ImageGeneration.dash && Ascii.eqb d ImageGeneration.dash)
      | [] => true
      end && single_dashes s'
  end.

(** The first character is there and is no dash. *)
Definition starts_plain (s : pystr) : bool :=
  match s with
  | [] => false
  | c :: _ => negb (Ascii.eqb c ImageGeneration.dash)
  end.

(** A slug: not empty, of slug characters, with no dash at either end and
    no two dashes side by side. *)
Definition is_slug (s : pystr) : bool :=
  starts_plain s && starts_plain (rev s) && forallb slug_char s && single_dashes s.

End Shapes.

(* ===================================================================== *)
(** ** Sample worlds for the generation *)
(* ===================================================================== *)

Module Samples.

Definition quote : ascii := chr 34.

(** The JSON string literal of a text without control characters. *)
Fixpoint json_escape (s : pystr) : pystr :=
  match s with
  | [] => []
  | c :: s' =>
      if Ascii.eqb c quote || Ascii.eqb c backslash
      then backslash :: c :: json_escape s'
      else c :: json_escape s'
  end.

Definition json_string (s : pystr) : pystr := quote :: json_escape s ++ [quote].

(** The JSON document [{"text": s}]. *)
Definition slide_json (s : string) : pystr :=
  py "{" ++ json_string (py "text") ++ py ": " ++ json_string (py s) ++ py "}".

(** What the planner model answers: an empty object. *)
Definition plan_text : pystr := py "{}".

(** What the story model answers: three slides that hold a text only. *)
Definition story_text : pystr :=
  py "{" ++ json_string (py "slides") ++ py ": ["
  ++ slide_json "Mia sees a stranger." ++ py ", "
  ++ slide_json "Mia walks away." ++ py ", "
  ++ slide_json "Mia is safe." ++ py "]}".

(** The body of the endpoint's answer that carries [response]. *)
Definition body_of (response : pystr) : pystr :=
  py "{" ++ json_string (py "response") ++ py ": " ++ json_string response ++ py "}".

(** A world whose [json.loads] reads these four documents. *)
Definition scripted : World :=
  {| urlopen_read := HttpURLError;
     json_loads := fun s =>
       if pystr_eqb s (body_of plan_text)
       then Some (PyDict [ "response" ~> PyStr plan_text ])
       else if pystr_eqb s (body_of story_text)
       then Some (PyDict [ "response" ~> PyStr story_text ])
       else if pystr_eqb s plan_text then Some (PyDict [])
       else if pystr_eqb s story_text
       then Some (PyDict
                    [ "slides" ~>
                        PyList
                          [ Examples.raw (Examples.text_slide "Mia sees a stranger.");
                            Examples.raw (Examples.text_slide "Mia walks away.");
                            Examples.raw (Examples.text_slide "Mia is safe.") ] ])
       else None;
     int_max_str_digits := 4300 |}.

(** The endpoint answers both requests. *)
Definition answering : Generation.Ollama :=
  {| Generation.planner_reply := HttpBody (body_of plan_text);
     Generation.story_reply := fun _ => HttpBody (body_of story_text) |}.

(** The endpoint cannot be reached. *)
Definition unreachable : Generation.Ollama :=
  {| Generation.planner_reply := HttpURLError;
     Generation.story_reply := fun _ => HttpURLError |}.

Definition generation_on : Generation.GenerationSettings :=
  {| Generation.ollama_enabled := true;
     Generation.ollama_fallback_to_default := true |}.

End Samples.

(* ===================================================================== *)
(** ** Facts about text *)
(* ===================================================================== *)

Module TextFacts.

Lemma lstrip_split (s : pystr) :
  exists a, s = a ++ lstrip s /\ forallb is_space a = true.
Proof.
  induction s as [|c s IH]; simpl.
  - exists []; auto.
  - destruct (is_space c) eqn:E.
    + destruct IH as [a [H1 H2]]. exists (c :: a). simpl.
      rewrite E, H2. split; [f_equal; exact H1 | reflexivity].
    + exists []; auto.
Qed.

Lemma lstrip_head (s t : pystr) (c : ascii) :
  lstrip s = c :: t -> is_space c = false.
Proof.
  induction s as [|x s IH]; simpl; [discriminate|].
  destruct (is_space x) eqn:E; [exact IH|].
  intros H. injection H as -> _. exact E.
Qed.

Lemma lstrip_fix_cons (c : ascii) (s : pystr) :
  is_space c = false -> lstrip (c :: s) = c :: s.
Proof. intros H. simpl. now rewrite H. Qed.

Lemma lstrip_fix_inv (s : pystr) :
  lstrip s = s -> s = [] \/ exists c t, s = c :: t /\ is_space c = false.
Proof.
  destruct s as [|c t]; [now left|].
  intros H. right. exists c, t. split; [reflexivity|].
  eapply lstrip_head. exact H.
Qed.

Lemma lstrip_idem (s : pystr) : lstrip (lstrip s) = lstrip s.
Proof.
  destruct (lstrip s) as [|c t] eqn:E; [reflexivity|].
  apply lstrip_fix_cons. eapply lstrip_head. exact E.
Qed.

Lemma lstrip_fix_app (a b : pystr) :
  lstrip a = a -> a <> [] -> lstrip (a ++ b) = a ++ b.
Proof.
  intros H Hne. destruct (lstrip_fix_inv _ H) as [->|[c [t [-> Hc]]]];
    [contradiction|].
  simpl. now rewrite Hc.
Qed.

Lemma lstrip_fix_firstn (n : nat) (s : pystr) :
  lstrip s = s -> lstrip (firstn n s) = firstn n s.
Proof.
  intros H. destruct (lstrip_fix_inv _ H) as [->|[c [t [-> Hc]]]].
  - now rewrite firstn_nil.
  - destruct n; simpl; [reflexivity|]. now rewrite Hc.
Qed.

Lemma rstrip_split (s : pystr) :
  exists b, s = rstrip s ++ b /\ forallb is_space b = true.
Proof.
  unfold rstrip. destruct (lstrip_split (rev s)) as [a [H1 H2]].
  exists (rev a). split.
  - rewrite <- rev_app_distr, <- H1. now rewrite rev_involutive.
  - rewrite forallb_forall in *. intros x Hx. apply H2. now apply in_rev.
Qed.

Lemma rstrip_fix_snoc (s : pystr) (d : ascii) :
  is_space d = false -> rstrip (s ++ [d]) = s ++ [d].
Proof.
  intros H. unfold rstrip. rewrite rev_app_distr. simpl. rewrite H.
  simpl. now rewrite rev_involutive.
Qed.

Lemma rstrip_fix_inv (s : pystr) :
  rstrip s = s -> s = [] \/ exists t d, s = t ++ [d] /\ is_space d = false.
Proof.
  unfold rstrip. intros H.
  assert (H' : lstrip (rev s) = rev s).
  { rewrite <- H at 2. now rewrite rev_involutive. }
  destruct (lstrip_fix_inv _ H') as [E|[c [t [E Hc]]]].
  - left. apply (f_equal (@rev ascii)) in E. now rewrite rev_involutive in E.
  - right. exists (rev t), c. split; [|exact Hc].
    apply (f_equal (@rev ascii)) in E. now rewrite rev_involutive in E.
Qed.

Lemma rstrip_idem (s : pystr) : rstrip (rstrip s) = rstrip s.
Proof.
  unfold rstrip. rewrite rev_involutive. now rewrite lstrip_idem.
Qed.

Lemma rstrip_fix_app (a b : pystr) :
  rstrip b = b -> b <> [] -> rstrip (a ++ b) = a ++ b.
Proof.
  intros H Hne. destruct (rstrip_fix_inv _ H) as [->|[t [d [-> Hd]]]];
    [contradiction|].
  rewrite app_assoc. now apply rstrip_fix_snoc.
Qed.

Lemma lstrip_rstrip (s : pystr) :
  lstrip s = s -> lstrip (rstrip s) = rstrip s.
Proof.
  intros H. destruct (rstrip_split s) as [b [H1 _]].
  destruct (rstrip s) as [|c t] eqn:E; [reflexivity|].
  destruct (lstrip_fix_inv _ H) as [E0|[c' [t' [E0 Hc]]]].
  - rewrite E0 in H1. discriminate.
  - rewrite E0 in H1. simpl in H1. injection H1 as -> _.
    now apply lstrip_fix_cons.
Qed.

Lemma strip_fixes (s : pystr) :
  lstrip s = s -> rstrip s = s -> strip s = s.
Proof. intros H1 H2. unfold strip. now rewrite H1. Qed.

Lemma strip_fix_inv (s : pystr) :
  strip s = s -> lstrip s = s /\ rstrip s = s.
Proof.
  unfold strip. intros H.
  assert (L : lstrip s = s).
  { rewrite <- H at 1. rewrite lstrip_rstrip by apply lstrip_idem. exact H. }
  split; [exact L|]. now rewrite L in H.
Qed.

Lemma strip_idem (s : pystr) : strip (strip s) = strip s.
Proof.
  apply strip_fixes.
  - unfold strip. apply lstrip_rstrip, lstrip_idem.
  - unfold strip. apply rstrip_idem.
Qed.

(** [strip s] is a piece of [s]. *)
Lemma strip_split (s : pystr) : exists a b, s = a ++ strip s ++ b.
Proof.
  destruct (lstrip_split s) as [a [Ha _]].
  destruct (rstrip_split (lstrip s)) as [b [Hb _]].
  exists a, b. unfold strip. now rewrite <- Hb.
Qed.

Lemma has_text_app (a b : pystr) :
  Literal.has_text (a ++ b) = Literal.has_text a || Literal.has_text b.
Proof. unfold Literal.has_text. apply existsb_app. Qed.

Lemma all_space_no_text (a : pystr) :
  forallb is_space a = true -> Literal.has_text a = false.
Proof.
  unfold Literal.has_text. induction a as [|c a IH]; simpl; [reflexivity|].
  intros H. apply andb_prop in H as [H1 H2]. now rewrite H1, IH.
Qed.

Lemma has_text_strip (s : pystr) :
  Literal.has_text (strip s) = Literal.has_text s.
Proof.
  destruct (lstrip_split s) as [a [Ha Sa]].
  destruct (rstrip_split (lstrip s)) as [b [Hb Sb]].
  unfold strip. rewrite Ha at 2. rewrite Hb at 2.
  rewrite !has_text_app, (all_space_no_text _ Sa), (all_space_no_text _ Sb).
  simpl. now rewrite orb_false_r.
Qed.

Lemma has_text_nonempty (s : pystr) : Literal.has_text s = true -> s <> [].
Proof. intros H ->. discriminate. Qed.

Lemma stripped_has_text (s : pystr) :
  strip s = s -> s <> [] -> Literal.has_text s = true.
Proof.
  intros H Hne. apply strip_fix_inv in H as [H _].
  destruct (lstrip_fix_inv _ H) as [->|[c [t [-> Hc]]]]; [contradiction|].
  unfold Literal.has_text. simpl. now rewrite Hc.
Qed.

Lemma strip_nonempty (s : pystr) :
  Literal.has_text s = true -> strip s <> [].
Proof. intros H. apply has_text_nonempty. now rewrite has_text_strip. Qed.

Lemma lower_app (a b : pystr) : lower (a ++ b) = lower a ++ lower b.
Proof. apply map_app. Qed.

Lemma lower_char_idem (c : ascii) : lower_char (lower_char c) = lower_char c.
Proof. destruct c as [[] [] [] [] [] [] [] []]; reflexivity. Qed.

End TextFacts.

(* ===================================================================== *)
(** ** Facts about literal patterns *)
(* ===================================================================== *)

Module LiteralFacts.
Import Literal.

Lemma match_here_lit (ci : bool) (u : pystr) :
  forall prev s,
    Re.match_here ci (map Re.Lit u) prev s =
    if starts ci u s then Some (List.length u) else None.
Proof.
  induction u as [|c u IH]; intros prev s; simpl; [reflexivity|].
  destruct s as [|x s]; [reflexivity|].
  destruct (Re.char_eq ci c x); simpl; [|reflexivity].
  rewrite IH. now destruct (starts ci u s).
Qed.

Lemma search_from_lit (ci : bool) (u : pystr) :
  forall s prev, Re.search_from ci (map Re.Lit u) prev s = occurs ci u s.
Proof.
  induction s as [|x s IH]; intros prev; simpl; rewrite match_here_lit.
  - destruct (starts ci u []); reflexivity.
  - destruct (starts ci u (x :: s)); simpl; [reflexivity|]. apply IH.
Qed.

Lemma search_lit (ci : bool) (u s : pystr) :
  Re.search ci (map Re.Lit u) s = occurs ci u s.
Proof. apply search_from_lit. Qed.

Lemma sub_from_skip (ci : bool) (u r : pystr) :
  u <> [] ->
  forall s k prev,
    Re.sub_from ci (map Re.Lit u) r prev k s =
    Re.sub_from ci (map Re.Lit u) r None 0 (skipn k s).
Proof.
  intros Hu. induction s as [|x s IH]; intros k prev.
  - rewrite skipn_nil. simpl. rewrite !match_here_lit.
    destruct u; [contradiction|]. simpl. now destruct k.
  - destruct k as [|k].
    + simpl. rewrite !match_here_lit. reflexivity.
    + simpl. apply IH.
Qed.

Lemma replace_nil (ci : bool) (u r : pystr) :
  u <> [] -> replace ci u r [] = [].
Proof.
  intros Hu. unfold replace, Re.sub. simpl. rewrite match_here_lit.
  destruct u; [contradiction|]. reflexivity.
Qed.

Lemma replace_cons (ci : bool) (u r : pystr) (x : ascii) (s : pystr) :
  u <> [] ->
  replace ci u r (x :: s) =
  if starts ci u (x :: s)
  then r ++ replace ci u r (skipn (List.length u) (x :: s))
  else x :: replace ci u r s.
Proof.
  intros Hu. unfold replace, Re.sub. simpl Re.sub_from at 1.
  rewrite match_here_lit.
  destruct (starts ci u (x :: s)).
  - destruct u as [|c u]; [contradiction|]. simpl List.length.
    cbv beta iota. simpl skipn. f_equal. apply sub_from_skip. discriminate.
  - f_equal. rewrite (sub_from_skip ci u r Hu s 0 (Some x)). reflexivity.
Qed.

Lemma starts_app_l (ci : bool) (u a b : pystr) :
  starts ci u a = true -> starts ci u (a ++ b) = true.
Proof.
  revert a. induction u as [|c u IH]; intros a; simpl; [reflexivity|].
  destruct a as [|x a]; [discriminate|]. simpl.
  intros H. apply andb_prop in H as [H1 H2]. rewrite H1. simpl. now apply IH.
Qed.

Lemma starts_within (ci : bool) (u a b : pystr) :
  starts ci u (a ++ b) = true -> List.length u <= List.length a ->
  starts ci u a = true.
Proof.
  revert a. induction u as [|c u IH]; intros a; simpl; [reflexivity|].
  destruct a as [|x a]; simpl; [lia|].
  intros H L. apply andb_prop in H as [H1 H2]. rewrite H1. simpl.
  apply IH; [exact H2 | lia].
Qed.

Lemma starts_across (ci : bool) (u a b : pystr) :
  starts ci u (a ++ b) = true ->
  starts ci (skipn (List.length a) u) b = true.
Proof.
  revert a. induction u as [|c u IH]; intros a H.
  - rewrite skipn_nil. reflexivity.
  - destruct a as [|x a]; [exact H|]. simpl in *.
    apply andb_prop in H as [_ H2]. now apply IH.
Qed.

Lemma starts_agree (ci : bool) (u r y : pystr) :
  starts ci u (r ++ y) = true -> agree ci u r = true.
Proof.
  revert r. induction u as [|c u IH]; intros r; simpl; [reflexivity|].
  destruct r as [|x r]; [reflexivity|]. simpl.
  intros H. apply andb_prop in H as [H1 H2]. rewrite H1. simpl. now apply IH.
Qed.

Lemma skipn_in_tails (u : pystr) (n : nat) :
  n < List.length u -> In (skipn n u) (tails u).
Proof.
  revert n. induction u as [|c u IH]; intros n L; simpl in L; [lia|].
  destruct n as [|n]; simpl; [now left|]. right. apply IH. lia.
Qed.

Lemma closed_left_tail (ci : bool) (c : ascii) (u r : pystr) :
  closed_left ci (c :: u) r = true -> closed_left ci u r = true.
Proof.
  unfold closed_left. simpl. intros H. apply andb_prop in H as [_ H]. exact H.
Qed.

Lemma closed_left_head (ci : bool) (c : ascii) (u r : pystr) :
  closed_left ci (c :: u) r = true -> agree ci (c :: u) r = false.
Proof.
  unfold closed_left. simpl tails. simpl forallb. intros H.
  apply andb_prop in H as [H _]. now apply negb_true_iff in H.
Qed.

Lemma occurs_cons (ci : bool) (u : pystr) (x : ascii) (s : pystr) :
  occurs ci u (x :: s) = starts ci u (x :: s) || occurs ci u s.
Proof. reflexivity. Qed.

Lemma occurs_app_l (ci : bool) (u a b : pystr) :
  occurs ci u a = true -> occurs ci u (a ++ b) = true.
Proof.
  induction a as [|x a IH].
  - simpl. rewrite orb_false_r. intros H.
    destruct u; [|discriminate]. destruct b; reflexivity.
  - rewrite <- app_comm_cons, !occurs_cons. intros H.
    apply orb_prop in H as [H|H]; apply orb_true_iff.
    + left. now apply (starts_app_l ci u (x :: a) b).
    + right. now apply IH.
Qed.

Lemma occurs_app_r (ci : bool) (u a b : pystr) :
  occurs ci u b = true -> occurs ci u (a ++ b) = true.
Proof.
  intros H. induction a as [|x a IH]; [exact H|].
  rewrite <- app_comm_cons, occurs_cons. rewrite IH. apply orb_true_r.
Qed.

Lemma occurs_piece (ci : bool) (u a m b : pystr) :
  occurs ci u m = true -> occurs ci u (a ++ m ++ b) = true.
Proof. intros H. apply occurs_app_r, occurs_app_l, H. Qed.

(** An occurrence in a text that begins with an inert piece lies after it. *)
Lemma occurs_after (ci : bool) (u r y : pystr) :
  closed_right ci u r = true ->
  occurs ci u (r ++ y) = true -> occurs ci u y = true.
Proof.
  induction r as [|c r IH]; intros C H; [exact H|].
  unfold closed_right in C. simpl in C. apply andb_prop in C as [C1 C2].
  rewrite <- app_comm_cons, occurs_cons in H.
  apply orb_prop in H as [H|H].
  - apply (starts_agree ci u (c :: r) y) in H.
    rewrite H in C1. discriminate.
  - now apply IH.
Qed.

(** An occurrence in a text with an inert piece inside lies before the piece
    or after it. *)
Lemma occurs_around (ci : bool) (u r : pystr) :
  inert ci u r = true ->
  forall x y,
    occurs ci u (x ++ r ++ y) = true ->
    occurs ci u x = true \/ occurs ci u y = true.
Proof.
  intros I. apply andb_prop in I as [CL CR].
  induction x as [|c x IH]; intros y H.
  - right. now apply (occurs_after ci u r y).
  - rewrite <- app_comm_cons, occurs_cons in H.
    apply orb_prop in H as [H|H].
    + destruct (Nat.le_gt_cases (List.length u) (List.length (c :: x))) as [L|L].
      * left. rewrite occurs_cons.
        rewrite (starts_within ci u (c :: x) (r ++ y) H L). reflexivity.
      * pose proof (starts_across ci u (c :: x) (r ++ y) H) as A.
        apply starts_agree in A.
        unfold closed_left in CL. rewrite forallb_forall in CL.
        specialize (CL _ (skipn_in_tails u _ L)).
        rewrite A in CL. discriminate.
    + destruct (IH y H) as [G|G]; [left | now right].
      rewrite occurs_cons, G. apply orb_true_r.
Qed.

Lemma occurs_before (ci : bool) (u r x : pystr) :
  inert ci u r = true ->
  occurs ci u (x ++ r) = true -> occurs ci u x = true.
Proof.
  intros I H. rewrite <- (app_nil_r r) in H.
  destruct (occurs_around ci u r I x [] H) as [G|G]; [exact G|].
  simpl in G. rewrite orb_false_r in G.
  destruct u; [|discriminate].
  apply andb_prop in I as [_ CR]. unfold closed_right in CR.
  destruct x; reflexivity.
Qed.

(** What stands at the head of the result of a replacement stood at the
    head of the text, when it cannot reach into a replacement. *)
Lemma starts_replace (ci : bool) (u r : pystr) :
  u <> [] ->
  forall t s,
    closed_left ci t r = true ->
    starts ci t (replace ci u r s) = true -> starts ci t s = true.
Proof.
  intros Hu. induction t as [|c t IH]; intros s C H; [reflexivity|].
  destruct s as [|x s].
  - rewrite replace_nil in H by exact Hu. discriminate.
  - rewrite replace_cons in H by exact Hu.
    destruct (starts ci u (x :: s)).
    + apply starts_agree in H. rewrite (closed_left_head ci c t r C) in H.
      discriminate.
    + simpl in H |- *. apply andb_prop in H as [H1 H2]. rewrite H1. simpl.
      apply IH; [now apply (closed_left_tail ci c) | exact H2].
Qed.

Lemma skipn_shorter (u : pystr) (x : ascii) (s : pystr) :
  u <> [] -> List.length (skipn (List.length u) (x :: s)) <= List.length s.
Proof.
  intros Hu. destruct u; [contradiction|]. simpl. rewrite length_skipn. lia.
Qed.

Lemma occurs_skipn (ci : bool) (q : pystr) (n : nat) (s : pystr) :
  occurs ci q (skipn n s) = true -> occurs ci q s = true.
Proof.
  intros H. rewrite <- (firstn_skipn n s). now apply occurs_app_r.
Qed.

(** A replacement leaves no occurrence of what it replaces. *)
Lemma replace_removes (ci : bool) (u r : pystr) :
  u <> [] -> inert ci u r = true ->
  forall s, occurs ci u (replace ci u r s) = false.
Proof.
  intros Hu I s.
  assert (G : forall n s, List.length s <= n ->
                          occurs ci u (replace ci u r s) = false).
  { clear s. induction n as [|n IH]; intros s L.
    - destruct s; [|simpl in L; lia]. rewrite replace_nil by exact Hu.
      simpl. rewrite orb_false_r. destruct u; [contradiction|reflexivity].
    - destruct s as [|x s].
      + rewrite replace_nil by exact Hu.
        simpl. rewrite orb_false_r. destruct u; [contradiction|reflexivity].
      + rewrite replace_cons by exact Hu.
        destruct (starts ci u (x :: s)) eqn:E.
        * apply not_true_is_false. intros H.
          apply andb_prop in I as [_ CR].
          apply (occurs_after ci u r _ CR) in H.
          rewrite IH in H; [discriminate|].
          pose proof (skipn_shorter u x s Hu). simpl in L. lia.
        * rewrite occurs_cons. apply orb_false_iff. split.
          -- apply not_true_is_false. intros H.
             destruct u as [|c u]; [contradiction|].
             simpl in H. apply andb_prop in H as [H1 H2].
             apply andb_prop in I as [CL _].
             apply (closed_left_tail ci c) in CL.
             apply (starts_replace ci (c :: u) r Hu u s CL) in H2.
             simpl in E. rewrite H1, H2 in E. discriminate.
          -- apply IH. simpl in L. lia. }
  apply (G (List.length s)). lia.
Qed.

(** A replacement makes no occurrence of a string its text is inert for. *)
Lemma replace_no_new (ci : bool) (u r q : pystr) :
  u <> [] -> inert ci q r = true ->
  forall s, occurs ci q (replace ci u r s) = true -> occurs ci q s = true.
Proof.
  intros Hu I s.
  assert (G : forall n s, List.length s <= n ->
                          occurs ci q (replace ci u r s) = true ->
                          occurs ci q s = true).
  { clear s. induction n as [|n IH]; intros s L H.
    - destruct s; [|simpl in L; lia]. now rewrite replace_nil in H.
    - destruct s as [|x s]; [now rewrite replace_nil in H|].
      rewrite replace_cons in H by exact Hu.
      destruct (starts ci u (x :: s)) eqn:E.
      + apply andb_prop in I as [_ CR].
        apply (occurs_after ci q r _ CR) in H.
        apply IH in H.
        * now apply occurs_skipn in H.
        * pose proof (skipn_shorter u x s Hu). simpl in L. lia.
      + rewrite occurs_cons in H |- *. apply orb_prop in H as [H|H].
        * destruct q as [|c q]; [reflexivity|].
          simpl in H. apply andb_prop in H as [H1 H2].
          apply andb_prop in I as [CL _].
          apply (closed_left_tail ci c) in CL.
          apply (starts_replace ci u r Hu q s CL) in H2.
          simpl. now rewrite H1, H2.
        * apply IH in H; [|simpl in L; lia]. rewrite H. apply orb_true_r. }
  apply (G (List.length s)). lia.
Qed.

(** Without an occurrence a replacement changes nothing. *)
Lemma replace_id (ci : bool) (u r : pystr) :
  u <> [] -> forall s, occurs ci u s = false -> replace ci u r s = s.
Proof.
  intros Hu. induction s as [|x s IH]; intros H.
  - now apply replace_nil.
  - rewrite occurs_cons in H. apply orb_false_iff in H as [H1 H2].
    rewrite replace_cons, H1 by exact Hu. f_equal. now apply IH.
Qed.

(** A replacement by visible text keeps a text visible. *)
Lemma replace_has_text (ci : bool) (u r : pystr) :
  u <> [] -> has_text r = true ->
  forall s, has_text s = true -> has_text (replace ci u r s) = true.
Proof.
  intros Hu Hr s.
  assert (G : forall n s, List.length s <= n -> has_text s = true ->
                          has_text (replace ci u r s) = true).
  { clear s. induction n as [|n IH]; intros s L H.
    - destruct s; [discriminate|simpl in L; lia].
    - destruct s as [|x s]; [discriminate|].
      rewrite replace_cons by exact Hu.
      destruct (starts ci u (x :: s)).
      + rewrite TextFacts.has_text_app, Hr. reflexivity.
      + unfold has_text in H |- *. simpl in H |- *.
        apply orb_prop in H as [H|H]; [now rewrite H|].
        apply orb_true_iff. right. apply IH; [simpl in L; lia | exact H]. }
  apply (G (List.length s)). lia.
Qed.

Lemma occurs_firstn (ci : bool) (q : pystr) (n : nat) (s : pystr) :
  occurs ci q (firstn n s) = true -> occurs ci q s = true.
Proof.
  intros H. rewrite <- (firstn_skipn n s). now apply occurs_app_l.
Qed.

Lemma occurs_strip (ci : bool) (q s : pystr) :
  occurs ci q (strip s) = true -> occurs ci q s = true.
Proof.
  intros H. destruct (TextFacts.strip_split s) as [a [b E]].
  rewrite E. now apply occurs_piece.
Qed.

Lemma occurs_rstrip (ci : bool) (q s : pystr) :
  occurs ci q (rstrip s) = true -> occurs ci q s = true.
Proof.
  intros H. destruct (TextFacts.rstrip_split s) as [b [E _]].
  rewrite E. now apply occurs_app_l.
Qed.

End LiteralFacts.

(* ===================================================================== *)
(** ** Facts about the substitution pass and the scary-term count *)
(* ===================================================================== *)

Module SanitizeFacts.
Import Literal LiteralFacts SafetyCritic Spec.

Arguments sanitize_step : simpl never.
Arguments step_text : simpl never.
Arguments _sanitize_text : simpl never.
Arguments _count_scary_terms : simpl never.

(** The patterns of the source compile to plain strings: the doubled
    backslash of the raw string is a literal backslash, not [\b]. *)
Lemma unsafe_patterns_literal :
  Forall (fun e => literal_pattern (fst e)) UNSAFE_REPLACEMENTS.
Proof. repeat constructor. Qed.

Lemma scary_patterns_literal : Forall literal_pattern SCARY_TERMS.
Proof. repeat constructor. Qed.

(** They are inside the fragment of [re] the model covers. *)
Lemma source_patterns_supported :
  forallb (fun e => Re.supported (word_pattern (fst e))) UNSAFE_REPLACEMENTS = true /\
  forallb (fun term => Re.supported (word_pattern term)) SCARY_TERMS = true.
Proof. split; reflexivity. Qed.

Lemma needle_nonempty (term : pystr) : needle term <> [].
Proof. discriminate. Qed.

Lemma sanitize_step_text (t : pystr) (ch : list pystr) (e : pystr * pystr) :
  literal_pattern (fst e) ->
  fst (sanitize_step (t, ch) e) = step_text t e.
Proof.
  intros L. destruct e as [bad repl]. unfold literal_pattern in L.
  simpl fst in L. unfold step_text.
  change (fst (bad, repl)) with bad. change (snd (bad, repl)) with repl.
  unfold sanitize_step. cbv beta iota zeta. rewrite L, search_lit.
  destruct (occurs true (needle bad) t) eqn:E; simpl; [reflexivity|].
  symmetry. apply replace_id; [apply needle_nonempty | exact E].
Qed.

Lemma sanitize_step_quiet (t : pystr) (ch : list pystr) (e : pystr * pystr) :
  literal_pattern (fst e) ->
  occurs true (needle (fst e)) t = false ->
  sanitize_step (t, ch) e = (t, ch).
Proof.
  intros L E. destruct e as [bad repl]. unfold literal_pattern in L.
  simpl fst in L, E. unfold sanitize_step. cbv beta iota zeta.
  now rewrite L, search_lit, E.
Qed.

Lemma fold_sanitize_text (tbl : list (pystr * pystr)) :
  Forall (fun e => literal_pattern (fst e)) tbl ->
  forall t ch,
    fst (fold_left sanitize_step tbl (t, ch)) = fold_left step_text tbl t.
Proof.
  induction 1 as [|e tbl L _ IH]; intros t ch; [reflexivity|].
  simpl. rewrite <- (sanitize_step_text t ch e L).
  destruct (sanitize_step (t, ch) e) as [t' ch']. apply IH.
Qed.

Lemma fold_sanitize_quiet (tbl : list (pystr * pystr)) :
  Forall (fun e => literal_pattern (fst e)) tbl ->
  forall t ch,
    forallb (fun e => negb (occurs true (needle (fst e)) t)) tbl = true ->
    fold_left sanitize_step tbl (t, ch) = (t, ch).
Proof.
  induction 1 as [|e tbl L _ IH]; intros t ch F; [reflexivity|].
  simpl in F |- *. apply andb_prop in F as [F1 F2].
  apply negb_true_iff in F1.
  rewrite (sanitize_step_quiet t ch e L F1). now apply IH.
Qed.

(** The loop invariant of the pass: the strings of the entries done are
    absent, and stay so. *)
Lemma fold_step_clean (todo : list (pystr * pystr)) :
  forall (done : list pystr) (t : pystr),
    (forall q, In q done -> occurs true q t = false) ->
    (forall q e, In q (done ++ map (fun e => needle (fst e)) todo) ->
                 In e todo -> inert true q (snd e) = true) ->
    forall q, In q (done ++ map (fun e => needle (fst e)) todo) ->
              occurs true q (fold_left step_text todo t) = false.
Proof.
  induction todo as [|e todo IH]; intros done t D I q Hq.
  - simpl in *. rewrite app_nil_r in Hq. now apply D.
  - simpl fold_left.
    apply (IH (done ++ [needle (fst e)])).
    + intros q' Hq'. apply in_app_or in Hq' as [Hq'|[<-|[]]].
      * apply not_true_is_false. intros O.
        apply replace_no_new in O; [|apply needle_nonempty|].
        -- rewrite D in O by exact Hq'. discriminate.
        -- apply I; [apply in_or_app; now left | now left].
      * apply replace_removes; [apply needle_nonempty|].
        apply I; [apply in_or_app; right; now left | now left].
    + intros q' e' Hq' He'. apply I; [|now right].
      rewrite <- app_assoc in Hq'. exact Hq'.
    + rewrite <- app_assoc. exact Hq.
Qed.

Lemma unsafe_inert_table :
  forallb (fun e1 =>
     forallb (fun e2 => inert true (needle (fst e1)) (snd e2))
             UNSAFE_REPLACEMENTS) UNSAFE_REPLACEMENTS = true.
Proof. vm_compute. reflexivity. Qed.

Lemma pass_unsafe_free (t : pystr) :
  unsafe_free (fold_left step_text UNSAFE_REPLACEMENTS t) = true.
Proof.
  unfold unsafe_free. apply forallb_forall. intros e He.
  apply negb_true_iff.
  apply (fold_step_clean UNSAFE_REPLACEMENTS [] t).
  - intros q [].
  - intros q e' Hq He'. rewrite app_nil_l in Hq. apply in_map_iff in Hq as [e1 [<- H1]].
    pose proof unsafe_inert_table as T.
    rewrite forallb_forall in T. specialize (T _ H1).
    rewrite forallb_forall in T. now apply T.
  - rewrite app_nil_l. apply in_map_iff. now exists e.
Qed.

Lemma unsafe_free_piece (a m b : pystr) :
  unsafe_free (a ++ m ++ b) = true -> unsafe_free m = true.
Proof.
  unfold unsafe_free. rewrite !forallb_forall. intros H e He.
  specialize (H e He). apply negb_true_iff in H. apply negb_true_iff.
  apply not_true_is_false. intros O.
  rewrite (occurs_piece true _ a m b O) in H. discriminate.
Qed.

Lemma unsafe_free_strip (t : pystr) :
  unsafe_free t = true -> unsafe_free (strip t) = true.
Proof.
  destruct (TextFacts.strip_split t) as [a [b E]]. intros H.
  rewrite E in H. now apply unsafe_free_piece in H.
Qed.

Lemma sanitize_text_is (t : pystr) :
  fst (_sanitize_text t) = strip (fold_left step_text UNSAFE_REPLACEMENTS t).
Proof.
  unfold _sanitize_text.
  rewrite <- (fold_sanitize_text _ unsafe_patterns_literal t []).
  now destruct (fold_left sanitize_step UNSAFE_REPLACEMENTS (t, [])).
Qed.

(** After the pass no string it looks for is left. *)
Lemma sanitize_unsafe_free (t : pystr) :
  unsafe_free (fst (_sanitize_text t)) = true.
Proof. rewrite sanitize_text_is. apply unsafe_free_strip, pass_unsafe_free. Qed.

Lemma sanitize_stripped (t : pystr) :
  strip (fst (_sanitize_text t)) = fst (_sanitize_text t).
Proof. rewrite sanitize_text_is. apply TextFacts.strip_idem. Qed.

(** On a stripped text without such a string the pass changes nothing and
    reports nothing. *)
Lemma sanitize_fixpoint (t : pystr) :
  unsafe_free t = true -> strip t = t -> _sanitize_text t = (t, []).
Proof.
  intros F S. unfold _sanitize_text.
  rewrite (fold_sanitize_quiet _ unsafe_patterns_literal t [] F). now rewrite S.
Qed.

Lemma replacements_visible :
  forallb (fun e => has_text (snd e)) UNSAFE_REPLACEMENTS = true.
Proof. reflexivity. Qed.

Lemma fold_step_has_text (tbl : list (pystr * pystr)) :
  forallb (fun e => has_text (snd e)) tbl = true ->
  forall t, has_text t = true -> has_text (fold_left step_text tbl t) = true.
Proof.
  induction tbl as [|e tbl IH]; intros F t H; [exact H|].
  simpl in F |- *. apply andb_prop in F as [F1 F2]. apply IH; [exact F2|].
  apply replace_has_text; [apply needle_nonempty | exact F1 | exact H].
Qed.

Lemma sanitize_nonempty (t : pystr) :
  has_text t = true -> fst (_sanitize_text t) <> [].
Proof.
  intros H. rewrite sanitize_text_is. apply TextFacts.strip_nonempty.
  now apply fold_step_has_text.
Qed.

Lemma count_scary_is (t : pystr) :
  _count_scary_terms t =
  Z.of_nat (List.length
              (filter (fun term => occurs false (needle term) (lower t)) SCARY_TERMS)).
Proof.
  unfold _count_scary_terms. do 2 f_equal. apply filter_ext_in.
  intros term Hin. pose proof scary_patterns_literal as L.
  rewrite Forall_forall in L. rewrite (L term Hin). apply search_lit.
Qed.

Lemma filter_length_mono {A : Type} (f g : A -> bool) (l : list A) :
  (forall x, In x l -> f x = true -> g x = true) ->
  List.length (filter f l) <= List.length (filter g l).
Proof.
  induction l as [|x l IH]; intros H; simpl; [lia|].
  assert (IH' : List.length (filter f l) <= List.length (filter g l)).
  { apply IH. intros y Hy. apply H. now right. }
  destruct (f x) eqn:E.
  - rewrite (H x (or_introl eq_refl) E). simpl. lia.
  - destruct (g x); simpl; lia.
Qed.

Lemma count_scary_mono (a b : pystr) :
  (forall term, In term SCARY_TERMS ->
     occurs false (needle term) (lower a) = true ->
     occurs false (needle term) (lower b) = true) ->
  (_count_scary_terms a <= _count_scary_terms b)%Z.
Proof.
  intros H. rewrite !count_scary_is. apply inj_le.
  now apply filter_length_mono.
Qed.

Lemma slice_to_firstn (n : Z) (s : pystr) : exists k, slice_to n s = firstn k s.
Proof. unfold slice_to. destruct (0 <=? n)%Z; eexists; reflexivity. Qed.

Lemma ellipsis_inert : tail_inert (py "...").
Proof. split; vm_compute; reflexivity. Qed.

Lemma guidance_inert : tail_inert GUIDANCE_SENTENCE.
Proof. split; vm_compute; reflexivity. Qed.

(** Adding an inert tail to a piece of a text brings no unsafe string. *)
Lemma unsafe_free_tail (x tail : pystr) :
  tail_inert tail -> unsafe_free x = true -> unsafe_free (x ++ tail) = true.
Proof.
  intros [I _] F. unfold unsafe_free in *. rewrite forallb_forall in *.
  intros e He. specialize (F e He). specialize (I e He).
  apply negb_true_iff in F. apply negb_true_iff. apply not_true_is_false.
  intros O. apply occurs_before in O; [|exact I]. rewrite F in O. discriminate.
Qed.

Lemma count_scary_tail (x tail : pystr) :
  tail_inert tail ->
  (_count_scary_terms (x ++ tail) <= _count_scary_terms x)%Z.
Proof.
  intros [_ I]. apply count_scary_mono. intros term Hin O.
  rewrite forallb_forall in I. rewrite TextFacts.lower_app in O.
  now apply occurs_before in O; [|apply I].
Qed.

Lemma unsafe_free_cut (n : Z) (s : pystr) :
  unsafe_free s = true -> unsafe_free (rstrip (slice_to n s)) = true.
Proof.
  intros F. destruct (slice_to_firstn n s) as [k ->].
  destruct (TextFacts.rstrip_split (firstn k s)) as [b [E _]].
  rewrite <- (firstn_skipn k s), E in F. rewrite <- app_assoc in F.
  apply (unsafe_free_piece []) in F. exact F.
Qed.

Lemma count_scary_cut (n : Z) (s : pystr) :
  (_count_scary_terms (rstrip (slice_to n s)) <= _count_scary_terms s)%Z.
Proof.
  apply count_scary_mono. intros term _ O.
  destruct (slice_to_firstn n s) as [k E]. rewrite E in O.
  destruct (TextFacts.rstrip_split (firstn k s)) as [b [E' _]].
  rewrite <- (firstn_skipn k s), E', <- app_assoc, TextFacts.lower_app.
  now apply occurs_app_l.
Qed.

End SanitizeFacts.

(* ===================================================================== *)
(** ** Facts about the safety critic *)
(* ===================================================================== *)

Module CriticFacts.
Import Literal LiteralFacts SafetyCritic Spec SanitizeFacts.

Arguments strip : simpl never.
Arguments rstrip : simpl never.
Arguments slice_to : simpl never.
Arguments _sanitize_text : simpl never.
Arguments _count_scary_terms : simpl never.
Arguments unsafe_free : simpl never.
Arguments str_of_nat : simpl never.
Arguments str_of_Z : simpl never.
Arguments slide_label : simpl never.
Arguments py : simpl never.

Lemma str_of_Z_nonempty (z : Z) : str_of_Z z <> [].
Proof.
  unfold str_of_Z, py. destruct (Z.to_int z) as [u|u]; destruct u; discriminate.
Qed.

Lemma py_str_truthy (v : PyVal) : truthy v = true -> py_str v <> [].
Proof.
  destruct v as [|[]|z|s|l|d]; simpl; try discriminate.
  - intros _. apply str_of_Z_nonempty.
  - destruct s; [discriminate|]. discriminate.
Qed.

Lemma dict_get_set_same (k : string) (v : PyVal) (d : dict) :
  dict_get k (dict_set k v d) = Some v.
Proof.
  induction d as [|[k' v'] d IH]; simpl.
  - now rewrite String.eqb_refl.
  - destruct (String.eqb k k') eqn:E; simpl.
    + now rewrite String.eqb_refl.
    + now rewrite E.
Qed.

Lemma dict_get_set_other (k k' : string) (v : PyVal) (d : dict) :
  k <> k' -> dict_get k (dict_set k' v d) = dict_get k d.
Proof.
  intros N. induction d as [|[k0 v0] d IH]; simpl.
  - apply String.eqb_neq in N. now rewrite N.
  - destruct (String.eqb k' k0) eqn:E; simpl.
    + apply String.eqb_eq in E. subst k0.
      apply String.eqb_neq in N. now rewrite N.
    + now rewrite IH.
Qed.

Lemma get_set_same (k : string) (v : PyVal) (d : dict) :
  get k (dict_set k v d) = v.
Proof. unfold get, get_or. now rewrite dict_get_set_same. Qed.

Lemma get_set_other (k k' : string) (v : PyVal) (d : dict) :
  k <> k' -> get k (dict_set k' v d) = get k d.
Proof. intros N. unfold get, get_or. now rewrite dict_get_set_other. Qed.

Lemma reframed_facts :
  REFRAMED_TEXT <> [] /\ strip REFRAMED_TEXT = REFRAMED_TEXT /\
  unsafe_free REFRAMED_TEXT = true /\ _count_scary_terms REFRAMED_TEXT = 0%Z.
Proof. repeat split; try discriminate; vm_compute; reflexivity. Qed.

Lemma softened_ok (st : Settings) (s : pystr) :
  s <> [] -> strip s = s -> unsafe_free s = true ->
  text_ok st (softened st s).
Proof.
  intros N S U. unfold softened.
  destruct (Z.ltb_spec (safety_critic_max_scary_terms_per_slide st)
                       (_count_scary_terms s)) as [L|L].
  - destruct reframed_facts as [R1 [R2 [R3 R4]]].
    repeat split; try assumption. rewrite R4. auto.
  - repeat split; try assumption. auto.
Qed.

Lemma ellipsis_stripped : strip (py "...") = py "...".
Proof. reflexivity. Qed.

Lemma cut_stripped (n : Z) (t : pystr) :
  strip t = t -> strip (rstrip (slice_to n t) ++ py "...") = rstrip (slice_to n t) ++ py "...".
Proof.
  intros S. apply TextFacts.strip_fix_inv in S as [L _].
  destruct (slice_to_firstn n t) as [k ->].
  apply TextFacts.strip_fixes.
  - assert (L' : lstrip (rstrip (firstn k t)) = rstrip (firstn k t)).
    { apply TextFacts.lstrip_rstrip. now apply TextFacts.lstrip_fix_firstn. }
    destruct (rstrip (firstn k t)) eqn:E; [reflexivity|].
    apply TextFacts.lstrip_fix_app; [exact L' | discriminate].
  - apply TextFacts.rstrip_fix_app; [reflexivity | discriminate].
Qed.

Lemma capped_ok (st : Settings) (t : pystr) :
  text_ok st t -> text_ok st (capped st t).
Proof.
  intros [N [S [U C]]]. unfold capped.
  destruct (safety_critic_max_text_length st <? len t)%Z; [|repeat split; assumption].
  repeat split.
  - intros E. apply app_eq_nil in E as [_ E]. discriminate.
  - now apply cut_stripped.
  - apply unsafe_free_tail; [apply ellipsis_inert|]. now apply unsafe_free_cut.
  - intros P. specialize (C P).
    pose proof (count_scary_tail (rstrip (slice_to (safety_critic_max_text_length st) t))
                  _ ellipsis_inert).
    pose proof (count_scary_cut (safety_critic_max_text_length st) t). lia.
Qed.

Lemma final_text_ok (st : Settings) (t : pystr) :
  has_text t = true -> text_ok st (final_text st t).
Proof.
  intros H. unfold final_text. apply capped_ok, softened_ok.
  - now apply sanitize_nonempty.
  - apply sanitize_stripped.
  - apply sanitize_unsafe_free.
Qed.

Lemma calm_has_text : has_text CALM_TEXT = true.
Proof. reflexivity. Qed.

Lemma default_choice_text_facts :
  DEFAULT_CHOICE_TEXT <> [] /\ strip DEFAULT_CHOICE_TEXT = DEFAULT_CHOICE_TEXT /\
  unsafe_free DEFAULT_CHOICE_TEXT = true.
Proof. repeat split; try discriminate; vm_compute; reflexivity. Qed.

Lemma default_id_nonempty (i : nat) : default_id i <> [].
Proof. unfold default_id. destruct (i =? 0); discriminate. Qed.

Lemma id_nonempty (v : PyVal) (i : nat) :
  py_str (py_or v (PyStr (default_id i))) <> [].
Proof.
  apply py_str_truthy. unfold py_or. destruct (truthy v) eqn:E; [exact E|].
  simpl. pose proof (default_id_nonempty i). now destruct (default_id i).
Qed.

(** The cleaning loop keeps a dictionary entry as a well-formed choice and
    drops any other entry. *)
Lemma clean_choice_ok (index choice_idx : nat) (choice : PyVal) :
  Forall choice_ok (fst (clean_choice index choice_idx choice)) /\
  List.length (fst (clean_choice index choice_idx choice)) =
  match choice with PyDict _ => 1 | _ => 0 end.
Proof.
  destruct choice as [| | | | |c]; simpl; try (split; [constructor|reflexivity]).
  pose proof (sanitize_unsafe_free (py_str (get_or "text" (PyStr []) c))) as U.
  pose proof (sanitize_stripped (py_str (get_or "text" (PyStr []) c))) as S.
  destruct (_sanitize_text (py_str (get_or "text" (PyStr []) c))) as [ct cc].
  simpl in *. split; [|reflexivity]. constructor; [|constructor].
  destruct default_choice_text_facts as [D1 [D2 D3]].
  destruct ct as [|x ct].
  - eexists _, _, _. split; [reflexivity|].
    split; [apply id_nonempty|]. repeat split; assumption.
  - eexists _, _, _. split; [reflexivity|].
    split; [apply id_nonempty|]. repeat split; try assumption. discriminate.
Qed.

Lemma clean_choices_ok (index : nat) (l : list (nat * PyVal)) :
  Forall choice_ok (fst (clean_choices index l)) /\
  List.length (fst (clean_choices index l)) <= List.length l.
Proof.
  induction l as [|[ci c] l [IH1 IH2]]; simpl; [split; [constructor|lia]|].
  destruct (clean_choice_ok index ci c) as [H1 H2].
  destruct (clean_choice index ci c) as [c1 i1].
  destruct (clean_choices index l) as [c2 i2]. simpl in *. split.
  - apply Forall_app. now split.
  - rewrite length_app, H2. destruct c; lia.
Qed.

Lemma enumerate_from_length {A : Type} (l : list A) :
  forall k, List.length (enumerate_from k l) = List.length l.
Proof. induction l as [|x l IH]; intros k; simpl; [reflexivity|]. now rewrite IH. Qed.

Lemma clean_choice_index (i j choice_idx : nat) (choice : PyVal) :
  fst (clean_choice i choice_idx choice) = fst (clean_choice j choice_idx choice).
Proof.
  destruct choice; simpl; try reflexivity.
  now destruct (_sanitize_text (py_str (get_or "text" (PyStr []) d))).
Qed.

Lemma clean_choices_index (i j : nat) (l : list (nat * PyVal)) :
  fst (clean_choices i l) = fst (clean_choices j l).
Proof.
  induction l as [|[ci c] l IH]; simpl; [reflexivity|].
  pose proof (clean_choice_index i j ci c) as E.
  destruct (clean_choice i ci c), (clean_choice j ci c).
  destruct (clean_choices i l), (clean_choices j l). simpl in *. now subst.
Qed.

Lemma fixed_choices_ok (slide : dict) : choices_ok (fixed_choices slide).
Proof.
  unfold fixed_choices, choices_ok. intros l E.
  destruct (get "choices" slide) as [| | | |raw|] eqn:G; try discriminate.
  destruct (clean_choices_ok 0 (enumerate (firstn 2 raw))) as [F L].
  destruct (fst (clean_choices 0 (enumerate (firstn 2 raw)))) as [|c cs] eqn:C;
    [discriminate|].
  injection E as <-. split; [discriminate|]. split; [|exact F].
  unfold enumerate in L. rewrite enumerate_from_length, length_firstn in L. lia.
Qed.

Lemma get_choices_slide (n t c : PyVal) :
  get "choices" [ "position" ~> n; "text" ~> t; "choices" ~> c ] = c.
Proof. reflexivity. Qed.

Lemma set_choices_slide (n t c v : PyVal) :
  dict_set "choices" v [ "position" ~> n; "text" ~> t; "choices" ~> c ] =
  [ "position" ~> n; "text" ~> t; "choices" ~> v ].
Proof. reflexivity. Qed.

(** What one turn of the loop over the slides builds. *)
Lemma fix_slide_inv (st : Settings) (index : nat) (slide d : dict)
  (iss : list pystr) :
  fix_slide st index slide = Ok (d, iss) ->
  exists t0,
    has_text t0 = true /\
    d = [ "position" ~> PyInt (Z.of_nat (index + 1));
          "text" ~> PyStr (final_text st t0);
          "choices" ~> fixed_choices slide ].
Proof.
  unfold fix_slide. intros H.
  set (raw := strip (py_str (get_or "text" (PyStr []) slide))) in *.
  assert (exists t0 i0, has_text t0 = true /\
            (match raw with
             | [] =>
                 if safety_critic_strict st
                 then Raise (SafetyCriticError
                               (py "Slide " ++ str_of_nat (index + 1)
                                ++ py " has empty text"))
                 else Ok (CALM_TEXT, [slide_label index ++ py ": filled missing text"])
             | _ :: _ => Ok (raw, [])
             end) = Ok (t0, i0)) as [t0 [i0 [HT E]]].
  { destruct raw as [|c r] eqn:R.
    - destruct (safety_critic_strict st); [discriminate|].
      eexists _, _. split; [|reflexivity]. reflexivity.
    - eexists _, _. split; [|reflexivity].
      apply TextFacts.stripped_has_text; [|discriminate].
      rewrite <- R. apply TextFacts.strip_idem. }
  rewrite E in H. unfold bind in H. exists t0. split; [exact HT|].
  unfold final_text, softened, capped.
  destruct (_sanitize_text t0) as [s ch]. simpl fst.
  destruct (safety_critic_max_scary_terms_per_slide st <? _count_scary_terms s)%Z;
    match type of H with
    | context [Z.ltb ?m (len ?x)] => destruct (Z.ltb m (len x))
    end;
    unfold fixed_choices; rewrite get_choices_slide in H;
    (destruct (get "choices" slide) as [| | | |rawc|] eqn:G;
     try (injection H as <- _; reflexivity));
    rewrite (clean_choices_index 0 index);
    destruct (clean_choices index (enumerate (firstn 2 rawc))) as [cl ci];
    rewrite set_choices_slide in H;
    simpl fst; destruct cl; injection H as <- _; reflexivity.
Qed.

Lemma fix_slide_total (st : Settings) (index : nat) (slide : dict) :
  safety_critic_strict st = false ->
  exists d iss, fix_slide st index slide = Ok (d, iss).
Proof.
  intros NS. unfold fix_slide. rewrite NS.
  destruct (strip (py_str (get_or "text" (PyStr []) slide))) as [|c r];
    unfold bind.
  all: match goal with
       | |- context [_sanitize_text ?t] => destruct (_sanitize_text t) as [s ch]
       end;
       match goal with
       | |- context [Z.ltb ?m (_count_scary_terms ?x)] =>
           destruct (Z.ltb m (_count_scary_terms x))
       end;
       match goal with
       | |- context [Z.ltb ?m (len ?x)] => destruct (Z.ltb m (len x))
       end;
       rewrite get_choices_slide;
       (destruct (get "choices" slide); try (eexists _, _; reflexivity));
       match goal with
       | |- context [clean_choices ?i ?l] => destruct (clean_choices i l)
       end; eexists _, _; reflexivity.
Qed.

Lemma fix_slide_ok (st : Settings) (index : nat) (slide d : dict)
  (iss : list pystr) :
  fix_slide st index slide = Ok (d, iss) -> slide_ok st d.
Proof.
  intros H. apply fix_slide_inv in H as [t0 [HT ->]].
  eexists _, _, _. split; [reflexivity|]. split.
  - now apply final_text_ok.
  - apply fixed_choices_ok.
Qed.

Lemma fix_slides_inv (st : Settings) (input : list dict) :
  forall k fs iss,
    fix_slides st (enumerate_from k input) = Ok (fs, iss) ->
    Forall2 (fun slide d => slide_ok st d /\ get "choices" d = fixed_choices slide)
            input fs.
Proof.
  induction input as [|slide input IH]; intros k fs iss H; simpl in H.
  - injection H as <- _. constructor.
  - destruct (fix_slide st k slide) as [[d i1]|e] eqn:E1; [|discriminate].
    simpl in H.
    destruct (fix_slides st (enumerate_from (S k) input)) as [[ds i2]|e] eqn:E2;
      [|discriminate].
    simpl in H. injection H as <- _. constructor.
    + split; [now apply fix_slide_ok in E1|].
      apply fix_slide_inv in E1 as [t0 [_ ->]]. reflexivity.
    + now apply (IH (S k) ds i2).
Qed.

Lemma fix_slides_total (st : Settings) (input : list dict) :
  safety_critic_strict st = false ->
  forall k, exists fs iss, fix_slides st (enumerate_from k input) = Ok (fs, iss).
Proof.
  intros NS. induction input as [|slide input IH]; intros k; simpl.
  - now eexists _, _.
  - destruct (fix_slide_total st k slide NS) as [d [i1 ->]].
    destruct (IH (S k)) as [ds [i2 ->]]. simpl. now eexists _, _.
Qed.

Lemma choice_count_fixed (slide d : dict) :
  get "choices" d = fixed_choices slide ->
  raw_choice_count d = cleaned_choice_count slide.
Proof.
  unfold raw_choice_count, cleaned_choice_count, fixed_choices. intros ->.
  destruct (get "choices" slide); try reflexivity.
  now destruct (fst (clean_choices 0 (enumerate (firstn 2 l)))).
Qed.

Lemma coerce_choice_id (index : nat) (c : PyVal) :
  choice_ok c -> coerce_choice index c = c.
Proof.
  intros [i [t [b [-> [Ni [Nt [S _]]]]]]].
  unfold coerce_choice.
  change (get "id" ["id" ~> PyStr i; "text" ~> PyStr t; "correct" ~> PyBool b])
    with (PyStr i).
  assert (Ei : py_or (PyStr i) (PyStr (default_id index)) = PyStr i).
  { unfold py_or. simpl. destruct i; [contradiction|reflexivity]. }
  rewrite Ei. simpl py_str.
  change (dict_set "id" (PyStr i)
            ["id" ~> PyStr i; "text" ~> PyStr t; "correct" ~> PyBool b])
    with ["id" ~> PyStr i; "text" ~> PyStr t; "correct" ~> PyBool b].
  cbv zeta.
  change (get "text" ["id" ~> PyStr i; "text" ~> PyStr t; "correct" ~> PyBool b])
    with (PyStr t).
  assert (Et : py_or (PyStr t) (PyStr DEFAULT_CHOICE_TEXT) = PyStr t).
  { unfold py_or. simpl. destruct t; [contradiction|reflexivity]. }
  rewrite Et. simpl py_str. rewrite S.
  change (dict_set "text" (PyStr t)
            ["id" ~> PyStr i; "text" ~> PyStr t; "correct" ~> PyBool b])
    with ["id" ~> PyStr i; "text" ~> PyStr t; "correct" ~> PyBool b].
  change (get_or "correct" (PyBool (index =? 0))
            ["id" ~> PyStr i; "text" ~> PyStr t; "correct" ~> PyBool b])
    with (PyBool b).
  reflexivity.
Qed.

Lemma set_correct_ok (b : bool) (c : PyVal) :
  choice_ok c -> choice_ok (set_correct b c) /\ has_correct (set_correct b c) = b.
Proof.
  intros [i [t [b0 [-> H]]]]. split.
  - exists i, t, b. split; [reflexivity | exact H].
  - now destruct b.
Qed.

Lemma correct_flag_is (c : PyVal) :
  choice_ok c -> correct_flag c = has_correct c.
Proof. intros [i [t [b [-> _]]]]. now destruct b. Qed.

(** On two cleaned choices the coercion only settles the [correct] flags. *)
Lemma coerce_first_two_ok (c0 c1 : PyVal) :
  choice_ok c0 -> choice_ok c1 ->
  exists d0 d1,
    coerce_first_two [c0; c1] = [d0; d1] /\ choice_ok d0 /\ choice_ok d1 /\
    has_correct d0 = negb (has_correct d1) /\
    (has_correct c0 = negb (has_correct c1) -> d0 = c0 /\ d1 = c1).
Proof.
  intros H0 H1. unfold coerce_first_two, enumerate. simpl map.
  rewrite (coerce_choice_id 0 c0 H0), (coerce_choice_id 1 c1 H1).
  rewrite (correct_flag_is c0 H0), (correct_flag_is c1 H1).
  destruct (set_correct_ok true c0 H0) as [A0 B0].
  destruct (set_correct_ok false c1 H1) as [A1 B1].
  destruct (has_correct c0) eqn:E0, (has_correct c1) eqn:E1; simpl.
  - exists (set_correct true c0), (set_correct false c1).
    repeat split; try assumption; try discriminate. now rewrite B0, B1.
  - exists c0, c1. repeat split; try assumption. now rewrite E0, E1.
  - exists c0, c1. repeat split; try assumption. now rewrite E0, E1.
  - exists (set_correct true c0), (set_correct false c1).
    repeat split; try assumption; try discriminate. now rewrite B0, B1.
Qed.

Lemma default_branch_ok (st : Settings) : slide_ok st DEFAULT_BRANCH_SLIDE.
Proof.
  eexists _, _, _. split; [reflexivity|]. split.
  - repeat split; try discriminate; try (vm_compute; reflexivity).
    intros P. change (0 <= safety_critic_max_scary_terms_per_slide st)%Z. exact P.
  - intros l E. injection E as <-. split; [discriminate|]. split; [simpl; lia|].
    repeat constructor;
      eexists _, _, _; (split; [reflexivity|]);
      repeat split; try discriminate; vm_compute; reflexivity.
Qed.

(** The loop of the branch coercion on processed slides. *)
Lemma coerce_loop_spec (st : Settings) (fs : list dict) :
  Forall (slide_ok st) fs ->
  match coerce_loop fs with
  | Some fs' =>
      has_branch fs = true /\
      List.length fs' = List.length fs /\
      Forall (slide_ok st) fs' /\
      settled_choices (map (get "choices") fs') = true /\
      (settled_choices (map (get "choices") fs) = true -> fs' = fs)
  | None =>
      has_branch fs = false /\
      settled_choices (map (get "choices") fs) = false
  end.
Proof.
  induction 1 as [|slide rest OK Frest IH]; [now split|].
  destruct OK as [n [t [c [-> [T C]]]]].
  unfold has_branch in *. simpl coerce_loop. rewrite get_choices_slide.
  simpl existsb. simpl map. unfold raw_choice_count at 1.
  rewrite !get_choices_slide.
  assert (OKs : slide_ok st ["position" ~> PyInt n; "text" ~> PyStr t; "choices" ~> c]).
  { eexists _, _, _. split; [reflexivity|]. now split. }
  destruct c as [| | | |l|];
    try (destruct (coerce_loop rest) as [fs'|]; simpl;
         [ destruct IH as [B [L [F [S I]]]]; repeat split;
           [ exact B | now rewrite L | now constructor | exact S
           | intros S'; now rewrite (I S') ]
         | exact IH ]).
  destruct (C l eq_refl) as [Nl [Ll Fl]].
  destruct (Nat.ltb_spec (List.length l) 2) as [Lt|Ge].
  - destruct l as [|c0 [|c1 l]]; [contradiction| |simpl in Lt; lia].
    simpl. destruct (coerce_loop rest) as [fs'|]; simpl.
    + destruct IH as [B [L [F [S I]]]]. repeat split;
        [ exact B | now rewrite L | now constructor | exact S
        | intros S'; now rewrite (I S') ].
    + exact IH.
  - destruct l as [|c0 [|c1 [|c2 l]]]; simpl in Ge, Ll; try lia.
    inversion Fl as [|? ? K0 Fl']; subst. inversion Fl' as [|? ? K1 _]; subst.
    destruct (coerce_first_two_ok c0 c1 K0 K1) as [d0 [d1 [E [D0 [D1 [X I]]]]]].
    rewrite E. simpl. repeat split.
    + constructor; [|assumption].
      eexists _, _, _. split; [reflexivity|]. split; [exact T|].
      intros l' E'. injection E' as <-. split; [discriminate|].
      split; [simpl; lia|]. now repeat constructor.
    + rewrite X. now destruct (has_correct d1).
    + intros S. destruct (I ltac:(now destruct (has_correct c0), (has_correct c1)))
        as [-> ->]. reflexivity.
Qed.

Lemma list_insert_forall {A : Type} (P : A -> Prop) (i : nat) (x : A) (l : list A) :
  P x -> Forall P l -> Forall P (list_insert i x l).
Proof.
  intros Px F. unfold list_insert.
  rewrite <- (firstn_skipn i l) in F. apply Forall_app in F as [F1 F2].
  apply Forall_app. split; [exact F1|]. now constructor.
Qed.

Lemma list_insert_length {A : Type} (i : nat) (x : A) (l : list A) :
  List.length (list_insert i x l) = S (List.length l).
Proof.
  unfold list_insert. rewrite length_app. simpl.
  rewrite <- (firstn_skipn i l) at 3. rewrite length_app. lia.
Qed.

Lemma settled_insert_default (fs : list dict) :
  settled_choices (map (get "choices") fs) = false ->
  has_branch fs = false ->
  settled_choices
    (map (get "choices")
         (list_insert (Nat.min 1 (List.length fs)) DEFAULT_BRANCH_SLIDE fs)) = true.
Proof.
  destruct fs as [|d fs]; [reflexivity|]. intros _ B.
  unfold has_branch in B. simpl in B. apply orb_false_iff in B as [B _].
  unfold list_insert. simpl. unfold raw_choice_count in B.
  destruct (get "choices" d); try reflexivity.
  destruct l as [|c0 [|c1 l]]; try reflexivity. discriminate.
Qed.

(** The branch coercion on processed slides. *)
Lemma coerce_spec (st : Settings) (fs : list dict) :
  Forall (slide_ok st) fs ->
  Forall (slide_ok st) (_coerce_two_choice_branch fs) /\
  settled_choices (map (get "choices") (_coerce_two_choice_branch fs)) = true /\
  List.length (_coerce_two_choice_branch fs) =
    (if has_branch fs then List.length fs else S (List.length fs)) /\
  (has_branch fs = false ->
   _coerce_two_choice_branch fs =
   list_insert (Nat.min 1 (List.length fs)) DEFAULT_BRANCH_SLIDE fs) /\
  (settled_choices (map (get "choices") fs) = true ->
   _coerce_two_choice_branch fs = fs).
Proof.
  intros F. pose proof (coerce_loop_spec st fs F) as H.
  unfold _coerce_two_choice_branch.
  destruct (coerce_loop fs) as [fs'|].
  - destruct H as [B [L [F' [S I]]]]. rewrite B. repeat split; try assumption.
    discriminate.
  - destruct H as [B S]. rewrite B. repeat split.
    + apply list_insert_forall; [apply default_branch_ok | exact F].
    + now apply settled_insert_default.
    + apply list_insert_length.
    + rewrite S. discriminate.
Qed.

Lemma set_position_slide (n t c v : PyVal) :
  dict_set "position" v [ "position" ~> n; "text" ~> t; "choices" ~> c ] =
  [ "position" ~> v; "text" ~> t; "choices" ~> c ].
Proof. reflexivity. Qed.

Lemma set_text_slide (n t c v : PyVal) :
  dict_set "text" v [ "position" ~> n; "text" ~> t; "choices" ~> c ] =
  [ "position" ~> n; "text" ~> v; "choices" ~> c ].
Proof. reflexivity. Qed.

(** Renumbering processed slides. *)
Lemma resequence_from_spec (st : Settings) (l : list dict) :
  Forall (slide_ok st) l ->
  forall k,
    let r :=
      map (fun p => dict_set "position" (PyInt (Z.of_nat (fst p + 1))) (snd p))
          (enumerate_from k l) in
    Forall (slide_ok st) r /\
    map (get "choices") r = map (get "choices") l /\
    sequential_from k r /\
    List.length r = List.length l /\
    (sequential_from k l -> r = l).
Proof.
  induction 1 as [|slide l OK _ IH]; intros k.
  - repeat split; constructor.
  - destruct (IH (S k)) as [F [C [S [L I]]]]. clear IH.
    destruct OK as [n [t [c [-> [T K]]]]].
    simpl. repeat split.
    + constructor; [|exact F]. eexists _, _, _. split; [reflexivity|]. now split.
    + simpl. now rewrite C.
    + unfold sequential_from in *. simpl. now rewrite S.
    + now rewrite L.
    + unfold sequential_from. simpl. intros E. injection E as E1 E2.
      unfold get, get_or in E1. simpl in E1. rewrite E1.
      f_equal. now apply I.
Qed.

Lemma resequence_spec (st : Settings) (l : list dict) :
  Forall (slide_ok st) l ->
  Forall (slide_ok st) (resequence l) /\
  map (get "choices") (resequence l) = map (get "choices") l /\
  sequential (resequence l) /\
  List.length (resequence l) = List.length l /\
  (sequential l -> resequence l = l).
Proof. intros F. apply (resequence_from_spec st l F 0). Qed.

Lemma starts_with_iff (u s : pystr) :
  starts_with u s = true <-> exists rest, s = u ++ rest.
Proof.
  revert s. induction u as [|c u IH]; intros s; simpl.
  - split; [now exists s | reflexivity].
  - destruct s as [|x s].
    + split; [discriminate | intros [r E]; discriminate].
    + rewrite andb_true_iff, Ascii.eqb_eq, IH. split.
      * intros [-> [r ->]]. now exists r.
      * intros [r E]. injection E as -> ->. split; [reflexivity | now exists r].
Qed.

Lemma contains_iff (u s : pystr) :
  contains u s = true <-> exists before after, s = before ++ u ++ after.
Proof.
  induction s as [|x s IH]; simpl.
  - rewrite orb_false_r, starts_with_iff. split.
    + intros [r E]. now exists [], r.
    + intros [b [a E]]. destruct b; [now exists a|discriminate].
  - rewrite orb_true_iff, starts_with_iff, IH. split.
    + intros [[r E]|[b [a E]]].
      * now exists [], r.
      * exists (x :: b), a. now rewrite E.
    + intros [b [a E]]. destruct b as [|y b].
      * left. now exists a.
      * right. injection E as -> ->. now exists b, a.
Qed.

Lemma contains_app_r (u a b : pystr) :
  contains u b = true -> contains u (a ++ b) = true.
Proof.
  rewrite !contains_iff. intros [x [y ->]]. exists (a ++ x), y.
  now rewrite <- app_assoc.
Qed.

Lemma mentions_guidance (t : pystr) :
  mentions_term (lower (t ++ GUIDANCE_SENTENCE)) = true.
Proof.
  unfold mentions_term. apply existsb_exists. exists (py "trusted adult").
  split; [now left|]. rewrite TextFacts.lower_app. apply contains_app_r.
  vm_compute. reflexivity.
Qed.

Lemma guidance_facts :
  rstrip GUIDANCE_SENTENCE = GUIDANCE_SENTENCE /\ GUIDANCE_SENTENCE <> [].
Proof. split; [vm_compute; reflexivity | discriminate]. Qed.

Lemma text_ok_guidance (st : Settings) (t : pystr) :
  text_ok st t -> text_ok st (t ++ GUIDANCE_SENTENCE).
Proof.
  intros [N [S [U C]]]. destruct guidance_facts as [G1 G2].
  apply TextFacts.strip_fix_inv in S as [L R]. repeat split.
  - intros E. apply app_eq_nil in E as [E _]. contradiction.
  - apply TextFacts.strip_fixes.
    + now apply TextFacts.lstrip_fix_app.
    + now apply TextFacts.rstrip_fix_app.
  - apply unsafe_free_tail; [apply guidance_inert | exact U].
  - intros P. specialize (C P).
    pose proof (count_scary_tail t _ guidance_inert). lia.
Qed.

Lemma append_guidance_snoc (init : list dict) (final : dict) :
  append_guidance (init ++ [final]) =
  init ++ [dict_set "text" (PyStr (py_str (get "text" final) ++ GUIDANCE_SENTENCE)) final].
Proof.
  unfold append_guidance. rewrite rev_app_distr. simpl.
  now rewrite rev_involutive.
Qed.

(** Appending the guidance sentence to the final slide. *)
Lemma append_guidance_spec (st : Settings) (l : list dict) :
  Forall (slide_ok st) l -> l <> [] ->
  Forall (slide_ok st) (append_guidance l) /\
  map (get "choices") (append_guidance l) = map (get "choices") l /\
  map (get "position") (append_guidance l) = map (get "position") l /\
  List.length (append_guidance l) = List.length l /\
  _has_trusted_adult_reference (append_guidance l) = true.
Proof.
  intros F N. destruct (exists_last N) as [init [final ->]].
  rewrite append_guidance_snoc. apply Forall_app in F as [F1 F2].
  inversion F2 as [|? ? OK _]; subst.
  destruct OK as [n [t [c [-> [T K]]]]].
  rewrite set_text_slide. change (get "text" _) with (PyStr t). simpl py_str.
  repeat split.
  - apply Forall_app. split; [exact F1|]. constructor; [|constructor].
    eexists _, _, _. split; [reflexivity|]. split; [|exact K].
    now apply text_ok_guidance.
  - now rewrite !map_app.
  - now rewrite !map_app.
  - now rewrite !length_app.
  - unfold _has_trusted_adult_reference. rewrite existsb_app.
    apply orb_true_iff. right. simpl. unfold slide_mentions_term.
    change (py_str (get_or "text" (PyStr []) _)) with (t ++ GUIDANCE_SENTENCE).
    now rewrite mentions_guidance.
Qed.

Lemma mentions_term_spec (t : pystr) :
  mentions_term (lower t) = true ->
  exists term, In term TRUSTED_ADULT_TERMS /\ contains_ci term t.
Proof.
  unfold mentions_term. intros H. apply existsb_exists in H as [term [I C]].
  exists term. split; [exact I|]. now apply contains_iff in C.
Qed.

(** The reference check of the code finds what the specification asks. *)
Lemma reference_spec (st : Settings) (l : list dict) :
  Forall (slide_ok st) l ->
  _has_trusted_adult_reference l = true ->
  exists slide, In slide l /\ references_trusted_adult slide.
Proof.
  intros F H. apply existsb_exists in H as [slide [I M]].
  exists slide. split; [exact I|].
  rewrite Forall_forall in F. destruct (F slide I) as [n [t [c [-> [T K]]]]].
  unfold slide_mentions_term in M.
  change (py_str (get_or "text" (PyStr []) _)) with t in M.
  rewrite get_choices_slide in M.
  apply orb_prop in M as [M|M].
  - apply mentions_term_spec in M as [term [It C]].
    exists term. split; [exact It|]. left. now exists t.
  - destruct c as [| | | |cl|]; try discriminate.
    apply existsb_exists in M as [ch [Ic Mc]].
    destruct (K cl eq_refl) as [_ [_ Fc]]. rewrite Forall_forall in Fc.
    destruct (Fc ch Ic) as [i [t' [b [-> _]]]].
    simpl in Mc. apply mentions_term_spec in Mc as [term [It C]].
    exists term. split; [exact It|]. right.
    eexists cl, _, t'. split; [reflexivity|]. split; [exact Ic|].
    split; [reflexivity | exact C].
Qed.

Lemma settled_one_correct (l : list dict) :
  settled_choices (map (get "choices") l) = true ->
  existsb one_correct_pair l = true.
Proof.
  induction l as [|d l IH]; [discriminate|]. simpl.
  unfold one_correct_pair at 1.
  destruct (get "choices" d) as [| | | |cl|]; simpl; try exact IH.
  destruct cl as [|c0 [|c1 [|c2 cl]]]; simpl; try exact IH; try discriminate.
  now destruct (has_correct c0), (has_correct c1).
Qed.

Lemma cleaned_le_raw (slide : dict) :
  cleaned_choice_count slide <= raw_choice_count slide.
Proof.
  unfold cleaned_choice_count, raw_choice_count.
  destruct (get "choices" slide); try lia.
  destruct (clean_choices_ok 0 (enumerate (firstn 2 l))) as [_ L].
  unfold enumerate in *. rewrite enumerate_from_length, length_firstn in L. lia.
Qed.

Lemma has_branch_fixed (input fs : list dict) (P : dict -> Prop) :
  Forall2 (fun slide d => P d /\ get "choices" d = fixed_choices slide) input fs ->
  has_branch fs = existsb (fun s => 2 <=? cleaned_choice_count s) input /\
  List.length fs = List.length input /\ Forall P fs.
Proof.
  unfold has_branch. induction 1 as [|s d input fs [Pd C] _ IH];
    [split; [reflexivity|]; split; [reflexivity|constructor]|].
  destruct IH as [B [L F]]. cbn [existsb List.length].
  rewrite (choice_count_fixed s d C), B, L.
  split; [reflexivity|]. split; [reflexivity|]. now constructor.
Qed.

(** The slides as they stand before the trusted-adult check. *)
Lemma sanitize_and_coerce_spec (st : Settings) (input fs : list dict)
  (iss : list pystr) :
  sanitize_and_coerce st input = Ok (fs, iss) ->
  Forall (slide_ok st) fs /\ sequential fs /\
  settled_choices (map (get "choices") fs) = true /\
  List.length fs =
    (if existsb (fun s => 2 <=? cleaned_choice_count s) input
     then List.length input else S (List.length input)) /\
  (input <> [] ->
   existsb (fun s => 2 <=? cleaned_choice_count s) input = false ->
   nth_error fs 1 = Some DEFAULT_BRANCH_SLIDE).
Proof.
  unfold sanitize_and_coerce, enumerate. intros H.
  destruct (fix_slides st (enumerate_from 0 input)) as [[fs0 i0]|e] eqn:E;
    [|discriminate].
  simpl in H. injection H as <- <-.
  apply fix_slides_inv in E. apply has_branch_fixed in E as [B [L F]].
  destruct (coerce_spec st fs0 F) as [F1 [S1 [L1 [I1 _]]]].
  destruct (resequence_spec st _ F1) as [F2 [C2 [S2 [L2 _]]]].
  repeat split; try assumption.
  - now rewrite C2.
  - now rewrite L2, L1, B, L.
  - intros N NB. rewrite <- B in NB. rewrite (I1 NB).
    destruct fs0 as [|x fs0]; [destruct input; [contradiction|discriminate]|].
    inversion F as [|? ? OK _]; subst. destruct OK as [n [t [c [-> _]]]].
    reflexivity.
Qed.

Lemma default_slide_mentions : slide_mentions_term DEFAULT_BRANCH_SLIDE = true.
Proof. vm_compute. reflexivity. Qed.

Lemma nth_error_existsb {A : Type} (f : A -> bool) (l : list A) (i : nat) (x : A) :
  nth_error l i = Some x -> f x = true -> existsb f l = true.
Proof.
  intros H Fx. apply existsb_exists. exists x. split; [|exact Fx].
  eapply nth_error_In. exact H.
Qed.

Lemma fixed_nonempty (st : Settings) (input fs : list dict) (iss : list pystr) :
  input <> [] -> sanitize_and_coerce st input = Ok (fs, iss) -> fs <> [].
Proof.
  intros N H. apply sanitize_and_coerce_spec in H as [_ [_ [_ [L _]]]].
  intros ->. destruct input; [contradiction|].
  destruct (existsb _ _) in L; discriminate.
Qed.

(** The result of the critic's own processing. *)
Lemma critic_pass_spec (st : Settings) (input fs : list dict) (iss : list pystr) :
  input <> [] ->
  critic_pass st input = Ok (fs, iss) ->
  Forall (slide_ok st) fs /\ sequential fs /\
  settled_choices (map (get "choices") fs) = true /\
  _has_trusted_adult_reference fs = true /\
  List.length fs =
    (if existsb (fun s => 2 <=? cleaned_choice_count s) input
     then List.length input else S (List.length input)) /\
  (existsb (fun s => 2 <=? cleaned_choice_count s) input = false ->
   nth_error fs 1 = Some DEFAULT_BRANCH_SLIDE).
Proof.
  unfold critic_pass. intros N H.
  destruct (sanitize_and_coerce st input) as [[fs0 i0]|e] eqn:E; [|discriminate].
  pose proof (fixed_nonempty st input fs0 i0 N E) as N0.
  apply sanitize_and_coerce_spec in E as [F [Sq [C [L D]]]].
  simpl in H. unfold ensure_trusted_adult in H.
  destruct (_has_trusted_adult_reference fs0) eqn:R; simpl in H;
    injection H as <- <-.
  - repeat split; try assumption. intros NB. now apply D.
  - destruct (append_guidance_spec st fs0 F N0) as [F' [C' [P' [L' R']]]].
    repeat split; try assumption.
    + unfold sequential, sequential_from in *. now rewrite P', L'.
    + now rewrite C'.
    + now rewrite L'.
    + intros NB. specialize (D N NB). unfold _has_trusted_adult_reference in R.
      rewrite (nth_error_existsb slide_mentions_term fs0 1 DEFAULT_BRANCH_SLIDE
                 D default_slide_mentions) in R. discriminate.
Qed.

Lemma critic_pass_total (st : Settings) (input : list dict) :
  safety_critic_strict st = false ->
  exists fs iss, critic_pass st input = Ok (fs, iss).
Proof.
  intros NS. unfold critic_pass, sanitize_and_coerce, enumerate.
  destruct (fix_slides_total st input NS 0) as [fs [iss ->]]. cbn [bind fst snd].
  match goal with
  | |- context [ensure_trusted_adult ?x] =>
      destruct (ensure_trusted_adult x) as [a b]
  end. now exists a, b.
Qed.

Lemma apply_inv (w : World) (st : Settings) (payload : StoryCreateRequest)
  (input : list dict) (res : SafetyCriticResult) :
  safety_critic_enabled st = true ->
  apply_safety_critic w st payload input = Ok res ->
  input <> [] /\
  critic_pass st input = Ok (slides res, issues res) /\
  _run_optional_llm_review w st payload (slides res) = Ok (llm_review res).
Proof.
  unfold apply_safety_critic. intros E H. rewrite E in H. simpl in H.
  destruct input as [|s input]; [discriminate|].
  destruct (critic_pass st (s :: input)) as [[fs iss]|e]; [|discriminate].
  simpl in H.
  destruct (_run_optional_llm_review w st payload fs) as [rv|e] eqn:R;
    [|discriminate].
  simpl in H. injection H as <-. simpl. repeat split; [discriminate | exact R].
Qed.

Lemma apply_quiet (w : World) (st : Settings) (payload : StoryCreateRequest)
  (input fs : list dict) (iss : list pystr) :
  safety_critic_enabled st = true ->
  safety_critic_enable_llm_review st = false ->
  input <> [] ->
  critic_pass st input = Ok (fs, iss) ->
  apply_safety_critic w st payload input =
  Ok {| slides := fs; issues := iss; llm_review := None |}.
Proof.
  unfold apply_safety_critic, _run_optional_llm_review. intros E Q N H.
  rewrite E, Q, H. simpl. destruct input; [contradiction|reflexivity].
Qed.

End CriticFacts.

(* ===================================================================== *)
(** ** Facts about the slide normaliser *)
(* ===================================================================== *)

Module NormaliserFacts.
Import StoryGeneration Spec.

Arguments strip : simpl never.

Lemma normalize_slide_length (idx : nat) (v : PyVal) :
  List.length (kept_slide idx v) = if valid_slide v then 1 else 0.
Proof.
  unfold kept_slide, valid_slide. destruct v as [| | | | |d]; try reflexivity.
  destruct (get "text" d) as [| | |s| |]; try reflexivity.
  now destruct (is_blank s).
Qed.

Lemma normalize_slides_length (l : list PyVal) :
  forall k,
    List.length (flat_map (fun ir => kept_slide (fst ir) (snd ir))
                          (enumerate_from k l)) =
    List.length (filter valid_slide l).
Proof.
  induction l as [|v l IH]; intros k; [reflexivity|].
  cbn [enumerate_from flat_map filter fst snd]. rewrite length_app, IH.
  rewrite normalize_slide_length. now destruct (valid_slide v).
Qed.

(** One candidate choice: kept exactly when valid, and then in the fixed
    shape with its id settled. *)
Lemma normalize_choice_spec (idx : nat) (c : PyVal) :
  (valid_choice c /\
   exists d text correct,
     c = PyDict d /\ get "text" d = PyStr text /\ get "correct" d = PyBool correct /\
     kept_choice idx c =
     [ PyDict [ "id" ~> PyStr (choice_id idx d);
                "text" ~> PyStr (strip text);
                "correct" ~> PyBool correct ] ]) \/
  (~ valid_choice c /\ kept_choice idx c = []).
Proof.
  unfold kept_choice.
  destruct c as [| | | | |d];
    try (right; split; [intros [d' [t' [b' [E _]]]]; discriminate | reflexivity]).
  destruct (get "text" d) as [| | |text| |] eqn:T;
    try (right; split;
         [intros [d' [t' [b' [E [T' _]]]]]; injection E as <-; congruence
         | reflexivity]).
  destruct (get "correct" d) as [|correct| | | |] eqn:C;
    try (right; split;
         [intros [d' [t' [b' [E [_ [_ C']]]]]]; injection E as <-; congruence
         | reflexivity]).
  unfold is_blank. destruct (strip text) as [|x s] eqn:S.
  - right. split; [|reflexivity].
    intros [d' [t' [b' [E [T' [N _]]]]]]. injection E as <-.
    rewrite T in T'. injection T' as <-. contradiction.
  - left. split.
    + exists d, text, correct. repeat split; try assumption. now rewrite S.
    + exists d, text, correct. repeat split; try assumption.
      now rewrite S.
Qed.

Lemma choice_id_nonempty (idx : nat) (d : dict) : choice_id idx d <> [].
Proof.
  unfold choice_id. destruct (get "id" d) as [| | |s| |]; try discriminate.
  destruct (strip s) eqn:E; discriminate.
Qed.

Lemma normalize_choice_well_formed (idx : nat) (c : PyVal) :
  Forall well_formed_choice (kept_choice idx c).
Proof.
  destruct (normalize_choice_spec idx c)
    as [[[d0 [t0 [b0 [E0 [T0 [N0 C0]]]]]] [d [text [correct [E [T [C ->]]]]]]]|[_ ->]];
    [|constructor].
  constructor; [|constructor]. eexists _, _, _. split; [reflexivity|].
  split; [apply choice_id_nonempty|].
  rewrite E in E0. injection E0 as <-. rewrite T in T0. injection T0 as <-.
  exact N0.
Qed.

Lemma kept_choices_well_formed (l : list PyVal) :
  forall k,
    Forall well_formed_choice
      (flat_map (fun ic => kept_choice (fst ic) (snd ic)) (enumerate_from k l)).
Proof.
  induction l as [|c l IH]; intros k; [constructor|].
  cbn [enumerate_from flat_map fst snd]. apply Forall_app. split.
  - apply normalize_choice_well_formed.
  - apply IH.
Qed.

(** The result of [kept_choices]: null, or a list of one or more
    well-formed choices. *)
Lemma normalize_choices_shape (v : PyVal) :
  kept_choices v = PyNone \/
  exists l, kept_choices v = PyList l /\ l <> [] /\ Forall well_formed_choice l.
Proof.
  unfold kept_choices, enumerate. destruct v as [| | | |l|]; try (now left).
  pose proof (kept_choices_well_formed l 0) as F.
  destruct (flat_map _ _) as [|c cs]; [now left|].
  right. eexists. split; [reflexivity|]. split; [discriminate | exact F].
Qed.






Lemma resequence_from_positions (l : list dict) :
  forall k,
    let r :=
      map (fun p => dict_set "position" (PyInt (Z.of_nat (fst p + 1))) (snd p))
          (enumerate_from k l) in
    sequential_from k r /\ map (get "choices") r = map (get "choices") l /\
    List.length r = List.length l.
Proof.
  unfold sequential_from.
  induction l as [|d l IH]; intros k; [now repeat split|].
  destruct (IH (S k)) as [P [C L]]. cbn [enumerate_from map fst snd List.length seq].
  rewrite CriticFacts.get_set_same, CriticFacts.get_set_other by discriminate.
  repeat split.
  - f_equal. exact P.
  - f_equal. exact C.
  - f_equal. exact L.
Qed.

Lemma forall_firstn {A : Type} (P : A -> Prop) (n : nat) (l : list A) :
  Forall P l -> Forall P (firstn n l).
Proof.
  intros F. rewrite <- (firstn_skipn n l) in F. now apply Forall_app in F as [F _].
Qed.


(** The positions the loop of the normaliser gives when it keeps every
    entry. *)
Lemma normalize_slides_positions (l : list PyVal) :
  forallb valid_slide l = true ->
  forall k,
    sequential_from k
      (flat_map (fun ir => kept_slide (fst ir) (snd ir)) (enumerate_from k l)).
Proof.
  unfold sequential_from.
  induction l as [|v l IH]; intros V k; [reflexivity|].
  simpl in V. apply andb_prop in V as [V1 V2].
  cbn [enumerate_from flat_map fst snd].
  pose proof (normalize_slide_length k v) as L. rewrite V1 in L.
  unfold kept_slide in *. destruct v as [| | | | |d]; try discriminate.
  destruct (get "text" d) as [| | |text| |]; try discriminate.
  destruct (is_blank text); [discriminate|].
  cbn [app map List.length seq]. f_equal. now apply IH.
Qed.


(** The normaliser's loops, by what they keep and where [chr] raises. *)
Lemma default_choice_id_run (idx : nat) :
  default_choice_id idx =
  if (MAX_CODE_POINT <? Z.of_nat (97 + idx))%Z then Raise ValueError
  else Ok [chr (97 + idx)].
Proof. reflexivity. Qed.

Lemma normalize_choice_run (idx : nat) (c : PyVal) :
  normalize_choice idx c =
  if id_overflow idx c then Raise ValueError else Ok (kept_choice idx c).
Proof.
  unfold normalize_choice, id_overflow, kept_choice, lacks_id, choice_id.
  destruct c as [| | | | |d]; try reflexivity.
  destruct (get "text" d) as [| | |text| |]; try reflexivity.
  destruct (get "correct" d) as [|correct| | | |]; try reflexivity.
  destruct (is_blank text); [reflexivity|]. cbn [negb andb].
  destruct (get "id" d) as [| | |raw_id| |];
    try (rewrite default_choice_id_run;
         now destruct (MAX_CODE_POINT <? Z.of_nat (97 + idx))%Z).
  unfold is_blank. destruct (strip raw_id) as [|x r]; [|reflexivity].
  rewrite default_choice_id_run.
  now destruct (MAX_CODE_POINT <? Z.of_nat (97 + idx))%Z.
Qed.

Lemma normalize_choices_loop_run (l : list (nat * PyVal)) :
  normalize_choices_loop l =
  if existsb (fun ic => id_overflow (fst ic) (snd ic)) l then Raise ValueError
  else Ok (flat_map (fun ic => kept_choice (fst ic) (snd ic)) l).
Proof.
  induction l as [|[idx c] l IH]; [reflexivity|].
  cbn [normalize_choices_loop existsb flat_map fst snd].
  rewrite normalize_choice_run. destruct (id_overflow idx c); [reflexivity|].
  cbn [bind orb]. rewrite IH. now destruct (existsb _ l).
Qed.

Lemma normalize_choices_run (v : PyVal) :
  _normalize_choices v =
  if choices_overflow v then Raise ValueError else Ok (kept_choices v).
Proof.
  unfold _normalize_choices, choices_overflow, kept_choices.
  destruct v as [| | | |l|]; try reflexivity.
  rewrite normalize_choices_loop_run.
  destruct (existsb _ (enumerate l)); [reflexivity|]. cbn [bind].
  now destruct (flat_map _ _).
Qed.

Lemma normalize_slide_run (idx : nat) (v : PyVal) :
  normalize_slide idx v =
  if slide_overflow v then Raise ValueError else Ok (kept_slide idx v).
Proof.
  unfold normalize_slide, slide_overflow, kept_slide, valid_slide.
  destruct v as [| | | | |d]; try reflexivity.
  destruct (get "text" d) as [| | |text| |]; try reflexivity.
  destruct (is_blank text); [reflexivity|]. cbn [negb andb].
  rewrite normalize_choices_run. now destruct (choices_overflow (get "choices" d)).
Qed.

Lemma normalize_slides_loop_run (l : list PyVal) :
  forall k,
    normalize_slides_loop (enumerate_from k l) =
    if existsb slide_overflow l then Raise ValueError
    else Ok (flat_map (fun ir => kept_slide (fst ir) (snd ir)) (enumerate_from k l)).
Proof.
  induction l as [|v l IH]; intros k; [reflexivity|].
  cbn [enumerate_from normalize_slides_loop existsb flat_map fst snd].
  rewrite normalize_slide_run. destruct (slide_overflow v); [reflexivity|].
  cbn [bind orb]. rewrite IH. now destruct (existsb slide_overflow l).
Qed.

(** [_validate_and_normalize_slides], by what its loop keeps. *)
Lemma validate_run (raw_payload : dict) (payload : StoryCreateRequest) :
  _validate_and_normalize_slides raw_payload payload =
  match get "slides" raw_payload with
  | PyList (first :: others) =>
      if existsb slide_overflow (firstn 8 (first :: others)) then Raise ValueError
      else
        let slides :=
          flat_map (fun ir => kept_slide (fst ir) (snd ir))
                   (enumerate (firstn 8 (first :: others))) in
        if List.length slides <? 3 then Raise (StoryGenerationError TOO_FEW)
        else if existsb (fun slide => truthy (get "choices" slide)) slides
        then Ok slides
        else
          Ok (StoryGeneration.resequence
                (firstn 8
                   (list_insert (Nat.min 1 (List.length slides))
                      (default_branch_slide payload) slides)))
  | _ => Raise (StoryGenerationError NO_LIST)
  end.
Proof.
  unfold _validate_and_normalize_slides.
  destruct (get "slides" raw_payload) as [| | | |[|first others]|]; try reflexivity.
  cbv zeta. unfold enumerate. rewrite normalize_slides_loop_run.
  now destruct (existsb slide_overflow (firstn 8 (first :: others))).
Qed.

End NormaliserFacts.

(* ===================================================================== *)
(** ** The critic on its own output *)
(* ===================================================================== *)

Module FixpointFacts.
Import Literal LiteralFacts SafetyCritic Spec SanitizeFacts CriticFacts.

Arguments strip : simpl never.
Arguments _sanitize_text : simpl never.
Arguments _count_scary_terms : simpl never.
Arguments slide_label : simpl never.
Arguments str_of_nat : simpl never.
Arguments py : simpl never.

(** The cleaning loop leaves a cleaned choice as it is. *)
Lemma clean_choice_fix (index choice_idx : nat) (c : PyVal) :
  choice_ok c -> clean_choice index choice_idx c = ([c], []).
Proof.
  intros [i [t [b [-> [Ni [Nt [S U]]]]]]]. unfold clean_choice.
  change (py_str (get_or "text" (PyStr []) _)) with t.
  rewrite (sanitize_fixpoint t U S).
  change (get "id" _) with (PyStr i).
  change (get_or "correct" _ _) with (PyBool b).
  unfold py_or. simpl truthy.
  destruct i as [|x i]; [contradiction|]. destruct t as [|y t]; [contradiction|].
  reflexivity.
Qed.

Lemma clean_choices_fix (index : nat) (l : list PyVal) :
  Forall choice_ok l ->
  forall k, clean_choices index (enumerate_from k l) = (l, []).
Proof.
  induction 1 as [|c l OK _ IH]; intros k; [reflexivity|].
  cbn [enumerate_from clean_choices]. rewrite (clean_choice_fix index k c OK), IH.
  reflexivity.
Qed.

(** One turn of the loop on a compliant slide gives the slide back and
    appends no issue. *)
Lemma fix_slide_fix (st : Settings) (k : nat) (d : dict) :
  slide_ok st d ->
  get "position" d = PyInt (Z.of_nat (k + 1)) ->
  (0 <= safety_critic_max_scary_terms_per_slide st)%Z ->
  (len (slide_text d) <= safety_critic_max_text_length st)%Z ->
  fix_slide st k d = Ok (d, []).
Proof.
  intros [n [t [c [-> [[Nt [S [U C]]] K]]]]] P M L.
  change (get "position" _) with (PyInt n) in P. injection P as ->.
  change (slide_text _) with t in L. specialize (C M).
  unfold fix_slide.
  change (py_str (get_or "text" (PyStr []) _)) with t.
  rewrite S. destruct t as [|x t']; [contradiction|].
  remember (x :: t') as t eqn:Et. cbn [bind]. rewrite (sanitize_fixpoint t U S). cbn [map app].
  apply Z.ltb_ge in C. rewrite C.
  apply Z.ltb_ge in L. rewrite L.
  rewrite get_choices_slide. change (get "choices" _) with c.
  destruct c as [| | | |cl|]; try reflexivity.
  destruct (K cl eq_refl) as [Ncl [Lcl Fcl]].
  assert (E : firstn 2 cl = cl) by (apply firstn_all2; exact Lcl).
  rewrite E. unfold enumerate. rewrite (clean_choices_fix k cl Fcl 0).
  destruct cl; [contradiction|]. reflexivity.
Qed.

Lemma fix_slides_fix (st : Settings) (l : list dict) :
  Forall (slide_ok st) l ->
  Forall (fun d => (len (slide_text d) <= safety_critic_max_text_length st)%Z) l ->
  (0 <= safety_critic_max_scary_terms_per_slide st)%Z ->
  forall k, sequential_from k l ->
            fix_slides st (enumerate_from k l) = Ok (l, []).
Proof.
  intros F. induction F as [|d l OK _ IH]; intros Ln M k Sq; [reflexivity|].
  inversion Ln as [|? ? L1 L2]; subst.
  unfold sequential_from in Sq. cbn [map List.length seq] in Sq.
  injection Sq as P Sq.
  cbn [enumerate_from fix_slides].
  rewrite (fix_slide_fix st k d OK P M L1). cbn [bind].
  rewrite (IH L2 M (S k) Sq). reflexivity.
Qed.

(** On a compliant slide set the critic changes nothing and records
    nothing. *)
Lemma critic_pass_fixpoint (st : Settings) (l : list dict) :
  compliant st l -> critic_pass st l = Ok (l, []).
Proof.
  intros [F [Sq [C [R [Ln M]]]]].
  unfold critic_pass, sanitize_and_coerce, enumerate.
  rewrite (fix_slides_fix st l F Ln M 0 Sq). cbn [bind fst snd].
  destruct (coerce_spec st l F) as [_ [_ [_ [_ I]]]]. rewrite (I C).
  destruct (resequence_spec st l F) as [_ [_ [_ [_ J]]]]. rewrite (J Sq).
  unfold ensure_trusted_adult. now rewrite R.
Qed.

End FixpointFacts.

(* ===================================================================== *)
(** ** The properties of the specification *)
(* ===================================================================== *)

Import SafetyCritic Spec CriticFacts.

(** C10. The enabled, non-strict critic on a non-empty slide list returns a
    list as long as the input when some input slide keeps two choices after
    cleaning, and one slide longer (the default branching slide) otherwise;
    its own processing never raises in that mode. *)
Theorem critic_slide_count (st : Settings) (input : list dict) :
  safety_critic_enabled st = true ->
  safety_critic_strict st = false ->
  input <> [] ->
  (exists fs iss, critic_pass st input = Ok (fs, iss)) /\
  forall w payload res,
    apply_safety_critic w st payload input = Ok res ->
    List.length (slides res) =
    if existsb (fun s => 2 <=? cleaned_choice_count s) input
    then List.length input else S (List.length input).
Proof.
  intros E NS N. split; [now apply critic_pass_total|].
  intros w payload res H.
  apply (apply_inv w st payload input res E) in H as [_ [H _]].
  now apply critic_pass_spec in H as [_ [_ [_ [_ [L _]]]]].
Qed.

Lemma critic_slide_count_witness :
  (exists fs iss,
     critic_pass default_settings [Examples.text_slide "Mia walks to school."] =
     Ok (fs, iss)) /\
  forall w payload res,
    apply_safety_critic w default_settings payload
      [Examples.text_slide "Mia walks to school."] = Ok res ->
    List.length (slides res) =
    if existsb (fun s => 2 <=? cleaned_choice_count s)
         [Examples.text_slide "Mia walks to school."]
    then 1 else 2.
Proof.
  apply (critic_slide_count default_settings
           [Examples.text_slide "Mia walks to school."]);
    [reflexivity | reflexivity | discriminate].
Defined.

(** C3, as the code has it.  The claim asks for exactly one slide with a
    two-entry choice list of which exactly one entry is correct; the critic
    settles the first such list only and keeps the others. *)
Lemma critic_two_branches :
  exists res,
    apply_safety_critic Examples.offline default_settings Examples.request
      Examples.two_branches = Ok res /\
    List.length (filter one_correct_pair (slides res)) = 2.
Proof. eexists. split; [vm_compute; reflexivity | vm_compute; reflexivity]. Qed.

(** C3, amended.  Every slide set the enabled critic returns has at least
    one slide with a two-entry choice list of which exactly one entry is
    correct, and positions 1..N; when no input slide has two choices, the
    default two-choice slide is inserted at index 1. *)
Theorem critic_branch_present (w : World) (st : Settings)
  (payload : StoryCreateRequest) (input : list dict) (res : SafetyCriticResult) :
  safety_critic_enabled st = true ->
  apply_safety_critic w st payload input = Ok res ->
  existsb one_correct_pair (slides res) = true /\
  sequential (slides res) /\
  (forallb (fun s => raw_choice_count s <? 2) input = true ->
   List.length (slides res) = S (List.length input) /\
   nth_error (slides res) 1 = Some DEFAULT_BRANCH_SLIDE).
Proof.
  intros E H. apply (apply_inv w st payload input res E) in H as [N [H _]].
  apply critic_pass_spec in H as [_ [Sq [C [_ [L D]]]]]; [|exact N].
  split; [now apply settled_one_correct|]. split; [exact Sq|].
  intros R.
  assert (NB : existsb (fun s => 2 <=? cleaned_choice_count s) input = false).
  { apply not_true_is_false. intros X. apply existsb_exists in X as [s [I G]].
    rewrite forallb_forall in R. specialize (R s I).
    apply Nat.leb_le in G. apply Nat.ltb_lt in R.
    pose proof (cleaned_le_raw s). lia. }
  rewrite NB in L. split; [exact L | now apply D].
Qed.

Lemma critic_branch_present_witness :
  exists res,
    apply_safety_critic Examples.offline default_settings Examples.request
      [Examples.text_slide "Mia walks to school."] = Ok res /\
    existsb one_correct_pair (slides res) = true /\
    sequential (slides res) /\
    (forallb (fun s => raw_choice_count s <? 2)
             [Examples.text_slide "Mia walks to school."] = true ->
     List.length (slides res) = 2 /\
     nth_error (slides res) 1 = Some DEFAULT_BRANCH_SLIDE).
Proof.
  eexists. split; [vm_compute; reflexivity|].
  apply (critic_branch_present Examples.offline default_settings
           Examples.request [Examples.text_slide "Mia walks to school."]);
    [reflexivity | vm_compute; reflexivity].
Defined.

(** C2. Every slide set the enabled critic returns has a slide whose text,
    or the text of one of its choices, holds a term of the trusted-adult
    vocabulary in some letter case; when the slides hold none before the
    check, the fixed sentence is appended to the text of the final slide and
    an issue is recorded, and otherwise the check changes nothing. *)
Theorem critic_trusted_adult (w : World) (st : Settings)
  (payload : StoryCreateRequest) (input : list dict) (res : SafetyCriticResult) :
  safety_critic_enabled st = true ->
  apply_safety_critic w st payload input = Ok res ->
  (exists slide, In slide (slides res) /\ references_trusted_adult slide) /\
  exists fs iss,
    sanitize_and_coerce st input = Ok (fs, iss) /\
    if _has_trusted_adult_reference fs
    then slides res = fs /\ issues res = iss
    else
      (exists init final,
         fs = init ++ [final] /\
         slides res =
         init ++ [dict_set "text" (PyStr (slide_text final ++ GUIDANCE_SENTENCE)) final])
      /\ issues res = iss ++ [py "added trusted adult guidance"].
Proof.
  intros E H. apply (apply_inv w st payload input res E) in H as [N [H _]].
  split.
  - apply critic_pass_spec in H as [F [_ [_ [R _]]]]; [|exact N].
    now apply (reference_spec st).
  - unfold critic_pass in H.
    destruct (sanitize_and_coerce st input) as [[fs iss]|e] eqn:S0; [|discriminate].
    exists fs, iss. split; [reflexivity|].
    pose proof (fixed_nonempty st input fs iss N S0) as N0.
    simpl in H. unfold ensure_trusted_adult in H.
    destruct (_has_trusted_adult_reference fs); simpl in H; injection H as <- <-.
    + now split.
    + split; [|reflexivity].
      destruct (exists_last N0) as [init [final ->]].
      exists init, final. split; [reflexivity|]. apply append_guidance_snoc.
Qed.

Lemma critic_trusted_adult_witness :
  exists res,
    apply_safety_critic Examples.offline default_settings Examples.request
      [Examples.branch_slide "Mia is lost." "Ask for help." "Hide."] = Ok res /\
    (exists slide, In slide (slides res) /\ references_trusted_adult slide) /\
    issues res = [py "added trusted adult guidance"].
Proof.
  eexists. split; [vm_compute; reflexivity|].
  split; [|reflexivity].
  apply (critic_trusted_adult Examples.offline default_settings
           Examples.request
           [Examples.branch_slide "Mia is lost." "Ask for help." "Hide."]);
    [reflexivity | vm_compute; reflexivity].
Defined.

Import StoryGeneration NormaliserFacts.

(** C7, on the code.  A payload of one slide whose choices are 1114015
    nulls and then one valid candidate without an id holds fewer than three
    valid slides, and the normaliser raises [ValueError], not the
    too-few-slides error: the candidate's place has no letter, for
    [chr(ord("a") + 1114015)] is beyond the last code point. *)
Theorem normalize_raises_value_error :
  (exists l,
     get "slides" Examples.overlong = PyList l /\
     List.length (filter valid_slide (firstn 8 l)) < 3) /\
  _validate_and_normalize_slides Examples.overlong Examples.request =
  Raise ValueError.
Proof.
  split.
  - eexists. split; [reflexivity|]. vm_compute. repeat constructor.
  - vm_compute. reflexivity.
Qed.

(** C5, on the code.  With an entry dropped and a branch present the
    normaliser returns the positions 1, 3, 4: it numbers a slide by its
    place among the raw entries and renumbers only when it inserts the
    default slide. *)
Theorem normalize_leaves_gap :
  exists result,
    _validate_and_normalize_slides Examples.with_blank Examples.request = Ok result /\
    positions result = [PyInt 1; PyInt 3; PyInt 4] /\
    ~ sequential result.
Proof.
  eexists. split; [vm_compute; reflexivity|].
  split; [reflexivity | discriminate].
Qed.

Lemma ok_inj {A : Type} (a b : A) : Ok a = Ok b -> a = b.
Proof. now intros [= ->]. Qed.

(** When each of the first eight raw entries is a valid slide the positions
    are 1..N. *)
Lemma normalize_sequential (raw_payload : dict) (payload : StoryCreateRequest)
  (l : list PyVal) (out : list dict) :
  get "slides" raw_payload = PyList l ->
  forallb valid_slide (firstn 8 l) = true ->
  _validate_and_normalize_slides raw_payload payload = Ok out ->
  sequential out.
Proof.
  rewrite validate_run. unfold enumerate. intros G V H. rewrite G in H.
  destruct l as [|first others]; [discriminate|].
  set (kept := firstn 8 (first :: others)) in *.
  destruct (existsb slide_overflow kept); [discriminate|]. cbv zeta in H.
  destruct (_ <? 3); [discriminate|].
  destruct (existsb _ _); apply ok_inj in H; subst out.
  - now apply normalize_slides_positions.
  - apply (resequence_from_positions _ 0).
Qed.






Import Literal LiteralFacts SanitizeFacts.

Lemma lower_backslash (x : ascii) : lower_char x = backslash -> x = backslash.
Proof.
  destruct x as [[] [] [] [] [] [] [] []]; vm_compute; intros H;
    try reflexivity; discriminate.
Qed.

Lemma needle_needs_backslash (term t : pystr) :
  existsb (Ascii.eqb backslash) t = false ->
  occurs true (needle term) t = false.
Proof.
  induction t as [|x t IH]; intros H; [reflexivity|].
  cbn [existsb] in H. apply orb_false_iff in H as [H1 H2].
  rewrite occurs_cons, (IH H2), orb_false_r.
  unfold needle. cbn [starts]. apply andb_false_iff. left.
  unfold Re.char_eq. apply Ascii.eqb_neq. intros E.
  change (lower_char backslash) with backslash in E.
  symmetry in E. apply lower_backslash in E. subst x.
  now rewrite Ascii.eqb_refl in H1.
Qed.

(** The substitution pass leaves every text without a backslash as it is,
    up to stripping, and reports nothing. *)
Lemma sanitize_without_backslash (t : pystr) :
  existsb (Ascii.eqb backslash) t = false ->
  _sanitize_text t = (strip t, []).
Proof.
  intros H. unfold _sanitize_text.
  rewrite (fold_sanitize_quiet _ unsafe_patterns_literal t []); [reflexivity|].
  apply forallb_forall. intros e _. apply negb_true_iff.
  now apply needle_needs_backslash.
Qed.

(** With a single backslash before each [b] the same pass replaces the
    word. *)
Lemma word_boundary_pattern_replaces :
  Re.sub true (Re.compile (py "\bgun\b")) (py "dangerous object")
    Examples.scenario_text =
  py "The man had a dangerous object and threatened the child".
Proof. vm_compute. reflexivity. Qed.

(** C1, on the code.  The substitution pass returns the text "The man had
    a gun and threatened the child" as it is and reports no change: its
    patterns ask for a literal backslash before and after the term, so the
    word "gun" stays in the result as a whole word. *)
Theorem sanitize_keeps_gun :
  _sanitize_text Examples.scenario_text = (Examples.scenario_text, []) /\
  whole_word (py "gun") (fst (_sanitize_text Examples.scenario_text)) = true.
Proof. split; vm_compute; reflexivity. Qed.

(** C4, on the code.  With the default threshold of 2 the critic keeps the
    scenario text with its "gun", and keeps a text in which three scary terms
    stand as whole words; it records no issue for either. *)
Theorem critic_keeps_scary_text :
  (exists res,
     apply_safety_critic Examples.offline default_settings Examples.request
       [[ "text" ~> PyStr Examples.scenario_text ]] = Ok res /\
     nth_error (slides res) 0 =
       Some [ "position" ~> PyInt 1; "text" ~> PyStr Examples.scenario_text;
              "choices" ~> PyNone ] /\
     issues res = []) /\
  (exists res,
     apply_safety_critic Examples.offline default_settings Examples.request
       [[ "text" ~> PyStr Examples.scary_text ]] = Ok res /\
     nth_error (slides res) 0 =
       Some [ "position" ~> PyInt 1; "text" ~> PyStr Examples.scary_text;
              "choices" ~> PyNone ] /\
     issues res = [] /\
     scary_words (fst (_sanitize_text Examples.scary_text)) =
       [py "die"; py "attack"; py "violence"] /\
     _count_scary_terms (fst (_sanitize_text Examples.scary_text)) = 0%Z).
Proof.
  split; eexists; (split; [vm_compute; reflexivity|]); repeat split.
Qed.

(** What the review call returns when it returns. *)
Lemma review_degrades (w : World) (st : Settings) (payload : StoryCreateRequest)
  (fs : list dict) :
  (safety_critic_enable_llm_review st = false ->
   _run_optional_llm_review w st payload fs = Ok None) /\
  (safety_critic_enable_llm_review st = true ->
   (urlopen_read w = HttpURLError \/ urlopen_read w = HttpTimeoutError \/
    exists raw, urlopen_read w = HttpBody raw /\ json_loads w raw = None) ->
   _run_optional_llm_review w st payload fs = Ok (Some UNAVAILABLE_VERDICT)) /\
  (safety_critic_enable_llm_review st = true ->
   forall raw body text parsed,
     urlopen_read w = HttpBody raw -> json_loads w raw = Some (PyDict body) ->
     get_or "response" (PyStr (py "{}")) body = PyStr text ->
     json_loads w text = Some parsed -> (forall d, parsed <> PyDict d) ->
     _run_optional_llm_review w st payload fs = Ok (Some INVALID_VERDICT)).
Proof.
  unfold _run_optional_llm_review. repeat split.
  - now intros ->.
  - intros -> [->|[->|[raw [-> ->]]]]; reflexivity.
  - intros -> raw body text parsed -> -> -> -> N.
    destruct parsed; try reflexivity. now specialize (N d).
Qed.

(** An answer that is valid JSON and no object makes the review raise. *)
Lemma review_raises (w : World) (st : Settings) (payload : StoryCreateRequest)
  (fs : list dict) (raw : pystr) (items : list PyVal) :
  safety_critic_enable_llm_review st = true ->
  urlopen_read w = HttpBody raw ->
  json_loads w raw = Some (PyList items) ->
  _run_optional_llm_review w st payload fs = Raise AttributeError.
Proof. unfold _run_optional_llm_review. now intros -> -> ->. Qed.

(** C8, on the code.  When the endpoint answers with the JSON array "[]"
    the review raises [AttributeError], and so does the critic. *)
Theorem review_raises_on_array :
  _run_optional_llm_review Examples.array_world Examples.review_settings
    Examples.request [] = Raise AttributeError /\
  apply_safety_critic Examples.array_world Examples.review_settings
    Examples.request [Examples.text_slide "Mia walks to school."] =
  Raise AttributeError.
Proof. split; vm_compute; reflexivity. Qed.

Import FixpointFacts.

(** C9, as the code has it.  A text the critic trimmed ends in the marker
    and is longer than the limit again: the second run trims the trimmed
    text once more, changes the slide and records an issue. *)
Lemma critic_trims_twice :
  exists res res',
    apply_safety_critic Examples.offline default_settings Examples.request
      Examples.long_slide = Ok res /\
    apply_safety_critic Examples.offline default_settings Examples.request
      (slides res) = Ok res' /\
    issues res' = [py "slide_1: trimmed long text"] /\
    slides res' <> slides res.
Proof.
  eexists _, _. split; [vm_compute; reflexivity|].
  split; [vm_compute; reflexivity|]. split; [reflexivity|].
  vm_compute. discriminate.
Qed.

(** With a negative threshold every text counts as too intense, on every
    run. *)
Lemma critic_softens_twice :
  exists res res',
    apply_safety_critic Examples.offline Examples.negative_threshold
      Examples.request [Examples.text_slide "Mia walks to school."] = Ok res /\
    apply_safety_critic Examples.offline Examples.negative_threshold
      Examples.request (slides res) = Ok res' /\
    issues res' =
      [py "slide_1: tone too intense, softened"; py "slide_2: tone too intense, softened"].
Proof.
  eexists _, _. split; [vm_compute; reflexivity|].
  split; [vm_compute; reflexivity | reflexivity].
Qed.

(** The slide set the critic returns is compliant when none of its texts
    is over the length limit and the threshold is not negative. *)
Lemma critic_output_compliant (w : World) (st : Settings)
  (payload : StoryCreateRequest) (input : list dict) (res : SafetyCriticResult) :
  safety_critic_enabled st = true ->
  (0 <= safety_critic_max_scary_terms_per_slide st)%Z ->
  apply_safety_critic w st payload input = Ok res ->
  Forall (fun d => (len (slide_text d) <= safety_critic_max_text_length st)%Z)
         (slides res) ->
  compliant st (slides res).
Proof.
  intros E M H Ln. apply (apply_inv w st payload input res E) in H as [N [H _]].
  apply critic_pass_spec in H as [F [Sq [C [R _]]]]; [|exact N].
  repeat split; assumption.
Qed.

(** C9, amended.  When the threshold is not negative and no text of the
    slide set the enabled critic returned is over the length limit, a second
    run on that slide set returns it unchanged with no issue, whatever the
    review answers; in particular the trusted-adult sentence is not appended
    again. *)
Theorem critic_idempotent (w : World) (st : Settings)
  (payload : StoryCreateRequest) (input : list dict) (res : SafetyCriticResult) :
  safety_critic_enabled st = true ->
  (0 <= safety_critic_max_scary_terms_per_slide st)%Z ->
  apply_safety_critic w st payload input = Ok res ->
  Forall (fun d => (len (slide_text d) <= safety_critic_max_text_length st)%Z)
         (slides res) ->
  critic_pass st (slides res) = Ok (slides res, []) /\
  forall w' payload',
    apply_safety_critic w' st payload' (slides res) =
    (review <- _run_optional_llm_review w' st payload' (slides res) ;;
     Ok {| slides := slides res; issues := []; llm_review := review |}).
Proof.
  intros E M H Ln.
  pose proof (critic_output_compliant w st payload input res E M H Ln) as Cm.
  pose proof (critic_pass_fixpoint st (slides res) Cm) as P.
  split; [exact P|]. intros w' payload'.
  unfold apply_safety_critic. rewrite E, P. cbn [negb bind fst snd].
  destruct Cm as [_ [_ [_ [R _]]]].
  destruct (slides res); [discriminate|reflexivity].
Qed.

Lemma critic_idempotent_witness :
  exists res,
    apply_safety_critic Examples.offline default_settings Examples.request
      [Examples.branch_slide "Mia is lost." "Ask for help." "Hide."] = Ok res /\
    critic_pass default_settings (slides res) = Ok (slides res, []).
Proof.
  eexists. split; [vm_compute; reflexivity|].
  apply (critic_idempotent Examples.offline default_settings Examples.request
           [Examples.branch_slide "Mia is lost." "Ask for help." "Hide."]).
  - reflexivity.
  - vm_compute. discriminate.
  - vm_compute. reflexivity.
  - repeat (constructor; [vm_compute; discriminate|]). constructor.
Defined.

(* ===================================================================== *)
(** ** Further properties of the safety critic *)
(* ===================================================================== *)

Module CriticMore.
Import Literal LiteralFacts SafetyCritic Spec SanitizeFacts CriticFacts Shapes.

Arguments strip : simpl never.
Arguments _sanitize_text : simpl never.
Arguments _count_scary_terms : simpl never.
Arguments slide_label : simpl never.
Arguments str_of_nat : simpl never.
Arguments py : simpl never.

(** A slide with a text is processed in either mode. *)
Lemma fix_slide_nonblank (st : Settings) (index : nat) (slide : dict) :
  blank_text slide = false ->
  exists d iss, fix_slide st index slide = Ok (d, iss).
Proof.
  unfold blank_text, fix_slide. intros B.
  destruct (strip (py_str (get_or "text" (PyStr []) slide))) as [|c r];
    [discriminate|]. unfold bind.
  match goal with
  | |- context [_sanitize_text ?t] => destruct (_sanitize_text t) as [s ch]
  end;
  match goal with
  | |- context [Z.ltb ?m (_count_scary_terms ?x)] =>
      destruct (Z.ltb m (_count_scary_terms x))
  end;
  match goal with
  | |- context [Z.ltb ?m (len ?x)] => destruct (Z.ltb m (len x))
  end;
  rewrite get_choices_slide;
  (destruct (get "choices" slide); try (eexists _, _; reflexivity));
  match goal with
  | |- context [clean_choices ?i ?l] => destruct (clean_choices i l)
  end; eexists _, _; reflexivity.
Qed.

Lemma fix_slide_blank_strict (st : Settings) (index : nat) (slide : dict) :
  blank_text slide = true -> safety_critic_strict st = true ->
  fix_slide st index slide = Raise (empty_text_error index).
Proof.
  unfold blank_text, fix_slide. intros B S.
  destruct (strip (py_str (get_or "text" (PyStr []) slide))); [|discriminate].
  now rewrite S.
Qed.

Lemma fix_slide_returns (st : Settings) (index : nat) (slide : dict) :
  safety_critic_strict st = false \/ blank_text slide = false ->
  exists d iss, fix_slide st index slide = Ok (d, iss).
Proof.
  intros [NS|B]; [now apply fix_slide_total | now apply fix_slide_nonblank].
Qed.

(** The loop over the slides raises exactly at the first blank text in
    strict mode. *)
Lemma fix_slides_raise (st : Settings) (l : list dict) :
  forall k e,
    fix_slides st (enumerate_from k l) = Raise e <->
    safety_critic_strict st = true /\
    exists index slide, first_blank l index slide /\ e = empty_text_error (k + index).
Proof.
  induction l as [|slide l IH]; intros k e.
  - split; [discriminate|].
    intros [_ [i [s [[b [a [E _]]] _]]]]. destruct b; discriminate.
  - cbn [enumerate_from fix_slides].
    destruct (blank_text slide) eqn:B.
    + destruct (safety_critic_strict st) eqn:S.
      * rewrite (fix_slide_blank_strict st k slide B S). cbn [bind]. split.
        -- intros [= <-]. split; [reflexivity|]. exists 0, slide. split.
           ++ exists [], l. now repeat split.
           ++ now rewrite Nat.add_0_r.
        -- intros [_ [i [s [[b [a [E [L [F Bs]]]]] ->]]]].
           destruct b as [|x b].
           ++ simpl in L. subst i. now rewrite Nat.add_0_r.
           ++ injection E as <- _. simpl in F. rewrite B in F. discriminate.
      * destruct (fix_slide_total st k slide S) as [d [i1 ->]]. cbn [bind].
        destruct (fix_slides_total st l S (Datatypes.S k)) as [fs [i2 ->]].
        cbn [bind]. split; [discriminate | intros [X _]; discriminate].
    + destruct (fix_slide_nonblank st k slide B) as [d [i1 ->]]. cbn [bind].
      destruct (fix_slides st (enumerate_from (Datatypes.S k) l)) as [[fs i2]|e']
        eqn:R; cbn [bind].
      * split; [discriminate|].
        intros [S [i [s [[b [a [E [L [F Bs]]]]] ->]]]].
        destruct b as [|x b].
        -- injection E as -> _. rewrite B in Bs. discriminate.
        -- injection E as <- ->. simpl in F. rewrite B in F. simpl in F.
           assert (G : fix_slides st (enumerate_from (Datatypes.S k) (b ++ s :: a)) =
                       Raise (empty_text_error (Datatypes.S k + List.length b))).
           { apply IH. split; [exact S|]. exists (List.length b), s.
             split; [|reflexivity]. exists b, a. now repeat split. }
           rewrite G in R. discriminate.
      * split.
        -- intros [= <-]. apply IH in R as [S [i [s [[b [a [E [L [F Bs]]]]] ->]]]].
           split; [exact S|]. exists (Datatypes.S i), s. split.
           ++ exists (slide :: b), a. subst l. repeat split; simpl.
              ** now rewrite L.
              ** now rewrite B.
              ** exact Bs.
           ++ now rewrite Nat.add_succ_r.
        -- intros [S [i [s [[b [a [E [L [F Bs]]]]] ->]]]].
           destruct b as [|x b].
           ++ injection E as -> _. rewrite B in Bs. discriminate.
           ++ injection E as <- ->. simpl in F. rewrite B in F. simpl in F.
              assert (G : fix_slides st (enumerate_from (Datatypes.S k) (b ++ s :: a)) =
                          Raise (empty_text_error (Datatypes.S k + List.length b))).
              { apply IH. split; [exact S|]. exists (List.length b), s.
                split; [|reflexivity]. exists b, a. now repeat split. }
              rewrite G in R. injection R as <-. simpl in L. subst i.
              now rewrite Nat.add_succ_r.
Qed.

Lemma critic_pass_raise (st : Settings) (input : list dict) (e : exn) :
  critic_pass st input = Raise e <->
  safety_critic_strict st = true /\
  exists index slide, first_blank input index slide /\ e = empty_text_error index.
Proof.
  rewrite <- (fix_slides_raise st input 0 e).
  unfold critic_pass, sanitize_and_coerce, enumerate.
  destruct (fix_slides st (enumerate_from 0 input)) as [[fs iss]|e']; cbn [bind].
  - split; discriminate.
  - reflexivity.
Qed.

End CriticMore.

Import Shapes CriticMore.

(** X1. The critic raises in three cases only: an empty slide list, a blank
    text in strict mode (the error names the first such slide), and an
    exception of the review call; a disabled critic never raises. *)
Theorem critic_raises_iff (w : World) (st : Settings)
  (payload : StoryCreateRequest) (input : list dict) (e : exn) :
  apply_safety_critic w st payload input = Raise e <->
  safety_critic_enabled st = true /\
  ((input = [] /\ e = NO_SLIDES) \/
   (safety_critic_strict st = true /\
    exists index slide, first_blank input index slide /\ e = empty_text_error index) \/
   (input <> [] /\
    exists fs iss,
      critic_pass st input = Ok (fs, iss) /\
      _run_optional_llm_review w st payload fs = Raise e)).
Proof.
  unfold apply_safety_critic.
  destruct (safety_critic_enabled st); cbn [negb];
    [|split; [discriminate | intros [X _]; discriminate]].
  destruct input as [|s input].
  - split.
    + intros [= <-]. split; [reflexivity|]. left. now split.
    + intros [_ [[_ ->]|[[_ [i [x [[b [a [E _]]] _]]]]|[N _]]]];
        [reflexivity | destruct b; discriminate | contradiction].
  - destruct (critic_pass st (s :: input)) as [[fs iss]|e'] eqn:P; cbn [bind fst snd].
    + destruct (_run_optional_llm_review w st payload fs) as [rv|e'] eqn:R;
        cbn [bind].
      * split; [discriminate|].
        intros [_ [[X _]|[[S [i [x [F ->]]]]|[_ [fs' [iss' [[= <- <-] R']]]]]]].
        -- discriminate.
        -- assert (G : critic_pass st (s :: input) = Raise (empty_text_error i))
             by (apply critic_pass_raise; split; [exact S|]; now exists i, x).
           rewrite G in P. discriminate.
        -- rewrite R in R'. discriminate.
      * split.
        -- intros [= <-]. split; [reflexivity|]. right. right.
           split; [discriminate|]. now exists fs, iss.
        -- intros [_ [[X _]|[[S [i [x [F ->]]]]|[_ [fs' [iss' [[= <- <-] R']]]]]]].
           ++ discriminate.
           ++ assert (G : critic_pass st (s :: input) = Raise (empty_text_error i))
                by (apply critic_pass_raise; split; [exact S|]; now exists i, x).
              rewrite G in P. discriminate.
           ++ rewrite R in R'. now injection R' as <-.
    + split.
      * intros [= <-]. split; [reflexivity|]. right. left.
        now apply critic_pass_raise.
      * intros [_ [[X _]|[H|[_ [fs' [iss' [X _]]]]]]]; try discriminate.
        apply critic_pass_raise in H. rewrite P in H. now injection H as <-.
Qed.

(** X2. Every slide the enabled critic returns holds exactly a position, a
    text that is not empty and is stripped, and choices that are the input's
    own value when that was no list, and otherwise one or two choices with a
    string id and a text that are not empty and a boolean [correct]; the
    returned list is not empty. *)
Theorem critic_output_shape (w : World) (st : Settings)
  (payload : StoryCreateRequest) (input : list dict) (res : SafetyCriticResult) :
  safety_critic_enabled st = true ->
  apply_safety_critic w st payload input = Ok res ->
  slides res <> [] /\ Forall (slide_ok st) (slides res).
Proof.
  intros E H. apply (apply_inv w st payload input res E) in H as [N [H _]].
  apply critic_pass_spec in H as [F [_ [_ [R _]]]]; [|exact N].
  split; [|exact F]. intros X. rewrite X in R. discriminate.
Qed.

Lemma critic_output_shape_witness :
  exists res,
    apply_safety_critic Examples.offline default_settings Examples.request
      Examples.two_branches = Ok res /\
    slides res <> [] /\ Forall (slide_ok default_settings) (slides res).
Proof.
  eexists. split; [vm_compute; reflexivity|].
  apply (critic_output_shape Examples.offline default_settings Examples.request
           Examples.two_branches); [reflexivity | vm_compute; reflexivity].
Defined.

(** X3. The substitution pass is idempotent: applied to its own result it
    returns that result and reports no change. *)
Theorem sanitize_idempotent (t : pystr) :
  _sanitize_text (fst (_sanitize_text t)) = (fst (_sanitize_text t), []).
Proof.
  apply SanitizeFacts.sanitize_fixpoint.
  - apply SanitizeFacts.sanitize_unsafe_free.
  - apply SanitizeFacts.sanitize_stripped.
Qed.

(* ===================================================================== *)
(** ** The branch coercion on any slide list, and the length of texts *)
(* ===================================================================== *)

Module CoerceFacts.
Import SafetyCritic Spec CriticFacts Shapes.

Arguments strip : simpl never.
Arguments py : simpl never.

Lemma coerce_choice_dict (index : nat) (c : PyVal) :
  exists d b, coerce_choice index c = PyDict d /\ get "correct" d = PyBool b.
Proof.
  unfold coerce_choice. destruct c; try (eexists _, _; split; reflexivity).
  eexists _, _. split; [reflexivity|]. apply get_set_same.
Qed.

Lemma has_correct_set (b : bool) (d : dict) :
  has_correct (PyDict (dict_set "correct" (PyBool b) d)) = b.
Proof. unfold has_correct. rewrite get_set_same. now destruct b. Qed.

(** Of a choice list with two entries or more the coercion keeps two, of
    which exactly one is marked correct. *)
Lemma coerce_first_two_pair (c0 c1 : PyVal) (rest : list PyVal) :
  exists x y,
    coerce_first_two (c0 :: c1 :: rest) = [x; y] /\
    has_correct x = negb (has_correct y).
Proof.
  unfold coerce_first_two, enumerate. cbn [firstn enumerate_from map fst snd].
  destruct (coerce_choice_dict 0 c0) as [d0 [b0 [-> G0]]].
  destruct (coerce_choice_dict 1 c1) as [d1 [b1 [-> G1]]].
  unfold correct_flag. rewrite G0, G1. cbn [truthy].
  destruct (Bool.eqb b0 b1) eqn:E.
  - eexists _, _. split; [reflexivity|]. unfold set_correct.
    now rewrite !has_correct_set.
  - eexists _, _. split; [reflexivity|]. unfold has_correct.
    rewrite G0, G1. destruct b0, b1; try discriminate; reflexivity.
Qed.

Lemma one_correct_pair_set (x y : PyVal) (slide : dict) :
  has_correct x = negb (has_correct y) ->
  one_correct_pair (dict_set "choices" (PyList [x; y]) slide) = true.
Proof.
  intros H. unfold one_correct_pair. rewrite get_set_same. cbn [List.length filter].
  rewrite H. now destruct (has_correct y).
Qed.

(** The loop of the coercion on any slide list: it changes the choices of
    the first slide that has two or more, and nothing else. *)
Lemma coerce_loop_any (l : list dict) :
  match coerce_loop l with
  | Some r =>
      has_branch l = true /\
      exists before slide after choices,
        l = before ++ slide :: after /\
        forallb (fun d => raw_choice_count d <? 2) before = true /\
        get "choices" slide = PyList choices /\ 2 <= List.length choices /\
        r = before ++ dict_set "choices" (PyList (coerce_first_two choices)) slide
                   :: after
  | None => has_branch l = false
  end.
Proof.
  unfold has_branch. induction l as [|d l IH]; [reflexivity|].
  cbn [coerce_loop existsb].
  change (raw_choice_count d)
    with (match get "choices" d with PyList c => List.length c | _ => 0 end).
  assert (Skip :
    forall (B : (2 <=? match get "choices" d with PyList c => List.length c | _ => 0 end)
                = false),
      match option_map (cons d) (coerce_loop l) with
      | Some r =>
          false || existsb (fun d => 2 <=? raw_choice_count d) l = true /\
          exists before slide after choices,
            d :: l = before ++ slide :: after /\
            forallb (fun d => raw_choice_count d <? 2) before = true /\
            get "choices" slide = PyList choices /\ 2 <= List.length choices /\
            r = before ++ dict_set "choices" (PyList (coerce_first_two choices)) slide
                       :: after
      | None => false || existsb (fun d => 2 <=? raw_choice_count d) l = false
      end).
  { intros B. destruct (coerce_loop l) as [r|]; cbn [option_map orb]; [|exact IH].
    destruct IH as [H [b [s [a [c [E [F [G [L ->]]]]]]]]]. split; [exact H|].
    exists (d :: b), s, a, c. rewrite E. repeat split; try assumption.
    cbn [forallb]. rewrite F. unfold raw_choice_count.
    apply Nat.leb_gt in B. apply andb_true_iff. split; [|reflexivity].
    now apply Nat.ltb_lt. }
  destruct (get "choices" d) as [| | | |c|] eqn:G;
    try (apply Skip; reflexivity).
  destruct (Nat.ltb_spec (List.length c) 2) as [Lt|Ge].
  - assert (B : (2 <=? List.length c) = false) by now apply Nat.leb_gt.
    rewrite B. apply Skip. exact B.
  - assert (B : (2 <=? List.length c) = true) by now apply Nat.leb_le.
    rewrite B. split; [reflexivity|].
    now exists [], d, l, c.
Qed.

Lemma slide_text_set_choices (v : PyVal) (d : dict) :
  slide_text (dict_set "choices" v d) = slide_text d.
Proof. unfold slide_text. now rewrite get_set_other by discriminate. Qed.

Lemma slide_text_set_position (v : PyVal) (d : dict) :
  slide_text (dict_set "position" v d) = slide_text d.
Proof. unfold slide_text. now rewrite get_set_other by discriminate. Qed.

Lemma coerce_texts (P : pystr -> Prop) (l : list dict) :
  P DEFAULT_BRANCH_TEXT ->
  Forall (fun d => P (slide_text d)) l ->
  Forall (fun d => P (slide_text d)) (_coerce_two_choice_branch l).
Proof.
  intros D F. unfold _coerce_two_choice_branch.
  pose proof (coerce_loop_any l) as H.
  destruct (coerce_loop l) as [r|].
  - destruct H as [_ [b [s [a [c [-> [_ [_ [_ ->]]]]]]]]].
    apply Forall_app in F as [F1 F2]. inversion F2; subst.
    apply Forall_app. split; [exact F1|]. constructor; [|assumption].
    now rewrite slide_text_set_choices.
  - apply list_insert_forall; [exact D | exact F].
Qed.

Lemma resequence_texts (P : pystr -> Prop) (l : list dict) :
  Forall (fun d => P (slide_text d)) l ->
  Forall (fun d => P (slide_text d)) (resequence l).
Proof.
  unfold resequence, enumerate. intros F.
  assert (G : forall k,
            Forall (fun d => P (slide_text d))
              (map (fun p => dict_set "position" (PyInt (Z.of_nat (fst p + 1))) (snd p))
                   (enumerate_from k l))).
  { induction F as [|d l Pd _ IH]; intros k; [constructor|].
    cbn [enumerate_from map fst snd]. constructor.
    - now rewrite slide_text_set_position.
    - apply IH. }
  apply G.
Qed.

Lemma rstrip_length (s : pystr) : List.length (rstrip s) <= List.length s.
Proof.
  destruct (TextFacts.rstrip_split s) as [b [E _]].
  rewrite E at 2. rewrite length_app. lia.
Qed.

Lemma capped_length (st : Settings) (t : pystr) :
  (0 <= safety_critic_max_text_length st)%Z ->
  (len (capped st t) <= safety_critic_max_text_length st + 3)%Z.
Proof.
  intros M. unfold capped.
  destruct (Z.ltb_spec (safety_critic_max_text_length st) (len t)) as [L|L]; [|lia].
  unfold len, slice_to. apply Z.leb_le in M. rewrite M. apply Z.leb_le in M.
  rewrite length_app.
  pose proof (rstrip_length (firstn (Z.to_nat (safety_critic_max_text_length st)) t)).
  rewrite length_firstn in H. change (List.length (py "...")) with 3. lia.
Qed.

Lemma fix_slides_texts (st : Settings) (input : list dict) :
  (0 <= safety_critic_max_text_length st)%Z ->
  forall k fs iss,
    fix_slides st (enumerate_from k input) = Ok (fs, iss) ->
    Forall (fun d => (len (slide_text d) <= safety_critic_max_text_length st + 3)%Z) fs.
Proof.
  intros M. induction input as [|slide input IH]; intros k fs iss H;
    cbn [enumerate_from fix_slides] in H.
  - injection H as <- _. constructor.
  - destruct (fix_slide st k slide) as [[d i1]|e] eqn:E1; [|discriminate].
    cbn [bind] in H.
    destruct (fix_slides st (enumerate_from (S k) input)) as [[ds i2]|e] eqn:E2;
      [|discriminate].
    cbn [bind fst snd] in H. injection H as <- _. constructor.
    + apply fix_slide_inv in E1 as [t0 [_ ->]].
      change (slide_text _) with (final_text st t0). now apply capped_length.
    + now apply (IH (S k) ds i2).
Qed.

End CoerceFacts.

Import CoerceFacts.

(** X4. On any slide list the branch coercion leaves a slide with a
    two-entry choice list of which exactly one entry is correct.  When some
    slide has two choices or more, the first such slide gets its first two
    choices normalised and every other slide stays as it is; otherwise the
    default slide is inserted at index 1 (at the end of an empty list). *)
Theorem coerce_always_branches (l : list dict) :
  existsb one_correct_pair (_coerce_two_choice_branch l) = true /\
  (has_branch l = true ->
   exists before slide after choices,
     l = before ++ slide :: after /\
     forallb (fun d => raw_choice_count d <? 2) before = true /\
     get "choices" slide = PyList choices /\ 2 <= List.length choices /\
     _coerce_two_choice_branch l =
     before ++ dict_set "choices" (PyList (coerce_first_two choices)) slide :: after) /\
  (has_branch l = false ->
   _coerce_two_choice_branch l =
   list_insert (Nat.min 1 (List.length l)) DEFAULT_BRANCH_SLIDE l).
Proof.
  unfold _coerce_two_choice_branch. pose proof (coerce_loop_any l) as H.
  destruct (coerce_loop l) as [r|].
  - destruct H as [B [b [s [a [c [E [F [G [L ->]]]]]]]]]. rewrite B.
    split; [|split; [|discriminate]].
    + rewrite existsb_app. apply orb_true_iff. right. cbn [existsb].
      destruct c as [|c0 [|c1 c]]; simpl in L; try lia.
      destruct (coerce_first_two_pair c0 c1 c) as [x [y [-> X]]].
      now rewrite (one_correct_pair_set x y s X).
    + intros _. now exists b, s, a, c.
  - rewrite H. split; [|split; [discriminate | reflexivity]].
    destruct l as [|d l]; [reflexivity|].
    unfold list_insert. cbn [Nat.min List.length firstn skipn app existsb].
    apply orb_true_iff. right. apply orb_true_iff. left. reflexivity.
Qed.

(** X5. With a limit that is not negative, every text the enabled critic
    returns is at most three characters over the limit, or as long as the
    text of the default slide if that is more; the text of the final slide
    may be longer by the guidance sentence. *)
Theorem critic_text_length (w : World) (st : Settings)
  (payload : StoryCreateRequest) (input : list dict) (res : SafetyCriticResult) :
  safety_critic_enabled st = true ->
  (0 <= safety_critic_max_text_length st)%Z ->
  apply_safety_critic w st payload input = Ok res ->
  exists init final,
    slides res = init ++ [final] /\
    Forall (fun d =>
              (len (slide_text d) <=
               Z.max (safety_critic_max_text_length st + 3) (len DEFAULT_BRANCH_TEXT))%Z)
           init /\
    (len (slide_text final) <=
     Z.max (safety_critic_max_text_length st + 3) (len DEFAULT_BRANCH_TEXT)
     + len GUIDANCE_SENTENCE)%Z.
Proof.
  intros E M H. apply (apply_inv w st payload input res E) in H as [N [H _]].
  unfold critic_pass in H.
  destruct (sanitize_and_coerce st input) as [[fs iss]|e] eqn:S0; [|discriminate].
  pose proof (fixed_nonempty st input fs iss N S0) as N0.
  assert (B : Forall (fun d =>
                (len (slide_text d) <=
                 Z.max (safety_critic_max_text_length st + 3)
                       (len DEFAULT_BRANCH_TEXT))%Z) fs).
  { unfold sanitize_and_coerce, enumerate in S0.
    destruct (fix_slides st (enumerate_from 0 input)) as [[fs0 i0]|e] eqn:F0;
      [|discriminate].
    cbn [bind fst snd] in S0. injection S0 as <- _.
    apply fix_slides_texts in F0; [|exact M].
    apply (resequence_texts
             (fun t => (len t <= Z.max (safety_critic_max_text_length st + 3)
                                       (len DEFAULT_BRANCH_TEXT))%Z)).
    apply (coerce_texts
             (fun t => (len t <= Z.max (safety_critic_max_text_length st + 3)
                                       (len DEFAULT_BRANCH_TEXT))%Z)).
    - lia.
    - eapply Forall_impl; [|exact F0]. cbv beta. intros d Hd. lia. }
  cbn [bind] in H. unfold ensure_trusted_adult in H.
  destruct (exists_last N0) as [init [final E0]]. subst fs.
  apply Forall_app in B as [B1 B2]. inversion B2 as [|? ? Bf _]; subst.
  destruct (_has_trusted_adult_reference (init ++ [final])); cbn [negb] in H;
    injection H as <- _.
  - exists init, final. split; [reflexivity|]. split; [exact B1|].
    unfold len in *. lia.
  - rewrite append_guidance_snoc. eexists init, _. split; [reflexivity|].
    split; [exact B1|]. unfold slide_text at 1. rewrite get_set_same.
    cbn [py_str]. unfold len in *. rewrite length_app.
    unfold slide_text in Bf. lia.
Qed.

Lemma critic_text_length_witness :
  exists res init final,
    apply_safety_critic Examples.offline default_settings Examples.request
      Examples.long_slide = Ok res /\
    slides res = init ++ [final] /\
    (len (slide_text final) <= 323 + len GUIDANCE_SENTENCE)%Z.
Proof.
  destruct (critic_text_length Examples.offline default_settings Examples.request
              Examples.long_slide
              {| slides :=
                   [[ "position" ~> PyInt 1;
                      "text" ~> PyStr (repeat (chr 97) 319 ++ py "...");
                      "choices" ~>
                        PyList
                          [ PyDict [ "id" ~> PyStr (py "a");
                                     "text" ~> PyStr (py "Tell a teacher.");
                                     "correct" ~> PyBool true ];
                            PyDict [ "id" ~> PyStr (py "b");
                                     "text" ~> PyStr (py "Hide.");
                                     "correct" ~> PyBool false ] ] ]];
                 issues := [py "slide_1: trimmed long text"];
                 llm_review := None |}
              eq_refl ltac:(vm_compute; discriminate)
              ltac:(vm_compute; reflexivity)) as [init [final [E [_ L]]]].
  eexists _, init, final. split; [vm_compute; reflexivity|].
  split; [exact E | exact L].
Defined.

(* ===================================================================== *)
(** ** Further properties of the slide normaliser *)
(* ===================================================================== *)

Module NormaliserMore.
Import StoryGeneration Spec Shapes NormaliserFacts.

Arguments strip : simpl never.
Arguments py : simpl never.

Lemma is_blank_false (t : pystr) : is_blank t = false -> strip t <> [].
Proof. unfold is_blank. destruct (strip t); [discriminate|]. discriminate. Qed.

Lemma normalize_slide_text (idx : nat) (v : PyVal) :
  Forall stripped_text (kept_slide idx v).
Proof.
  unfold kept_slide. destruct v as [| | | | |d]; try constructor.
  destruct (get "text" d) as [| | |text| |]; try constructor.
  destruct (is_blank text) eqn:B; constructor; [|constructor].
  exists (strip text). split; [reflexivity|]. split.
  - now apply is_blank_false.
  - apply TextFacts.strip_idem.
Qed.

Lemma normalize_slides_text (l : list PyVal) :
  forall k,
    Forall stripped_text
      (flat_map (fun ir => kept_slide (fst ir) (snd ir)) (enumerate_from k l)).
Proof.
  induction l as [|v l IH]; intros k; [constructor|].
  cbn [enumerate_from flat_map fst snd]. apply Forall_app. split.
  - apply normalize_slide_text.
  - apply IH.
Qed.

Lemma normalize_slide_position (idx : nat) (v : PyVal) :
  map (get "position") (kept_slide idx v) =
  if valid_slide v then [PyInt (Z.of_nat (idx + 1))] else [].
Proof.
  unfold kept_slide, valid_slide. destruct v as [| | | | |d]; try reflexivity.
  destruct (get "text" d) as [| | |text| |]; try reflexivity.
  now destruct (is_blank text).
Qed.

(** The positions the loop gives: the places, counted from 1, of the
    entries it keeps. *)
Lemma normalize_slides_increasing (l : list PyVal) :
  forall k,
    increasing_positions (Z.of_nat k + 1) (Z.of_nat (k + List.length l))
      (flat_map (fun ir => kept_slide (fst ir) (snd ir)) (enumerate_from k l)).
Proof.
  unfold increasing_positions.
  induction l as [|v l IH]; intros k.
  - exists []. repeat split; constructor.
  - destruct (IH (S k)) as [ps [E [Sd B]]].
    cbn [enumerate_from flat_map fst snd List.length].
    rewrite map_app, normalize_slide_position, E.
    destruct (valid_slide v).
    + exists (Z.of_nat (k + 1) :: ps). repeat split.
      * constructor; [exact Sd|].
        eapply Forall_impl; [|exact B]. cbv beta. intros p Hp. lia.
      * constructor; [lia|].
        eapply Forall_impl; [|exact B]. cbv beta. intros p Hp. lia.
    + exists ps. repeat split; [exact Sd|].
      eapply Forall_impl; [|exact B]. cbv beta. intros p Hp. lia.
Qed.

Lemma sequential_increasing (l : list dict) :
  forall k,
    sequential_from k l ->
    increasing_positions (Z.of_nat k + 1) (Z.of_nat (k + List.length l)) l.
Proof.
  unfold sequential_from, increasing_positions.
  induction l as [|d l IH]; intros k E.
  - exists []. repeat split; constructor.
  - cbn [map List.length seq] in E. injection E as E1 E2.
    destruct (IH (S k) E2) as [ps [E [Sd B]]].
    exists (Z.of_nat (k + 1) :: ps). cbn [map List.length]. rewrite E1, E.
    repeat split.
    + constructor; [exact Sd|].
      eapply Forall_impl; [|exact B]. cbv beta. intros p Hp. lia.
    + constructor; [lia|].
      eapply Forall_impl; [|exact B]. cbv beta. intros p Hp. lia.
Qed.

Lemma increasing_widen (lo hi lo' hi' : Z) (l : list dict) :
  (lo' <= lo)%Z -> (hi <= hi')%Z ->
  increasing_positions lo hi l -> increasing_positions lo' hi' l.
Proof.
  intros A B [ps [E [Sd F]]]. exists ps. repeat split; try assumption.
  eapply Forall_impl; [|exact F]. cbv beta. intros p Hp. lia.
Qed.

Lemma default_branch_text (payload : StoryCreateRequest) :
  stripped_text (default_branch_slide payload).
Proof.
  eexists. split; [reflexivity|]. split; [discriminate|].
  apply TextFacts.strip_fixes.
  - reflexivity.
  - rewrite app_assoc.
    apply TextFacts.rstrip_fix_app; [reflexivity | discriminate].
Qed.

Lemma resequence_keeps_text (l : list dict) :
  Forall stripped_text l -> Forall stripped_text (StoryGeneration.resequence l).
Proof.
  unfold StoryGeneration.resequence, enumerate. intros F.
  assert (G : forall k,
            Forall stripped_text
              (map (fun p => dict_set "position" (PyInt (Z.of_nat (fst p + 1))) (snd p))
                   (enumerate_from k l))).
  { induction F as [|d l [t [T H]] _ IH]; intros k; [constructor|].
    cbn [enumerate_from map fst snd]. constructor; [|apply IH].
    exists t. split; [|exact H].
    rewrite CriticFacts.dict_get_set_other by discriminate. exact T. }
  apply G.
Qed.

Lemma force_one_correct_some (v : PyVal) :
  (v = PyNone \/ exists l, v = PyList l /\ l <> [] /\ Forall well_formed_choice l) ->
  forall l, force_one_correct v = PyList l -> existsb choice_correct l = true.
Proof.
  intros [->|[l0 [-> [N F]]]] l E; [discriminate|].
  destruct l0 as [|c l0]; [contradiction|].
  inversion F as [|? ? [i [t [b [-> _]]]] _]; subst.
  unfold force_one_correct in E.
  destruct (existsb choice_correct _) eqn:X; injection E as <-; [exact X|].
  reflexivity.
Qed.

Lemma normalize_slide_correct (idx : nat) (v : PyVal) :
  Forall some_correct (kept_slide idx v).
Proof.
  unfold kept_slide. destruct v as [| | | | |d]; try constructor.
  destruct (get "text" d) as [| | |text| |]; try constructor.
  destruct (is_blank text); constructor; [|constructor].
  intros l E. rewrite CriticFacts.get_choices_slide in E.
  eapply force_one_correct_some; [apply normalize_choices_shape | exact E].
Qed.

Lemma normalize_slides_correct (l : list PyVal) :
  forall k,
    Forall some_correct
      (flat_map (fun ir => kept_slide (fst ir) (snd ir)) (enumerate_from k l)).
Proof.
  induction l as [|v l IH]; intros k; [constructor|].
  cbn [enumerate_from flat_map fst snd]. apply Forall_app. split.
  - apply normalize_slide_correct.
  - apply IH.
Qed.

Lemma resequence_keeps_correct (l : list dict) :
  Forall some_correct l -> Forall some_correct (StoryGeneration.resequence l).
Proof.
  unfold StoryGeneration.resequence, enumerate. intros F.
  assert (G : forall k,
            Forall some_correct
              (map (fun p => dict_set "position" (PyInt (Z.of_nat (fst p + 1))) (snd p))
                   (enumerate_from k l))).
  { induction F as [|d l H _ IH]; intros k; [constructor|].
    cbn [enumerate_from map fst snd]. constructor; [|apply IH].
    intros c E. rewrite CriticFacts.get_set_other in E by discriminate.
    now apply H. }
  apply G.
Qed.

(** The two paths of the normaliser after the length check. *)
Lemma normalize_paths (raw_payload : dict) (payload : StoryCreateRequest)
  (result : list dict) :
  _validate_and_normalize_slides raw_payload payload = Ok result ->
  exists l kept,
    get "slides" raw_payload = PyList l /\
    kept = flat_map (fun ir => kept_slide (fst ir) (snd ir))
                    (enumerate_from 0 (firstn 8 l)) /\
    3 <= List.length kept <= 8 /\
    ((existsb offers_choices kept = true /\ result = kept) \/
     (existsb offers_choices kept = false /\
      exists first others,
        kept = first :: others /\
        result =
        StoryGeneration.resequence
          (firstn 8 (first :: default_branch_slide payload :: others)))).
Proof.
  rewrite validate_run. unfold enumerate. intros H.
  destruct (get "slides" raw_payload) as [| | | |[|x xs]|]; try discriminate.
  destruct (existsb slide_overflow (firstn 8 (x :: xs))); [discriminate|].
  cbv zeta in H.
  exists (x :: xs). eexists. split; [reflexivity|]. split; [reflexivity|].
  set (kept := flat_map _ _) in *.
  assert (L8 : List.length kept <= 8).
  { unfold kept. rewrite normalize_slides_length.
    pose proof (filter_length_le valid_slide (firstn 8 (x :: xs))).
    pose proof (firstn_le_length 8 (x :: xs)). lia. }
  destruct (Nat.ltb_spec (List.length kept) 3) as [Lt|Ge]; [discriminate|].
  split; [lia|]. unfold offers_choices.
  destruct (existsb _ kept) eqn:B; apply ok_inj in H; subst result.
  - left. now split.
  - right. split; [reflexivity|].
    destruct kept as [|first others] eqn:K; [simpl in Ge; lia|].
    exists first, others. split; [reflexivity|]. reflexivity.
Qed.

(** The shape of every result of the normaliser. *)
Lemma normalized_shape (raw_payload : dict)
  (payload : StoryCreateRequest) (result : list dict) :
  _validate_and_normalize_slides raw_payload payload = Ok result ->
  3 <= List.length result <= 8 /\
  Forall stripped_text result /\
  increasing_positions 1 8 result.
Proof.
  intros H.
  destruct (normalize_paths raw_payload payload result H)
    as [l [kept [G [K [L [[B ->]|[B [first [others [E ->]]]]]]]]]].
  - split; [exact L|]. subst kept. split.
    + apply normalize_slides_text.
    + eapply increasing_widen; [| |apply normalize_slides_increasing].
      * lia.
      * pose proof (firstn_le_length 8 l). rewrite length_firstn. lia.
  - assert (T : Forall stripped_text kept) by (subst kept; apply normalize_slides_text).
    rewrite E in T, L. inversion T as [|? ? T1 T2]; subst.
    destruct (resequence_from_positions
                (firstn 8 (first :: default_branch_slide payload :: others)) 0)
      as [Sq [_ Ln]].
    assert (L' : 3 <= List.length
                       (firstn 8 (first :: default_branch_slide payload :: others)) <= 8).
    { rewrite length_firstn. cbn [List.length] in *. lia. }
    unfold StoryGeneration.resequence, enumerate. split; [now rewrite Ln|]. split.
    + apply (resequence_keeps_text
               (firstn 8 (first :: default_branch_slide payload :: others))).
      apply forall_firstn. constructor; [exact T1|].
      constructor; [apply default_branch_text | exact T2].
    + eapply increasing_widen; [| |apply (sequential_increasing _ 0 Sq)].
      * lia.
      * rewrite Ln. lia.
Qed.

(** Every result of the normaliser offers choices, each list with a
    correct one. *)
Lemma normalized_branches (raw_payload : dict)
  (payload : StoryCreateRequest) (result : list dict) :
  _validate_and_normalize_slides raw_payload payload = Ok result ->
  Forall some_correct result /\ existsb offers_choices result = true.
Proof.
  intros H.
  destruct (normalize_paths raw_payload payload result H)
    as [l [kept [G [K [L [[B ->]|[B [first [others [E ->]]]]]]]]]].
  - split; [|exact B]. subst kept. apply normalize_slides_correct.
  - assert (C : Forall some_correct kept) by (subst kept; apply normalize_slides_correct).
    rewrite E in C. inversion C as [|? ? C1 C2]; subst. split.
    + apply resequence_keeps_correct. apply forall_firstn.
      constructor; [exact C1|]. constructor; [|exact C2].
      intros c Ec. injection Ec as <-. reflexivity.
    + unfold StoryGeneration.resequence, enumerate.
      cbn [firstn enumerate_from map fst snd existsb].
      apply orb_true_iff. right. apply orb_true_iff. left.
      unfold offers_choices. now rewrite CriticFacts.get_set_other by discriminate.
Qed.

End NormaliserMore.

Import StoryGeneration NormaliserMore.

(** X6. A successful normalisation returns between three and eight slides;
    each has a text that is a string, not empty and stripped; the positions
    are integers between 1 and 8 that strictly increase along the list. *)
Theorem normalize_output_bounds (raw_payload : dict)
  (payload : StoryCreateRequest) (result : list dict) :
  _validate_and_normalize_slides raw_payload payload = Ok result ->
  3 <= List.length result <= 8 /\
  Forall stripped_text result /\
  increasing_positions 1 8 result.
Proof. apply normalized_shape. Qed.

Lemma normalize_output_bounds_witness :
  exists result,
    _validate_and_normalize_slides Examples.with_blank Examples.request = Ok result /\
    3 <= List.length result <= 8 /\
    Forall stripped_text result /\
    increasing_positions 1 8 result.
Proof.
  eexists. split; [vm_compute; reflexivity|].
  apply (normalize_output_bounds Examples.with_blank Examples.request).
  vm_compute. reflexivity.
Defined.

(** X7. In every slide of a successful normalisation that has a choice list,
    some choice is marked correct, and some slide of the result offers
    choices. *)
Theorem normalize_always_branches (raw_payload : dict)
  (payload : StoryCreateRequest) (result : list dict) :
  _validate_and_normalize_slides raw_payload payload = Ok result ->
  Forall some_correct result /\ existsb offers_choices result = true.
Proof. apply normalized_branches. Qed.

Lemma normalize_always_branches_witness :
  exists result,
    _validate_and_normalize_slides Examples.single_choice Examples.request = Ok result /\
    Forall some_correct result /\ existsb offers_choices result = true.
Proof.
  eexists. split; [vm_compute; reflexivity|].
  apply (normalize_always_branches Examples.single_choice Examples.request).
  vm_compute. reflexivity.
Defined.

(** X8. The normaliser never looks past the eighth raw entry: two raw
    payloads whose slide lists agree on their first eight entries give the
    same result, whatever follows. *)
Theorem normalize_first_eight (raw_payload other_payload : dict)
  (payload : StoryCreateRequest) (l l' : list PyVal) :
  get "slides" raw_payload = PyList l ->
  get "slides" other_payload = PyList l' ->
  firstn 8 l = firstn 8 l' ->
  _validate_and_normalize_slides raw_payload payload =
  _validate_and_normalize_slides other_payload payload.
Proof.
  unfold _validate_and_normalize_slides. intros -> -> E.
  destruct l as [|x l], l' as [|x' l']; try discriminate E; [reflexivity|].
  cbv beta iota zeta. now rewrite E.
Qed.

Lemma normalize_first_eight_witness :
  _validate_and_normalize_slides
    [ "slides" ~> PyList (repeat (Examples.raw (Examples.text_slide "Mia walks.")) 8
                          ++ [PyNone; PyInt 3]) ]
    Examples.request =
  _validate_and_normalize_slides
    [ "slides" ~> PyList (repeat (Examples.raw (Examples.text_slide "Mia walks.")) 8) ]
    Examples.request.
Proof.
  apply (normalize_first_eight _ _ Examples.request
           (repeat (Examples.raw (Examples.text_slide "Mia walks.")) 8
            ++ [PyNone; PyInt 3])
           (repeat (Examples.raw (Examples.text_slide "Mia walks.")) 8));
    reflexivity.
Defined.

Lemma stripped_not_blank (d : dict) : stripped_text d -> blank_text d = false.
Proof.
  intros [t [T [N S]]]. unfold blank_text, get_or. rewrite T. cbn [py_str].
  rewrite S. now destruct t.
Qed.

(** X9. The critic accepts every result of the normaliser, in strict mode
    too: its own processing does not raise, and it returns as many slides or
    one more. *)
Theorem critic_accepts_normalised (raw_payload : dict)
  (payload : StoryCreateRequest) (result : list dict) (st : Settings) :
  _validate_and_normalize_slides raw_payload payload = Ok result ->
  exists fs iss,
    critic_pass st result = Ok (fs, iss) /\
    List.length result <= List.length fs <= S (List.length result).
Proof.
  intros H. destruct (normalized_shape raw_payload payload result H)
    as [L [T _]].
  destruct (critic_pass st result) as [[fs iss]|e] eqn:P.
  - exists fs, iss. split; [reflexivity|].
    apply critic_pass_spec in P as [_ [_ [_ [_ [Ln _]]]]].
    + destruct (existsb _ result) in Ln; lia.
    + intros ->. simpl in L. lia.
  - exfalso. apply critic_pass_raise in P as [_ [i [s [[b [a [E [_ [_ B]]]]] _]]]].
    subst result. apply Forall_app in T as [_ T]. inversion T as [|? ? Ts _]; subst.
    rewrite (stripped_not_blank s Ts) in B. discriminate.
Qed.

Lemma critic_accepts_normalised_witness :
  exists result fs iss,
    _validate_and_normalize_slides Examples.single_choice Examples.request = Ok result /\
    critic_pass Examples.review_settings result = Ok (fs, iss) /\
    List.length result <= List.length fs <= S (List.length result).
Proof.
  eexists. 
  destruct (critic_accepts_normalised Examples.single_choice Examples.request
              _ Examples.review_settings
              ltac:(vm_compute; reflexivity)) as [fs [iss [P L]]].
  exists fs, iss. split; [reflexivity|]. split; [exact P | exact L].
Defined.
(* ===================================================================== *)
(** ** The template, the context and the generation *)
(* ===================================================================== *)

Module GenerationFacts.
Import SafetyCritic Spec Shapes Generation TextFacts CriticFacts CriticMore.

Arguments strip : simpl never.
Arguments py : simpl never.
Arguments _sanitize_text : simpl never.

Lemma blank_text_slide (n c : PyVal) (t : pystr) :
  Literal.has_text t = true ->
  blank_text [ "position" ~> n; "text" ~> PyStr t; "choices" ~> c ] = false.
Proof.
  intros H. unfold blank_text.
  change (py_str (get_or "text" (PyStr [])
                    [ "position" ~> n; "text" ~> PyStr t; "choices" ~> c ]))
    with t.
  pose proof (strip_nonempty t H) as N. now destruct (strip t).
Qed.

Lemma template_nonblank (payload : StoryCreateRequest) :
  forallb (fun s => negb (blank_text s)) (build_default_branching_slides payload)
  = true.
Proof.
  unfold build_default_branching_slides. cbn [forallb].
  rewrite !blank_text_slide; [reflexivity| | |];
    rewrite !has_text_app.
  - reflexivity.
  - reflexivity.
  - change (Literal.has_text (py " begins in ")) with true.
    now rewrite orb_true_r.
Qed.

Lemma clean_choice_dict (index choice_idx : nat) (c : dict) :
  List.length (fst (clean_choice index choice_idx (PyDict c))) = 1.
Proof.
  unfold clean_choice.
  now destruct (_sanitize_text (py_str (get_or "text" (PyStr []) c))).
Qed.

Lemma clean_choices_dicts (index : nat) (l : list (nat * PyVal)) :
  Forall (fun p => exists c, snd p = PyDict c) l ->
  List.length (fst (clean_choices index l)) = List.length l.
Proof.
  induction 1 as [|[i v] l [c E] _ IH]; [reflexivity|].
  cbn [snd] in E. subst v. cbn [clean_choices].
  pose proof (clean_choice_dict index i c) as L.
  destruct (clean_choice index i (PyDict c)) as [c1 i1].
  destruct (clean_choices index l) as [c2 i2].
  cbn [fst] in *. rewrite length_app, L, IH. reflexivity.
Qed.

Lemma template_has_branch (payload : StoryCreateRequest) :
  existsb (fun s => 2 <=? cleaned_choice_count s)
          (build_default_branching_slides payload) = true.
Proof.
  unfold build_default_branching_slides. cbn [existsb].
  apply orb_true_iff. right. apply orb_true_iff. left.
  unfold cleaned_choice_count.
  match goal with
  | |- context [get "choices" ?d] =>
      match d with
      | [ _; _; "choices" ~> ?v ] => change (get "choices" d) with v
      end
  end.
  cbv beta iota. rewrite clean_choices_dicts; [reflexivity|].
  repeat constructor; eexists; reflexivity.
Qed.

(** A list without a blank text passes the critic's own processing. *)
Lemma nonblank_passes (st : Settings) (input : list dict) :
  forallb (fun s => negb (blank_text s)) input = true ->
  exists fs iss, critic_pass st input = Ok (fs, iss).
Proof.
  intros N. destruct (critic_pass st input) as [[fs iss]|e] eqn:P.
  - now exists fs, iss.
  - exfalso. apply critic_pass_raise in P as [_ [i [s [[b [a [E [_ [_ B]]]]] _]]]].
    subst input. rewrite forallb_app in N. apply andb_prop in N as [_ N].
    cbn [forallb] in N. rewrite B in N. discriminate.
Qed.

End GenerationFacts.

Import Generation GenerationFacts.

(** X10. The critic accepts the template slides for every request, in
    strict mode too, and adds no slide to them: its result has three
    slides. *)
Theorem template_passes_critic (st : Settings) (payload : StoryCreateRequest) :
  exists fs iss,
    critic_pass st (build_default_branching_slides payload) = Ok (fs, iss) /\
    List.length fs = 3.
Proof.
  destruct (nonblank_passes st _ (template_nonblank payload)) as [fs [iss P]].
  exists fs, iss. split; [exact P|].
  apply critic_pass_spec in P as [_ [_ [_ [_ [L _]]]]]; [|discriminate].
  now rewrite template_has_branch in L.
Qed.

Module AgeFacts.
Import Generation.

Lemma findall_digits_run (a s cur : pystr) :
  forallb is_digit a = true ->
  findall_digits cur (a ++ s) = findall_digits (cur ++ a) s.
Proof.
  revert cur. induction a as [|c a IH]; intros cur H.
  - now rewrite app_nil_r.
  - cbn [forallb] in H. apply andb_prop in H as [H1 H2].
    cbn [app findall_digits]. rewrite H1, (IH _ H2), <- app_assoc. reflexivity.
Qed.

Lemma findall_digits_gap (sep s : pystr) :
  forallb (fun c => negb (is_digit c)) sep = true ->
  findall_digits [] (sep ++ s) = findall_digits [] s.
Proof.
  induction sep as [|c sep IH]; intros H; [reflexivity|].
  cbn [forallb] in H. apply andb_prop in H as [H1 H2].
  apply negb_true_iff in H1. cbn [app findall_digits]. rewrite H1. now apply IH.
Qed.

Lemma findall_digits_close (cur s : pystr) (c : ascii) :
  cur <> [] -> is_digit c = false ->
  findall_digits cur (c :: s) = cur :: findall_digits [] s.
Proof.
  intros N H. cbn [findall_digits]. rewrite H. now destruct cur.
Qed.

Lemma findall_digits_end (cur : pystr) :
  cur <> [] -> findall_digits cur [] = [cur].
Proof. intros N. now destruct cur. Qed.

Lemma int_value_from (ds : pystr) (acc : Z) :
  (0 <= acc)%Z ->
  (0 <= fold_left (fun acc c => acc * 10 + Z.of_nat (ord c - 48)) ds acc)%Z.
Proof.
  revert acc. induction ds as [|c ds IH]; intros acc H; [exact H|].
  cbn [fold_left]. apply IH. lia.
Qed.

Lemma int_value_nonneg (ds : pystr) : (0 <= int_value ds)%Z.
Proof. apply int_value_from. lia. Qed.

(** The comprehension over the runs: it raises at a run beyond the limit,
    and gives the numbers the runs write otherwise. *)
Lemma numbers_run (w : World) (runs : list pystr) :
  map_result (int_of_digits w) runs =
  if existsb (exceeds_limit w) runs then Raise ValueError
  else Ok (map int_value runs).
Proof.
  induction runs as [|r runs IH]; [reflexivity|].
  cbn [map_result existsb map]. unfold int_of_digits at 1.
  destruct (exceeds_limit w r); [reflexivity|]. cbn [bind orb].
  rewrite IH. now destruct (existsb (exceeds_limit w) runs).
Qed.

Lemma parse_age_run (w : World) (age_group : pystr) :
  _parse_age_value w age_group =
  if existsb (exceeds_limit w) (findall_digits [] age_group) then Raise ValueError
  else
    Ok (match map int_value (findall_digits [] age_group) with
        | [] => 8%Z
        | [n] => n
        | n0 :: n1 :: _ => ((n0 + n1) / 2)%Z
        end).
Proof.
  unfold _parse_age_value. rewrite numbers_run.
  now destruct (existsb (exceeds_limit w) (findall_digits [] age_group)).
Qed.

End AgeFacts.

Import AgeFacts.

(** X11. The parsed age is never negative: a minus sign is no part of a
    number the pattern finds. *)
Theorem parse_age_nonnegative (w : World) (age_group : pystr) (age : Z) :
  _parse_age_value w age_group = Ok age -> (0 <= age)%Z.
Proof.
  rewrite parse_age_run.
  destruct (existsb (exceeds_limit w) (findall_digits [] age_group));
    [discriminate|].
  intros [= <-].
  destruct (findall_digits [] age_group) as [|n0 [|n1 l]]; cbn [map].
  - lia.
  - apply int_value_nonneg.
  - apply Z.div_pos; [|lia].
    pose proof (int_value_nonneg n0). pose proof (int_value_nonneg n1). lia.
Qed.

Lemma parse_age_nonnegative_witness :
  _parse_age_value Examples.offline (py "-5") = Ok 5%Z /\ (0 <= 5)%Z.
Proof.
  split; [reflexivity|].
  apply (parse_age_nonnegative Examples.offline (py "-5") 5). reflexivity.
Defined.

(** X12. An age group that holds one number, with no digit before or after
    it, gives that number when the number is within the interpreter's limit
    on digits; an age group without a digit gives 8. *)
Theorem parse_age_single (w : World) (before number after : pystr) :
  forallb (fun c => negb (is_digit c)) before = true ->
  forallb is_digit number = true ->
  forallb (fun c => negb (is_digit c)) after = true ->
  exceeds_limit w number = false ->
  _parse_age_value w (before ++ number ++ after) =
  Ok (match number with
      | [] => 8%Z
      | _ => int_value number
      end).
Proof.
  intros B N A L. rewrite parse_age_run.
  rewrite (findall_digits_gap _ _ B), (findall_digits_run _ _ _ N).
  cbn [app]. destruct number as [|d number].
  - rewrite <- (app_nil_r after), (findall_digits_gap _ _ A). reflexivity.
  - destruct after as [|c after].
    + cbn [findall_digits existsb]. rewrite L. reflexivity.
    + cbn [forallb] in A. apply andb_prop in A as [A1 A2].
      apply negb_true_iff in A1.
      rewrite findall_digits_close; [|discriminate|exact A1].
      rewrite <- (app_nil_r after), (findall_digits_gap _ _ A2).
      cbn [findall_digits existsb]. rewrite L. reflexivity.
Qed.

Lemma parse_age_single_witness :
  _parse_age_value Examples.offline (py "under " ++ py "10" ++ py " years")
  = Ok 10%Z.
Proof.
  apply (parse_age_single Examples.offline (py "under ") (py "10") (py " years"));
    reflexivity.
Defined.

(** X13. An age group that holds two numbers or more gives the floor of the
    mean of the first two, when every number in it, the later ones too, is
    within the interpreter's limit on digits. *)
Theorem parse_age_range (w : World) (before low between high rest : pystr) :
  forallb (fun c => negb (is_digit c)) before = true ->
  low <> [] -> forallb is_digit low = true ->
  between <> [] -> forallb (fun c => negb (is_digit c)) between = true ->
  high <> [] -> forallb is_digit high = true ->
  match rest with [] => True | c :: _ => is_digit c = false end ->
  exceeds_limit w low = false -> exceeds_limit w high = false ->
  existsb (exceeds_limit w) (findall_digits [] rest) = false ->
  _parse_age_value w (before ++ low ++ between ++ high ++ rest) =
  Ok ((int_value low + int_value high) / 2)%Z.
Proof.
  intros B Ln L Sn Sp Hn H R Xl Xh Xr. rewrite parse_age_run.
  rewrite (findall_digits_gap _ _ B), (findall_digits_run _ _ _ L). cbn [app].
  destruct between as [|c between]; [contradiction|].
  cbn [forallb] in Sp. apply andb_prop in Sp as [S1 S2].
  apply negb_true_iff in S1. cbn [app].
  rewrite findall_digits_close; [|exact Ln|exact S1].
  rewrite (findall_digits_gap _ _ S2), (findall_digits_run _ _ _ H). cbn [app].
  destruct rest as [|r rest].
  - rewrite findall_digits_end by exact Hn. cbn [existsb map].
    now rewrite Xl, Xh.
  - rewrite findall_digits_close; [|exact Hn|exact R].
    assert (E : findall_digits [] (r :: rest) = findall_digits [] rest)
      by (cbn [findall_digits]; now rewrite R).
    rewrite E in Xr. cbn [existsb map]. now rewrite Xl, Xh, Xr.
Qed.

Lemma parse_age_range_witness :
  _parse_age_value Examples.offline
    (py "ages " ++ py "6" ++ py "-" ++ py "9" ++ py " (or 12)")
  = Ok 7%Z.
Proof.
  apply (parse_age_range Examples.offline (py "ages ") (py "6") (py "-")
           (py "9") (py " (or 12)"));
    try reflexivity; discriminate.
Defined.

(** X30. [_parse_age_value] raises exactly when some number of the age
    group, the first two or a later one, has more digits than the
    interpreter's limit; the exception is [ValueError]. *)
Theorem parse_age_raises_iff (w : World) (age_group : pystr) (e : exn) :
  _parse_age_value w age_group = Raise e <->
  e = ValueError /\
  existsb (exceeds_limit w) (findall_digits [] age_group) = true.
Proof.
  rewrite parse_age_run.
  destruct (existsb (exceeds_limit w) (findall_digits [] age_group)).
  - split; [now intros [= <-] | now intros [-> _]].
  - split; [discriminate | now intros [_ X]].
Qed.

Module ContextFacts.
Import Generation.

Lemma str_field_is_str (k : string) (default : pystr) (d : dict) :
  exists s, str_field k default d = PyStr s.
Proof. unfold str_field. destruct (get k d); eexists; reflexivity. Qed.

Lemma nonblank_is_str (v : PyVal) :
  nonblank_str v = true -> exists s, v = PyStr s.
Proof. destruct v; try discriminate. intros _. eexists; reflexivity. Qed.

(** The fields [_validate_context] reads back from a context of its own
    shape. *)
Lemma context_fields (age location skin hair clothes topic_value : PyVal) :
  let c :=
    [ "age" ~> age; "location" ~> location;
      "character" ~>
        PyDict [ "skin" ~> skin; "hair" ~> hair; "clothes" ~> clothes ];
      "topic" ~> topic_value ] in
  get "age" c = age /\ get "location" c = location /\
  get "topic" c = topic_value /\
  get "character" c =
    PyDict [ "skin" ~> skin; "hair" ~> hair; "clothes" ~> clothes ].
Proof. repeat split. Qed.

Lemma character_fields (skin hair clothes : pystr) (default : pystr) :
  let c := [ "skin" ~> PyStr skin; "hair" ~> PyStr hair; "clothes" ~> PyStr clothes ] in
  str_field "skin" default c = PyStr skin /\
  str_field "hair" default c = PyStr hair /\
  str_field "clothes" default c = PyStr clothes.
Proof. repeat split. Qed.

(** A context of the validated shape whose age is an integer and whose
    location and topic pass the checks, or are the request's own defaults,
    is returned as it is. *)
Lemma validate_context_keeps (w : World) (payload : StoryCreateRequest)
  (age location topic_value : PyVal) (skin hair clothes : pystr) :
  is_int age = true ->
  (nonblank_str location = true \/
   location = PyStr (text_or (regionContext payload) DEFAULT_LOCATION)) ->
  (nonblank_str topic_value = true \/ topic_value = PyStr (topic payload)) ->
  _validate_context w
    [ "age" ~> age; "location" ~> location;
      "character" ~>
        PyDict [ "skin" ~> PyStr skin; "hair" ~> PyStr hair;
                 "clothes" ~> PyStr clothes ];
      "topic" ~> topic_value ] payload =
  Ok [ "age" ~> age; "location" ~> location;
       "character" ~>
         PyDict [ "skin" ~> PyStr skin; "hair" ~> PyStr hair;
                  "clothes" ~> PyStr clothes ];
       "topic" ~> topic_value ].
Proof.
  intros A L T. unfold _validate_context.
  destruct (context_fields age location (PyStr skin) (PyStr hair) (PyStr clothes)
              topic_value) as [-> [-> [-> ->]]].
  rewrite A. cbn [bind]. cbv beta iota zeta.
  destruct (character_fields skin hair clothes (py "brown")) as [-> _].
  destruct (character_fields skin hair clothes (py "short black")) as [_ [-> _]].
  destruct (character_fields skin hair clothes (py "school uniform")) as [_ [_ ->]].
  assert (El : (if nonblank_str location then location
                else PyStr (text_or (regionContext payload) DEFAULT_LOCATION))
               = location).
  { destruct L as [->| ->]; [reflexivity|].
    destruct (nonblank_str (PyStr (text_or (regionContext payload) DEFAULT_LOCATION)));
      reflexivity. }
  assert (Et : (if nonblank_str topic_value then topic_value
                else PyStr (topic payload)) = topic_value).
  { destruct T as [->| ->]; [reflexivity|].
    destruct (nonblank_str (PyStr (topic payload))); reflexivity. }
  now rewrite El, Et.
Qed.

(** The fields after the age, as [_validate_context] settles them. *)
Lemma validate_context_rest (context : dict) (payload : StoryCreateRequest)
  (age : PyVal) :
  exists location topic_value skin hair clothes,
    (let location :=
       if nonblank_str (get "location" context) then get "location" context
       else PyStr (text_or (regionContext payload) DEFAULT_LOCATION) in
     let topic_value :=
       if nonblank_str (get "topic" context) then get "topic" context
       else PyStr (topic payload) in
     let character :=
       match get "character" context with
       | PyDict c => c
       | _ => []
       end in
     [ "age" ~> age;
       "location" ~> location;
       "character" ~>
         PyDict [ "skin" ~> str_field "skin" (py "brown") character;
                  "hair" ~> str_field "hair" (py "short black") character;
                  "clothes" ~> str_field "clothes" (py "school uniform") character ];
       "topic" ~> topic_value ]) =
    [ "age" ~> age; "location" ~> PyStr location;
      "character" ~>
        PyDict [ "skin" ~> PyStr skin; "hair" ~> PyStr hair;
                 "clothes" ~> PyStr clothes ];
      "topic" ~> PyStr topic_value ] /\
    (nonblank_str (PyStr location) = true \/
     PyStr location = PyStr (text_or (regionContext payload) DEFAULT_LOCATION)) /\
    (nonblank_str (PyStr topic_value) = true \/
     PyStr topic_value = PyStr (topic payload)).
Proof.
  cbv zeta.
  set (character := match get "character" context with PyDict c => c | _ => [] end).
  destruct (str_field_is_str "skin" (py "brown") character) as [skin ->].
  destruct (str_field_is_str "hair" (py "short black") character) as [hair ->].
  destruct (str_field_is_str "clothes" (py "school uniform") character)
    as [clothes ->].
  destruct (nonblank_str (get "location" context)) eqn:L;
    destruct (nonblank_str (get "topic" context)) eqn:T;
    try (destruct (nonblank_is_str _ L) as [l El]; rewrite El in *);
    try (destruct (nonblank_is_str _ T) as [t Et]; rewrite Et in *);
    do 5 eexists; (split; [reflexivity|]); split; auto.
Qed.

(** The shape of every validated context. *)
Lemma validate_context_shape (w : World) (context : dict)
  (payload : StoryCreateRequest) (validated : dict) :
  _validate_context w context payload = Ok validated ->
  exists age location topic_value skin hair clothes,
    validated =
    [ "age" ~> age; "location" ~> PyStr location;
      "character" ~>
        PyDict [ "skin" ~> PyStr skin; "hair" ~> PyStr hair;
                 "clothes" ~> PyStr clothes ];
      "topic" ~> PyStr topic_value ] /\
    is_int age = true /\
    (nonblank_str (PyStr location) = true \/
     PyStr location = PyStr (text_or (regionContext payload) DEFAULT_LOCATION)) /\
    (nonblank_str (PyStr topic_value) = true \/
     PyStr topic_value = PyStr (topic payload)).
Proof.
  unfold _validate_context. intros H.
  assert (G : exists age,
             is_int age = true /\
             (if is_int (get "age" context) then Ok (get "age" context)
              else parsed <- _parse_age_value w (ageGroup payload) ;;
                   Ok (PyInt parsed)) = Ok age).
  { destruct (is_int (get "age" context)) eqn:A.
    - now exists (get "age" context).
    - destruct (_parse_age_value w (ageGroup payload)) as [n|e];
        [|discriminate]. now exists (PyInt n). }
  destruct G as [age [A G]]. rewrite G in H. cbn [bind] in H.
  destruct (validate_context_rest context payload age)
    as [l [t [s [h [c [E [L T]]]]]]].
  cbv zeta in H, E. rewrite E in H. injection H as <-.
  exists age, l, t, s, h, c. now repeat split.
Qed.

End ContextFacts.

Import ContextFacts.

(** X14. Whatever the planner returned, a context that validation returns
    holds exactly an age that is an integer, a location and a topic that
    are strings, and a character whose skin, hair and clothes are strings. *)
Theorem validate_context_typed (w : World) (context : dict)
  (payload : StoryCreateRequest) (validated : dict) :
  _validate_context w context payload = Ok validated ->
  exists age location topic_value skin hair clothes,
    validated =
    [ "age" ~> age; "location" ~> PyStr location;
      "character" ~>
        PyDict [ "skin" ~> PyStr skin; "hair" ~> PyStr hair;
                 "clothes" ~> PyStr clothes ];
      "topic" ~> PyStr topic_value ] /\
    is_int age = true.
Proof.
  intros H. destruct (validate_context_shape w context payload validated H)
    as [age [l [t [s [h [c [E [A _]]]]]]]].
  now exists age, l, t, s, h, c.
Qed.

Lemma validate_context_typed_witness :
  exists validated age location topic_value skin hair clothes,
    _validate_context Examples.offline
      [ "age" ~> PyStr (py "seven"); "location" ~> PyInt 3 ] Examples.request
    = Ok validated /\
    validated =
    [ "age" ~> age; "location" ~> PyStr location;
      "character" ~>
        PyDict [ "skin" ~> PyStr skin; "hair" ~> PyStr hair;
                 "clothes" ~> PyStr clothes ];
      "topic" ~> PyStr topic_value ] /\
    is_int age = true.
Proof.
  eexists.
  destruct (validate_context_typed Examples.offline
              [ "age" ~> PyStr (py "seven"); "location" ~> PyInt 3 ]
              Examples.request _ ltac:(vm_compute; reflexivity))
    as [age [l [t [s [h [c [E A]]]]]]].
  exists age, l, t, s, h, c. split; [reflexivity|]. now split.
Defined.

(** X15. Validation is idempotent: a validated context is returned as it
    is when it is validated again for the same request. *)
Theorem validate_context_idempotent (w : World) (context : dict)
  (payload : StoryCreateRequest) (validated : dict) :
  _validate_context w context payload = Ok validated ->
  _validate_context w validated payload = Ok validated.
Proof.
  intros H. destruct (validate_context_shape w context payload validated H)
    as [age [l [t [s [h [c [-> [A [L T]]]]]]]]].
  now apply validate_context_keeps.
Qed.

Lemma validate_context_idempotent_witness :
  exists validated,
    _validate_context Examples.offline
      [ "age" ~> PyStr (py "seven"); "location" ~> PyInt 3 ] Examples.request
    = Ok validated /\
    _validate_context Examples.offline validated Examples.request = Ok validated.
Proof.
  eexists. split; [vm_compute; reflexivity|].
  apply (validate_context_idempotent Examples.offline
           [ "age" ~> PyStr (py "seven"); "location" ~> PyInt 3 ]
           Examples.request).
  vm_compute. reflexivity.
Defined.

(** X16. The default context of a request passes validation for that
    request unchanged. *)
Theorem validate_default_context (w : World) (payload : StoryCreateRequest)
  (context : dict) :
  build_default_context w payload = Ok context ->
  _validate_context w context payload = Ok context.
Proof.
  unfold build_default_context.
  destruct (_parse_age_value w (ageGroup payload)) as [age|e]; [|discriminate].
  cbn [bind]. intros [= <-].
  apply validate_context_keeps; [reflexivity | now right | now right].
Qed.

Lemma validate_default_context_witness :
  exists context,
    build_default_context Examples.offline Examples.request = Ok context /\
    _validate_context Examples.offline context Examples.request = Ok context.
Proof.
  eexists. split; [vm_compute; reflexivity|].
  apply (validate_default_context Examples.offline Examples.request).
  vm_compute. reflexivity.
Defined.

Module ExtractFacts.
Import Generation Shapes.

Lemma from_first_some (c : ascii) (s r : pystr) :
  from_first c s = Some r ->
  exists a t, s = a ++ c :: t /\ r = c :: t /\ ~ In c a.
Proof.
  induction s as [|x s IH]; [discriminate|]. cbn [from_first].
  destruct (Ascii.eqb x c) eqn:E.
  - apply Ascii.eqb_eq in E. subst x. intros [= <-].
    exists [], s. repeat split. intros [].
  - intros H. destruct (IH H) as [a [t [-> [-> N]]]].
    exists (x :: a), t. repeat split. intros [X|X]; [|now apply N].
    subst x. now rewrite Ascii.eqb_refl in E.
Qed.

Lemma upto_last_some (c : ascii) (s r : pystr) :
  upto_last c s = Some r ->
  exists t b, s = t ++ c :: b /\ r = t ++ [c] /\ ~ In c b.
Proof.
  unfold upto_last. destruct (from_first c (rev s)) as [q|] eqn:F; [|discriminate].
  intros [= <-]. apply from_first_some in F as [a [t [E [-> N]]]].
  exists (rev t), (rev a). repeat split.
  - rewrite <- (rev_involutive s), E, rev_app_distr. cbn [rev].
    now rewrite <- app_assoc.
  - now rewrite <- in_rev.
Qed.

(** The text the pattern of [_extract_first_json_object] matches: it runs
    from the first opening brace of the text to its last closing brace. *)
Lemma brace_span_some (text m : pystr) :
  brace_span text = Some m ->
  exists a body b,
    text = a ++ m ++ b /\ m = chr 123 :: body ++ [chr 125] /\
    ~ In (chr 123) a /\ ~ In (chr 125) b.
Proof.
  unfold brace_span.
  destruct (from_first (chr 123) text) as [[|x rest]|] eqn:F; try discriminate.
  apply from_first_some in F as [a [t [-> [[= -> ->] N]]]].
  destruct (upto_last (chr 125) t) as [q|] eqn:U; [|discriminate].
  intros [= <-]. apply upto_last_some in U as [body [b [-> [-> M]]]].
  exists a, body, b. repeat split; try assumption.
  cbn [app]. now rewrite <- !app_assoc.
Qed.

Lemma extract_ok (w : World) (text : pystr) (d : dict) :
  _extract_first_json_object w text = Ok d ->
  json_loads w (strip text) = Some (PyDict d) \/
  exists m, brace_span (strip text) = Some m /\ json_loads w m = Some (PyDict d).
Proof.
  unfold _extract_first_json_object.
  destruct (strip text) as [|c s] eqn:S; [discriminate|].
  destruct (json_loads w (c :: s)) as [[]|] eqn:J;
    try (intros [= <-]; now left);
    (destruct (brace_span (c :: s)) as [m|] eqn:B; [|discriminate];
     destruct (json_loads w m) as [[]|] eqn:K; try discriminate;
     intros [= <-]; right; now exists m).
Qed.

Lemma generate_ok (w : World) (o : Ollama) (gs : GenerationSettings)
  (payload : StoryCreateRequest) (r : StoryGenerationResult) :
  generate_story_with_ollama w o gs payload = Ok r ->
  ollama_enabled gs = true /\
  exists planner_output story_output,
    _ollama_generate_json w (planner_reply o) = Ok planner_output /\
    _validate_context w planner_output payload = Ok (context r) /\
    _ollama_generate_json w (story_reply o (context r)) = Ok story_output /\
    StoryGeneration._validate_and_normalize_slides story_output payload
    = Ok (slides r).
Proof.
  unfold generate_story_with_ollama.
  destruct (ollama_enabled gs); [|discriminate]. cbn [negb].
  destruct (_ollama_generate_json w (planner_reply o)) as [po|] eqn:P;
    [|discriminate]. cbn [bind].
  destruct (_validate_context w po payload) as [c|] eqn:C; [|discriminate].
  cbn [bind].
  destruct (_ollama_generate_json w (story_reply o c)) as [so|] eqn:Q;
    [|discriminate]. cbn [bind].
  destruct (StoryGeneration._validate_and_normalize_slides so payload)
    as [sl|] eqn:V; [|discriminate]. cbn [bind].
  intros [= <-]. split; [reflexivity|]. exists po, so. now repeat split.
Qed.

End ExtractFacts.

Import ExtractFacts.

(** X17. The object [_extract_first_json_object] returns is what
    [json.loads] reads from the whole stripped reply or, failing an object
    there, from the part of it that runs from its first opening brace to its
    last closing brace. *)
Theorem extract_object_source (w : World) (text : pystr) (d : dict) :
  _extract_first_json_object w text = Ok d ->
  exists m,
    json_loads w m = Some (PyDict d) /\
    (m = strip text \/
     exists a body b,
       strip text = a ++ m ++ b /\ m = chr 123 :: body ++ [chr 125] /\
       ~ In (chr 123) a /\ ~ In (chr 125) b).
Proof.
  intros H. apply extract_ok in H as [H|[m [B J]]].
  - exists (strip text). split; [exact H | now left].
  - exists m. split; [exact J|]. right. now apply brace_span_some.
Qed.

Lemma extract_object_source_witness :
  exists m,
    json_loads Samples.scripted m = Some (PyDict []) /\
    (m = strip (py " Here it is: {} I hope it helps. ") \/
     exists a body b,
       strip (py " Here it is: {} I hope it helps. ") = a ++ m ++ b /\
       m = chr 123 :: body ++ [chr 125] /\
       ~ In (chr 123) a /\ ~ In (chr 125) b).
Proof.
  apply (extract_object_source Samples.scripted
           (py " Here it is: {} I hope it helps. ") []).
  vm_compute. reflexivity.
Defined.

(** X19. A story the generation returns has a context that validation
    leaves as it is, and between three and eight slides, each with a text
    that is not empty and is stripped, at positions between 1 and 8 that
    strictly increase; one of the slides offers choices. *)
Theorem generation_result (w : World) (o : Ollama) (gs : GenerationSettings)
  (payload : StoryCreateRequest) (r : StoryGenerationResult) :
  generate_story_with_ollama w o gs payload = Ok r ->
  _validate_context w (context r) payload = Ok (context r) /\
  3 <= List.length (slides r) <= 8 /\
  Forall stripped_text (slides r) /\
  increasing_positions 1 8 (slides r) /\
  existsb offers_choices (slides r) = true.
Proof.
  intros H. apply generate_ok in H as [_ [po [so [_ [C [_ V]]]]]].
  split.
  - destruct (validate_context_shape w po payload _ C)
      as [age [l [t [s [h [c [-> [A [L T]]]]]]]]].
    now apply validate_context_keeps.
  - destruct (normalized_shape so payload _ V) as [L [T P]].
    repeat split; try assumption; try apply L.
    now apply (normalized_branches so payload).
Qed.

Lemma generation_result_witness :
  exists r,
    generate_story_with_ollama Samples.scripted Samples.answering
      Samples.generation_on Examples.request = Ok r /\
    _validate_context Samples.scripted (context r) Examples.request
    = Ok (context r) /\
    3 <= List.length (slides r) <= 8 /\
    Forall stripped_text (slides r) /\
    increasing_positions 1 8 (slides r) /\
    existsb offers_choices (slides r) = true.
Proof.
  eexists. split; [vm_compute; reflexivity|].
  apply (generation_result Samples.scripted Samples.answering
           Samples.generation_on Examples.request).
  vm_compute. reflexivity.
Defined.

(* ===================================================================== *)
(** ** The slides [create_story] stores *)
(* ===================================================================== *)

Module MainFacts.
Import SafetyCritic Spec Shapes Generation Main.
Import CriticFacts CriticMore GenerationFacts ExtractFacts NormaliserMore.

(** The review raises no error of the critic's own kind. *)
Lemma review_not_critic_error (w : World) (st : Settings)
  (payload : StoryCreateRequest) (fs : list dict) (e : exn) :
  _run_optional_llm_review w st payload fs = Raise e ->
  safety_critic_enable_llm_review st = true /\
  forall msg, e <> SafetyCriticError msg.
Proof.
  unfold _run_optional_llm_review.
  destruct (safety_critic_enable_llm_review st); [|discriminate]. cbn [negb].
  destruct (urlopen_read w) as [| |raw]; try discriminate.
  destruct (json_loads w raw) as [[| | | | |body]|]; try discriminate;
    try (intros [= <-]; split; [reflexivity | discriminate]).
  destruct (get_or "response" (PyStr (py "{}")) body) as [| | |text| |];
    try (intros [= <-]; split; [reflexivity | discriminate]).
  destruct (json_loads w text) as [[]|]; discriminate.
Qed.

Lemma review_verdict (w : World) (st : Settings)
  (payload : StoryCreateRequest) (fs : list dict) (rv : option PyVal) :
  _run_optional_llm_review w st payload fs = Ok rv ->
  match rv with
  | None => safety_critic_enable_llm_review st = false
  | Some v => safety_critic_enable_llm_review st = true /\ exists d, v = PyDict d
  end.
Proof.
  unfold _run_optional_llm_review.
  destruct (safety_critic_enable_llm_review st); cbn [negb];
    [|now intros [= <-]].
  destruct (urlopen_read w) as [| |raw];
    try (intros [= <-]; split; [reflexivity | eexists; reflexivity]).
  destruct (json_loads w raw) as [[| | | | |body]|]; try discriminate;
    try (intros [= <-]; split; [reflexivity | eexists; reflexivity]).
  destruct (get_or "response" (PyStr (py "{}")) body) as [| | |text| |];
    try discriminate.
  destruct (json_loads w text) as [[]|];
    intros [= <-]; split; try reflexivity; eexists; reflexivity.
Qed.

(** A processed slide has a text. *)
Lemma slide_ok_has_text (st : Settings) (d : dict) :
  slide_ok st d -> nonblank_text d.
Proof.
  intros [n [t [c [-> [[N [S _]] _]]]]]. unfold nonblank_text, blank_text.
  change (py_str (get_or "text" (PyStr [])
                    [ "position" ~> PyInt n; "text" ~> PyStr t; "choices" ~> c ]))
    with t.
  rewrite S. now destruct t.
Qed.

Lemma settled_offers (l : list dict) :
  settled_choices (map (get "choices") l) = true ->
  existsb offers_choices l = true.
Proof.
  induction l as [|d l IH]; [discriminate|].
  cbn [map settled_choices existsb]. unfold offers_choices at 1.
  destruct (get "choices" d) as [|b|z|s|c|x]; intros H;
    try (rewrite (IH H); apply orb_true_r).
  destruct c as [|c0 c]; [|reflexivity].
  rewrite (IH H). apply orb_true_r.
Qed.

Lemma forallb_has_text (l : list dict) :
  forallb (fun s => negb (blank_text s)) l = true <-> Forall nonblank_text l.
Proof.
  rewrite forallb_forall, Forall_forall. unfold nonblank_text.
  split; intros H x I; specialize (H x I); now destruct (blank_text x).
Qed.

(** The second [try] on slides that are at least three and not blank. *)
Lemma after_critic_cases (w : World) (st : Settings)
  (payload : StoryCreateRequest) (l : list dict) :
  3 <= List.length l -> Forall nonblank_text l ->
  (safety_critic_enabled st = false /\ after_critic w st payload l = Stored l) \/
  (safety_critic_enabled st = true /\
   exists fs iss,
     critic_pass st l = Ok (fs, iss) /\
     List.length l <= List.length fs <= S (List.length l) /\
     ((exists rv, _run_optional_llm_review w st payload fs = Ok rv /\
                  after_critic w st payload l = Stored fs) \/
      (exists e, _run_optional_llm_review w st payload fs = Raise e /\
                 after_critic w st payload l = Unhandled e))).
Proof.
  intros L T. unfold after_critic, apply_safety_critic.
  destruct (safety_critic_enabled st); cbn [negb]; [right | now left].
  split; [reflexivity|].
  destruct l as [|s l]; [cbn in L; lia|].
  apply forallb_has_text in T.
  destruct (nonblank_passes st _ T) as [fs [iss P]]. rewrite P. cbn [bind fst snd].
  exists fs, iss. split; [reflexivity|]. split.
  - apply critic_pass_spec in P as [_ [_ [_ [_ [Ln _]]]]]; [|discriminate].
    destruct (existsb _ (s :: l)) in Ln; lia.
  - destruct (_run_optional_llm_review w st payload fs) as [rv|e] eqn:R;
      cbn [bind].
    + left. now exists rv.
    + right. exists e. split; [reflexivity|].
      apply review_not_critic_error in R as [_ N].
      destruct e; try reflexivity. now specialize (N msg).
Qed.

Lemma template_has_text (payload : StoryCreateRequest) :
  Forall nonblank_text (build_default_branching_slides payload).
Proof. apply forallb_has_text, template_nonblank. Qed.

Lemma stripped_slides_have_text (l : list dict) :
  Forall stripped_text l -> Forall nonblank_text l.
Proof.
  apply Forall_impl. intros d [t [T [N S]]]. unfold nonblank_text, blank_text, get_or.
  rewrite T. cbn [py_str]. rewrite S. now destruct t.
Qed.

(** The slides handed to the critic are at least three, none of them is
    blank and one offers choices. *)
Lemma handed_shape (w : World) (o : Ollama) (gs : GenerationSettings)
  (payload : StoryCreateRequest) (l : list dict) :
  handed_to_critic w o gs payload l ->
  3 <= List.length l <= 8 /\ Forall nonblank_text l /\
  existsb offers_choices l = true.
Proof.
  intros [[r [G ->]]|[_ [_ ->]]].
  - apply generate_ok in G as [_ [po [so [_ [_ [_ V]]]]]].
    destruct (normalized_shape so payload _ V) as [L [T _]].
    split; [exact L|]. split; [now apply stripped_slides_have_text|].
    now apply (normalized_branches so payload).
  - split; [cbn; lia|]. split; [apply template_has_text | reflexivity].
Qed.

Lemma handed_select (w : World) (o : Ollama) (gs : GenerationSettings)
  (st : Settings) (payload : StoryCreateRequest) (l : list dict) :
  handed_to_critic w o gs payload l ->
  select_slides w o gs st payload = after_critic w st payload l.
Proof.
  unfold select_slides. intros [[r [-> ->]]|[[msg ->] [-> ->]]]; reflexivity.
Qed.

(** How the first [try] of the selection ends. *)
Lemma selection_cases (w : World) (o : Ollama) (gs : GenerationSettings)
  (st : Settings) (payload : StoryCreateRequest) :
  (exists l, handed_to_critic w o gs payload l) \/
  (select_slides w o gs st payload = HttpError 502 /\
   ollama_fallback_to_default gs = false /\
   exists msg,
     generate_story_with_ollama w o gs payload = Raise (StoryGenerationError msg)) \/
  (exists e,
     select_slides w o gs st payload = Unhandled e /\
     generate_story_with_ollama w o gs payload = Raise e /\
     forall msg, e <> StoryGenerationError msg).
Proof.
  unfold select_slides, handed_to_critic.
  destruct (generate_story_with_ollama w o gs payload) as [r|e] eqn:G.
  - left. exists (Generation.slides r). left. now exists r.
  - destruct e as [m|m| | |];
      try (right; right; eexists; split; [reflexivity|];
           split; [reflexivity | discriminate]).
    destruct (ollama_fallback_to_default gs); cbn [negb].
    + left. eexists. right. split; [now exists m|]. now split.
    + right. left. repeat split. now exists m.
Qed.

End MainFacts.

Import Main MainFacts.

(** X20. The review returns nothing exactly when it is switched off, and
    what it returns otherwise is a dictionary. *)
Theorem review_outcomes (w : World) (st : Settings)
  (payload : StoryCreateRequest) (fs : list dict) :
  (_run_optional_llm_review w st payload fs = Ok None <->
   safety_critic_enable_llm_review st = false) /\
  (forall v, _run_optional_llm_review w st payload fs = Ok (Some v) ->
             exists d, v = PyDict d).
Proof.
  split; [split|].
  - intros H. now apply review_verdict in H.
  - intros H. unfold _run_optional_llm_review. now rewrite H.
  - intros v H. now apply review_verdict in H.
Qed.

(** X21. The slide selection of [create_story] answers with an HTTP error
    in one case only: status 502, when the generation raises
    [StoryGenerationError] and the fallback is switched off.  The status 422
    of the critic's handler is never sent. *)
Theorem select_slides_http_error (w : World) (o : Ollama)
  (gs : GenerationSettings) (st : Settings) (payload : StoryCreateRequest)
  (status_code : Z) :
  select_slides w o gs st payload = HttpError status_code <->
  status_code = 502%Z /\ ollama_fallback_to_default gs = false /\
  exists msg,
    generate_story_with_ollama w o gs payload = Raise (StoryGenerationError msg).
Proof.
  split.
  - intros H.
    destruct (selection_cases w o gs st payload)
      as [[l Hd]|[[E [F M]]|[e [E _]]]].
    + rewrite (handed_select w o gs st payload l Hd) in H.
      destruct (handed_shape w o gs payload l Hd) as [L [T _]].
      assert (L3 : 3 <= List.length l) by lia.
      destruct (after_critic_cases w st payload l L3 T)
        as [[_ A]|[_ [fs [iss [_ [_ [[rv [_ A]]|[e [_ A]]]]]]]]];
        rewrite A in H; discriminate.
    + rewrite E in H. injection H as <-. now repeat split.
    + rewrite E in H. discriminate.
  - intros [-> [F [msg G]]]. unfold select_slides. now rewrite G, F.
Qed.

(** X22. The slides the selection stores are between three and nine, each
    has a text that is not blank, and one of them offers choices: whatever
    the model answered, and with the critic on or off. *)
Theorem select_slides_stored (w : World) (o : Ollama)
  (gs : GenerationSettings) (st : Settings) (payload : StoryCreateRequest)
  (stored : list dict) :
  select_slides w o gs st payload = Stored stored ->
  3 <= List.length stored <= 9 /\
  Forall nonblank_text stored /\
  existsb offers_choices stored = true.
Proof.
  intros H.
  destruct (selection_cases w o gs st payload)
    as [[l Hd]|[[E _]|[e [E _]]]]; try (rewrite E in H; discriminate).
  rewrite (handed_select w o gs st payload l Hd) in H.
  destruct (handed_shape w o gs payload l Hd) as [L [T B]].
  assert (L3 : 3 <= List.length l) by lia.
  destruct (after_critic_cases w st payload l L3 T)
    as [[_ A]|[_ [fs [iss [P [Ln [[rv [_ A]]|[e [_ A]]]]]]]]];
    rewrite A in H; try discriminate; injection H as <-.
  - repeat split; try assumption; lia.
  - apply critic_pass_spec in P as [F [_ [C _]]]; [|intros ->; cbn in L3; lia].
    split; [lia|]. split.
    + revert F. apply Forall_impl. intros d. apply slide_ok_has_text.
    + now apply settled_offers.
Qed.

Lemma select_slides_stored_witness :
  exists stored,
    select_slides Samples.scripted Samples.answering Samples.generation_on
      default_settings Examples.request = Stored stored /\
    3 <= List.length stored <= 9 /\
    Forall nonblank_text stored /\
    existsb offers_choices stored = true.
Proof.
  eexists. split; [vm_compute; reflexivity|].
  apply (select_slides_stored Samples.scripted Samples.answering
           Samples.generation_on default_settings Examples.request).
  vm_compute. reflexivity.
Defined.

(** X23. With the critic on, the slides the selection stores are slides as
    the critic leaves them, numbered 1, 2, ... without a gap, with a settled
    branch and a reference to a trusted adult. *)
Theorem select_slides_checked (w : World) (o : Ollama)
  (gs : GenerationSettings) (st : Settings) (payload : StoryCreateRequest)
  (stored : list dict) :
  safety_critic_enabled st = true ->
  select_slides w o gs st payload = Stored stored ->
  Forall (slide_ok st) stored /\ sequential stored /\
  settled_choices (map (get "choices") stored) = true /\
  _has_trusted_adult_reference stored = true.
Proof.
  intros En H.
  destruct (selection_cases w o gs st payload)
    as [[l Hd]|[[E _]|[e [E _]]]]; try (rewrite E in H; discriminate).
  rewrite (handed_select w o gs st payload l Hd) in H.
  destruct (handed_shape w o gs payload l Hd) as [L [T B]].
  assert (L3 : 3 <= List.length l) by lia.
  destruct (after_critic_cases w st payload l L3 T)
    as [[X _]|[_ [fs [iss [P [Ln [[rv [_ A]]|[e [_ A]]]]]]]]];
    [rewrite X in En; discriminate | |]; rewrite A in H; try discriminate.
  injection H as <-.
  apply critic_pass_spec in P as [F [Sq [C [R _]]]]; [|intros ->; cbn in L3; lia].
  now repeat split.
Qed.

Lemma select_slides_checked_witness :
  exists stored,
    select_slides Examples.offline Samples.unreachable Samples.generation_on
      default_settings Examples.request = Stored stored /\
    Forall (slide_ok default_settings) stored /\ sequential stored /\
    settled_choices (map (get "choices") stored) = true /\
    _has_trusted_adult_reference stored = true.
Proof.
  eexists. split; [vm_compute; reflexivity|].
  apply (select_slides_checked Examples.offline Samples.unreachable
           Samples.generation_on default_settings Examples.request);
    vm_compute; reflexivity.
Defined.

(** X24. An exception leaves the selection unhandled exactly when the
    generation raises one that is no [StoryGenerationError], or the review
    of the enabled critic raises one; the critic's own processing of the
    slides handed to it raises none. *)
Theorem select_slides_unhandled (w : World) (o : Ollama)
  (gs : GenerationSettings) (st : Settings) (payload : StoryCreateRequest)
  (e : exn) :
  select_slides w o gs st payload = Unhandled e <->
  (generate_story_with_ollama w o gs payload = Raise e /\
   forall msg, e <> StoryGenerationError msg) \/
  (safety_critic_enabled st = true /\
   exists l fs iss,
     handed_to_critic w o gs payload l /\
     critic_pass st l = Ok (fs, iss) /\
     _run_optional_llm_review w st payload fs = Raise e).
Proof.
  split.
  - intros H.
    destruct (selection_cases w o gs st payload)
      as [[l Hd]|[[E _]|[e' [E [G N]]]]].
    + right. rewrite (handed_select w o gs st payload l Hd) in H.
      destruct (handed_shape w o gs payload l Hd) as [L [T _]].
      assert (L3 : 3 <= List.length l) by lia.
      destruct (after_critic_cases w st payload l L3 T)
        as [[_ A]|[En [fs [iss [P [_ [[rv [_ A]]|[e' [R A]]]]]]]]];
        rewrite A in H; try discriminate.
      injection H as <-. split; [exact En|]. now exists l, fs, iss.
    + rewrite E in H. discriminate.
    + rewrite E in H. injection H as <-. left. now split.
  - intros [[G N]|[En [l [fs [iss [Hd [P R]]]]]]].
    + unfold select_slides. rewrite G.
      destruct e; try reflexivity. now specialize (N msg).
    + rewrite (handed_select w o gs st payload l Hd).
      destruct (handed_shape w o gs payload l Hd) as [L _].
      unfold after_critic, apply_safety_critic. rewrite En. cbn [negb].
      destruct l as [|s l]; [cbn in L; lia|].
      rewrite P. cbn [bind fst snd]. rewrite R. cbn [bind].
      apply review_not_critic_error in R as [_ N].
      destruct e; try reflexivity. now specialize (N msg).
Qed.
(* ===================================================================== *)
(** ** The file-name slug *)
(* ===================================================================== *)

Module SlugFacts.
Import ImageGeneration Shapes TextFacts.

Arguments strip : simpl never.

Lemma lowered_alnum (x : ascii) :
  Re.is_alnum_ascii (lower_char x) = true ->
  slug_char (lower_char x) = true.
Proof. destruct x as [[] [] [] [] [] [] [] []]; vm_compute; auto. Qed.

Lemma slug_char_cases (c : ascii) :
  slug_char c = true ->
  is_space c = false /\ lower_char c = c /\
  (Re.is_alnum_ascii c = true /\ Ascii.eqb c dash = false \/
   Re.is_alnum_ascii c = false /\ c = dash).
Proof.
  destruct c as [[] [] [] [] [] [] [] []]; vm_compute; intros H;
    try discriminate H; repeat split; auto.
Qed.

Lemma alnum_not_dash (c : ascii) :
  Re.is_alnum_ascii c = true -> Ascii.eqb c dash = false.
Proof. destruct c as [[] [] [] [] [] [] [] []]; vm_compute; auto. Qed.

Lemma dash_is_slug_char : slug_char dash = true.
Proof. reflexivity. Qed.

(** The characters of the substituted text. *)
Lemma dash_runs_chars (s : pystr) :
  forall in_run, forallb slug_char (dash_runs in_run (lower s)) = true.
Proof.
  induction s as [|x s IH]; intros b; [reflexivity|].
  cbn [lower map dash_runs].
  destruct (Re.is_alnum_ascii (lower_char x)) eqn:A.
  - cbn [forallb]. rewrite (lowered_alnum x A). apply (IH false).
  - destruct b; [apply (IH true)|].
    cbn [forallb]. rewrite dash_is_slug_char. apply (IH true).
Qed.

(** The dashes of the substituted text stand alone, and none comes first
    after a character outside the class. *)
Lemma dash_runs_single (s : pystr) :
  forall in_run,
    single_dashes (dash_runs in_run s) = true /\
    (in_run = true ->
     match dash_runs in_run s with
     | c :: _ => Ascii.eqb c dash = false
     | [] => True
     end).
Proof.
  induction s as [|x s IH]; intros b; [now split|].
  cbn [dash_runs]. destruct (Re.is_alnum_ascii x) eqn:A.
  - destruct (IH false) as [S1 _]. pose proof (alnum_not_dash x A) as N.
    split; [|intros _; exact N].
    cbn [single_dashes]. rewrite S1, N.
    now destruct (dash_runs false s).
  - destruct (IH true) as [S1 H1]. specialize (H1 eq_refl).
    destruct b; [split; [exact S1 | intros _; exact H1]|].
    split; [|discriminate].
    cbn [single_dashes]. rewrite S1.
    destruct (dash_runs true s) as [|c r]; [reflexivity|].
    rewrite H1. now rewrite andb_false_r.
Qed.

Lemma lstrip_char_split (c : ascii) (s : pystr) :
  exists a,
    s = a ++ lstrip_char c s /\
    match lstrip_char c s with
    | x :: _ => Ascii.eqb x c = false
    | [] => True
    end.
Proof.
  induction s as [|x s [a [E H]]]; [now exists []|].
  cbn [lstrip_char]. destruct (Ascii.eqb x c) eqn:X.
  - exists (x :: a). split; [cbn [app]; now f_equal | exact H].
  - exists []. now split.
Qed.

Lemma lstrip_char_fix (c x : ascii) (s : pystr) :
  Ascii.eqb x c = false -> lstrip_char c (x :: s) = x :: s.
Proof. intros H. cbn [lstrip_char]. now rewrite H. Qed.

Lemma single_dashes_app (a b : pystr) :
  single_dashes (a ++ b) = true ->
  single_dashes a = true /\ single_dashes b = true.
Proof.
  induction a as [|x a IH]; [now split|].
  cbn [app single_dashes]. intros H. apply andb_prop in H as [H1 H2].
  destruct (IH H2) as [Sa Sb]. split; [|exact Sb].
  rewrite Sa, andb_true_r. destruct a as [|y a]; [reflexivity | exact H1].
Qed.

(** What [strip_char] returns for the dash is a piece of its argument with
    no dash at either end. *)
Lemma strip_char_split (s : pystr) :
  exists a b,
    s = a ++ strip_char dash s ++ b /\
    (strip_char dash s = [] \/
     starts_plain (strip_char dash s) = true /\
     starts_plain (rev (strip_char dash s)) = true).
Proof.
  unfold strip_char.
  destruct (lstrip_char_split dash s) as [a [Ea Ha]].
  destruct (lstrip_char_split dash (rev (lstrip_char dash s))) as [b [Eb Hb]].
  set (r := lstrip_char dash s) in *.
  set (q := lstrip_char dash (rev r)) in *.
  assert (Er : r = rev q ++ rev b).
  { rewrite <- (rev_involutive r), Eb, rev_app_distr. reflexivity. }
  exists a, (rev b). split; [now rewrite <- Er|].
  destruct q as [|x q']; [now left|]. right.
  rewrite rev_involutive. split.
  - destruct (rev (x :: q')) as [|y t] eqn:Q.
    + apply (f_equal (@rev ascii)) in Q. rewrite rev_involutive in Q. discriminate.
    + rewrite Er in Ha. cbn [app] in Ha. cbn [starts_plain]. now rewrite Ha.
  - cbn [starts_plain]. now rewrite Hb.
Qed.

Lemma lower_slug (s : pystr) : forallb slug_char s = true -> lower s = s.
Proof.
  induction s as [|c s IH]; [reflexivity|]. cbn [forallb lower map].
  intros H. apply andb_prop in H as [H1 H2].
  destruct (slug_char_cases c H1) as [_ [-> _]]. f_equal. now apply IH.
Qed.

Lemma dash_runs_fix (s : pystr) :
  forall in_run,
    forallb slug_char s = true -> single_dashes s = true ->
    (in_run = true -> starts_plain s = true \/ s = []) ->
    dash_runs in_run s = s.
Proof.
  induction s as [|c s IH]; intros b F S P; [reflexivity|].
  cbn [forallb] in F. apply andb_prop in F as [F1 F2].
  cbn [single_dashes] in S. apply andb_prop in S as [S1 S2].
  cbn [dash_runs].
  destruct (slug_char_cases c F1) as [_ [_ [[A N]|[A ->]]]]; rewrite A.
  - f_equal. apply IH; try assumption. discriminate.
  - destruct b.
    + destruct (P eq_refl) as [X|X]; discriminate.
    + f_equal. apply IH; try assumption. intros _.
      destruct s as [|d s]; [now right|]. left.
      cbn [starts_plain]. change (Ascii.eqb dash dash) with true in S1.
      cbn [andb] in S1. exact S1.
Qed.

Lemma starts_plain_cons (s : pystr) :
  starts_plain s = true -> exists c t, s = c :: t /\ Ascii.eqb c dash = false.
Proof.
  destruct s as [|c t]; [discriminate|]. cbn [starts_plain]. intros H.
  exists c, t. split; [reflexivity|]. now apply negb_true_iff.
Qed.

(** A slug is a fixed point of [_slugify]. *)
Lemma slugify_fix (s : pystr) : is_slug s = true -> _slugify s = s.
Proof.
  unfold is_slug. intros H.
  apply andb_prop in H as [H S]. apply andb_prop in H as [H F].
  apply andb_prop in H as [P Q].
  destruct (starts_plain_cons _ P) as [c [t [E Nc]]].
  destruct (starts_plain_cons _ Q) as [d [u [Er Nd]]].
  assert (Es : s = rev u ++ [d]).
  { rewrite <- (rev_involutive s), Er. reflexivity. }
  assert (Fd : slug_char d = true).
  { rewrite forallb_forall in F. apply F. rewrite Es. apply in_or_app.
    right. now left. }
  assert (Fc : slug_char c = true).
  { rewrite forallb_forall in F. apply F. rewrite E. now left. }
  assert (St : strip s = s).
  { apply strip_fixes.
    - rewrite E. apply lstrip_fix_cons. now destruct (slug_char_cases c Fc).
    - rewrite Es. apply rstrip_fix_snoc. now destruct (slug_char_cases d Fd). }
  unfold _slugify. rewrite St, (lower_slug s F).
  rewrite (dash_runs_fix s false F S) by discriminate.
  assert (Sc : strip_char dash s = s).
  { unfold strip_char. rewrite E at 1. rewrite (lstrip_char_fix _ _ _ Nc), <- E.
    rewrite Er, (lstrip_char_fix _ _ _ Nd), <- Er. apply rev_involutive. }
  rewrite Sc. now rewrite E.
Qed.

(** Every result of [_slugify] is a slug. *)
Lemma slugify_slug (value : pystr) : is_slug (_slugify value) = true.
Proof.
  unfold _slugify.
  set (s := dash_runs false (lower (strip value))).
  destruct (strip_char_split s) as [a [b [E H]]].
  destruct (strip_char dash s) as [|c r] eqn:R; [reflexivity|].
  destruct H as [H|[P Q]]; [discriminate|].
  pose proof (dash_runs_chars (strip value) false) as F. fold s in F.
  destruct (dash_runs_single (lower (strip value)) false) as [S _]. fold s in S.
  rewrite E in F, S.
  rewrite !forallb_app in F. apply andb_prop in F as [_ F].
  apply andb_prop in F as [F _].
  apply single_dashes_app in S as [_ S]. apply single_dashes_app in S as [S _].
  unfold is_slug. now rewrite P, Q, F, S.
Qed.

End SlugFacts.

Import ImageGeneration SlugFacts.

(** X25. Every slug is made of lower-case letters, digits and dashes, is
    not empty, has no dash at either end and no two dashes side by side:
    it holds no dot, slash or space. *)
Theorem slugify_is_slug (value : pystr) : is_slug (_slugify value) = true.
Proof. apply slugify_slug. Qed.

(** X26. [_slugify] is idempotent. *)
Theorem slugify_idempotent (value : pystr) :
  _slugify (_slugify value) = _slugify value.
Proof. apply slugify_fix, slugify_slug. Qed.

(* ===================================================================== *)
(** ** Texts without a backslash *)
(* ===================================================================== *)

Module BackslashFacts.
Import Literal LiteralFacts SafetyCritic Spec SanitizeFacts.

Lemma lower_keeps_plain (t : pystr) :
  existsb (Ascii.eqb backslash) t = false ->
  existsb (Ascii.eqb backslash) (lower t) = false.
Proof.
  induction t as [|x t IH]; [reflexivity|]. cbn [existsb lower map].
  intros H. apply orb_false_iff in H as [H1 H2].
  apply orb_false_iff. split; [|now apply IH].
  apply Ascii.eqb_neq. intros E. symmetry in E. apply lower_backslash in E.
  subst x. now rewrite Ascii.eqb_refl in H1.
Qed.

Lemma needle_absent (term t : pystr) :
  existsb (Ascii.eqb backslash) t = false ->
  occurs false (needle term) t = false.
Proof.
  induction t as [|x t IH]; intros H; [reflexivity|].
  cbn [existsb] in H. apply orb_false_iff in H as [H1 H2].
  rewrite occurs_cons, (IH H2), orb_false_r.
  unfold needle. cbn [starts]. apply andb_false_iff. left.
  unfold Re.char_eq. exact H1.
Qed.

Lemma count_scary_plain (t : pystr) :
  existsb (Ascii.eqb backslash) t = false -> _count_scary_terms t = 0%Z.
Proof.
  intros H. rewrite count_scary_is.
  rewrite (filter_ext _ (fun _ => false)), filter_false; [reflexivity|].
  intros term. now apply needle_absent, lower_keeps_plain.
Qed.

End BackslashFacts.

Import BackslashFacts.

(** X27. On a text without a backslash the substitution pass returns the
    stripped text and reports no change, and the scary-term count is 0: the
    patterns of both ask for a literal backslash before and after the
    term. *)
Theorem plain_text_untouched (t : pystr) :
  existsb (Ascii.eqb backslash) t = false ->
  _sanitize_text t = (strip t, []) /\ _count_scary_terms t = 0%Z.
Proof.
  intros H. split; [now apply sanitize_without_backslash | now apply count_scary_plain].
Qed.

Lemma plain_text_untouched_witness :
  _sanitize_text Examples.scary_text = (strip Examples.scary_text, []) /\
  _count_scary_terms Examples.scary_text = 0%Z.
Proof. apply (plain_text_untouched Examples.scary_text). reflexivity. Defined.

(** X28. The enabled critic numbers the slides it returns 1, 2, ... in
    order, whatever positions the input slides carried. *)
Theorem critic_positions_sequential (w : World) (st : Settings)
  (payload : StoryCreateRequest) (input : list dict) (res : SafetyCriticResult) :
  safety_critic_enabled st = true ->
  apply_safety_critic w st payload input = Ok res ->
  map (get "position") (SafetyCritic.slides res) =
  map (fun i => PyInt (Z.of_nat i)) (seq 1 (List.length (SafetyCritic.slides res))).
Proof.
  intros E H. apply (apply_inv w st payload input res E) in H as [N [H _]].
  apply critic_pass_spec in H as [_ [Sq _]]; [|exact N].
  unfold sequential, sequential_from in Sq. rewrite Sq.
  rewrite <- seq_shift, map_map. apply map_ext. intros i.
  now rewrite Nat.add_1_r.
Qed.

Lemma critic_positions_sequential_witness :
  exists res,
    apply_safety_critic Examples.offline default_settings Examples.request
      [ [ "position" ~> PyInt 7; "text" ~> PyStr (py "Mia walks.") ];
        [ "position" ~> PyInt 3; "text" ~> PyStr (py "Mia is safe.") ] ] = Ok res /\
    map (get "position") (SafetyCritic.slides res) =
    map (fun i => PyInt (Z.of_nat i)) (seq 1 (List.length (SafetyCritic.slides res))).
Proof.
  eexists. split; [vm_compute; reflexivity|].
  apply (critic_positions_sequential Examples.offline default_settings
           Examples.request
           [ [ "position" ~> PyInt 7; "text" ~> PyStr (py "Mia walks.") ];
             [ "position" ~> PyInt 3; "text" ~> PyStr (py "Mia is safe.") ] ]);
    [reflexivity | vm_compute; reflexivity].
Defined.

(** X29. The normaliser raises in three cases only.  It raises the
    no-list error when the payload holds no slide list that is not empty;
    [ValueError] when a valid slide among the first eight entries holds a
    candidate choice that is kept, has no id of its own and stands at a
    place whose letter [chr] cannot give (place 1114015 or later); and
    otherwise the too-few-slides error when fewer than three of the first
    eight entries are valid slides. *)
Theorem normalize_raises_exactly (raw_payload : dict)
  (payload : StoryCreateRequest) (e : exn) :
  _validate_and_normalize_slides raw_payload payload = Raise e <->
  (e = StoryGenerationError NO_LIST /\
   forall first others, get "slides" raw_payload <> PyList (first :: others)) \/
  (exists l,
     get "slides" raw_payload = PyList l /\ l <> [] /\
     ((e = ValueError /\ existsb slide_overflow (firstn 8 l) = true) \/
      (e = StoryGenerationError TOO_FEW /\
       existsb slide_overflow (firstn 8 l) = false /\
       List.length (filter valid_slide (firstn 8 l)) < 3))).
Proof.
  rewrite validate_run. unfold enumerate.
  destruct (get "slides" raw_payload) as [| | | |[|first others]|] eqn:G;
    try (split;
         [intros [= <-]; left; split; [reflexivity | discriminate]
         |intros [[-> _]|[l [E _]]]; [reflexivity | discriminate]]).
  - split.
    + intros [= <-]. left. split; [reflexivity | discriminate].
    + intros [[-> _]|[l [E [N _]]]]; [reflexivity|].
      injection E as <-. contradiction.
  - set (raw := first :: others).
    destruct (existsb slide_overflow (firstn 8 raw)) eqn:O.
    + split.
      * intros [= <-]. right. exists raw. split; [reflexivity|].
        split; [discriminate|]. left. now split.
      * intros [[_ N]|[l [E [_ [[-> _]|[_ [X _]]]]]]].
        -- now specialize (N first others).
        -- reflexivity.
        -- injection E as <-. fold raw in X. rewrite O in X. discriminate.
    + cbv zeta. rewrite normalize_slides_length.
      destruct (Nat.ltb_spec (List.length (filter valid_slide (firstn 8 raw))) 3)
        as [Lt|Ge].
      * split.
        -- intros [= <-]. right. exists raw. split; [reflexivity|].
           split; [discriminate|]. right. now repeat split.
        -- intros [[_ N]|[l [E [_ [[_ X]|[-> _]]]]]].
           ++ now specialize (N first others).
           ++ injection E as <-. fold raw in X. rewrite O in X. discriminate.
           ++ reflexivity.
      * split.
        -- intros H. cbv beta iota in H. destruct (existsb _ _) in H; discriminate H.
        -- intros [[_ N]|[l [E [_ [[_ X]|[_ [_ X]]]]]]].
           ++ now specialize (N first others).
           ++ injection E as <-. fold raw in X. rewrite O in X. discriminate.
           ++ injection E as <-. fold raw in X. lia.
Qed.
